(** * angular-migrator: a shallow embedding of the migration pipeline

    The development follows the layout of the repository:

    - [types.ts]: result records, the migration context, migration steps;
    - [utils/pkg.ts]: the package manifest and its version patches;
    - [utils/angular-json.ts]: the workspace configuration patches;
    - [utils/codemods.ts]: the rewrite primitives over source trees;
    - [migrations/v15-to-v16.ts] .. [migrations/v18-to-v19.ts]: the four steps;
    - [migrator.ts]: step selection, the sequential loop and the report.

    Modelling conventions.

    - The file system is a finite map from absolute paths to entries.  A
      TypeScript file is stored as its syntax tree: loading a file yields the
      tree that was last saved, so printing followed by parsing is taken to be
      the identity.  Comments and white space are not part of a tree.
    - Statements that mutate a shared object (the [result] of a step, the
      source files of a project, a parsed manifest) become explicit state
      passing.
    - A JavaScript exception is the [Thrown] completion of the [IO] monad,
      with the class of the error and its message; writes made before the
      exception stay on the disk.  The exceptions of ts-morph that the
      codemods run into (a node used after it was replaced, a method that a
      node does not have) are thrown where the code throws them.
    - Writing a file succeeds: the steps write below an existing project
      directory, over files they have read.
    - [fixZoneJsImports] rewrites the text of a file; here it rewrites the
      string literals of its tree.
    - Console output of the logger is not modelled.
    - Version numbers are integers ([index.ts] rejects anything else). *)

From Stdlib Require Import ZArith String Ascii Sorting.Sorted.
From stdpp Require Import gmap strings list fin_maps.

Set Warnings "-register-all".

Local Open Scope string_scope.
Local Open Scope Z_scope.
Local Open Scope list_scope.

(** ** JavaScript string operations *)

Module JsString.

(** [s.startsWith(p)] *)
Definition startsWith (p s : string) : bool := String.prefix p s.

(** [s.includes(sub)] *)
Fixpoint includes (sub s : string) : bool :=
  match s with
  | EmptyString => String.prefix sub EmptyString
  | String _ rest => String.prefix sub s || includes sub rest
  end.

(** [s.endsWith(suffix)] *)
Fixpoint endsWith (suffix s : string) : bool :=
  if String.eqb s suffix then true
  else match s with
       | EmptyString => false
       | String _ rest => endsWith suffix rest
       end.

(** [s.slice(0, n)] *)
Definition slice0 (n : nat) (s : string) : string := String.substring 0 n s.

Definition lowerChar (c : ascii) : ascii :=
  let n := nat_of_ascii c in
  if ((65 <=? n)%nat && (n <=? 90)%nat)%bool then ascii_of_nat (n + 32) else c.

Definition upperChar (c : ascii) : ascii :=
  let n := nat_of_ascii c in
  if ((97 <=? n)%nat && (n <=? 122)%nat)%bool then ascii_of_nat (n - 32) else c.

(** [s.toLowerCase()] (on the ASCII letters) *)
Fixpoint toLowerCase (s : string) : string :=
  match s with
  | EmptyString => EmptyString
  | String c rest => String (lowerChar c) (toLowerCase rest)
  end.

(** [s.charAt(0).toUpperCase() + s.slice(1)] *)
Definition capitalize (s : string) : string :=
  match s with
  | EmptyString => EmptyString
  | String c rest => String (upperChar c) rest
  end.

(** [xs.join(sep)] *)
Definition join (sep : string) (xs : list string) : string := String.concat sep xs.

(** [s.replace(prefix, '')] when [s] starts with [prefix]; the report only
    strips the project path from absolute file names. *)
Fixpoint dropPrefix (p s : string) : option string :=
  match p, s with
  | EmptyString, _ => Some s
  | String a p', String b s' => if Ascii.eqb a b then dropPrefix p' s' else None
  | String _ _, EmptyString => None
  end.

(** [s.replace(needle, '')]: the first occurrence of [needle] is removed. *)
Fixpoint removeFirst (needle s : string) : string :=
  match dropPrefix needle s with
  | Some rest => rest
  | None => match s with
            | EmptyString => EmptyString
            | String c rest => String c (removeFirst needle rest)
            end
  end.

(** [s.replace(/^[\\/]/, '')] *)
Definition dropLeadingSeparator (s : string) : string :=
  match s with
  | String c rest =>
      if (Ascii.eqb c "/" || Ascii.eqb c "\")%bool then rest else s
  | EmptyString => s
  end.

Definition isDigit (c : ascii) : bool :=
  let n := nat_of_ascii c in ((48 <=? n)%nat && (n <=? 57)%nat)%bool.

Definition digitValue (c : ascii) : Z := Z.of_nat (nat_of_ascii c) - 48.

(** The digits at the head of [s], folded into [acc]. *)
Fixpoint readDigits (acc : Z) (s : string) : Z :=
  match s with
  | String c rest => if isDigit c then readDigits (10 * acc + digitValue c) rest else acc
  | EmptyString => acc
  end.

(** The number that [parseInt] returns for the decimal digits of [n], of
    which there are at most twenty: the double nearest to [n], ties going to
    the even significand.  The integers up to [2 ^ 53] are doubles.  (An
    engine may round a longer run of digits in another way, and gives
    [Infinity] beyond the largest double; the same rounding stands for both
    here: a version is only ever compared with the versions of the steps,
    all of them far below.) *)
Definition toDouble (n : Z) : Z :=
  if n <=? 2 ^ 53 then n
  else
    let e := Z.log2 n - 52 in
    let q := Z.shiftr n e in
    let r := Z.land n (Z.ones e) in
    let half := Z.shiftl 1 (e - 1) in
    Z.shiftl (if ((half <? r) || ((r =? half) && Z.odd q))%bool then q + 1 else q) e.

(** [parseInt(s.match(/(\d+)/)[1], 10)]: the first run of digits of [s],
    [None] when [s] holds no digit. *)
Fixpoint firstInteger (s : string) : option Z :=
  match s with
  | EmptyString => None
  | String c rest =>
      if isDigit c then Some (toDouble (readDigits 0 s)) else firstInteger rest
  end.

Definition digitChar (n : nat) : ascii := ascii_of_nat (48 + n).

Fixpoint natDigits (fuel n : nat) (acc : string) : string :=
  match fuel with
  | O => acc
  | S fuel' =>
      let acc' := String (digitChar (n mod 10)) acc in
      if (n <? 10)%nat then acc' else natDigits fuel' (n / 10) acc'
  end.

(** [String(n)] for a length *)
Definition ofNat (n : nat) : string := natDigits (S n) n EmptyString.

(** [s] between double quotes *)
Definition quoted (s : string) : string :=
  String (ascii_of_nat 34) (s +:+ String (ascii_of_nat 34) EmptyString).

End JsString.

(** ** [types.ts]: result records *)

Module Change.
Record t := mk { file : string; description : string;
                 before : option string; after : option string }.
End Change.

Module Warning.
Record t := mk { file : string; message : string; line : option nat }.
End Warning.

Module MigrationError.
Record t := mk { file : string; message : string }.
End MigrationError.

Record MigrationResult := {
  step : string;
  changes : list Change.t;
  warnings : list Warning.t;
  errors : list MigrationError.t
}.

Record MigrationContext := {
  projectPath : string;
  fromVersion : Z;
  toVersion : Z;
  dryRun : bool;
  skipPackageJson : bool
}.

(** A change without the optional [before]/[after] pair. *)
Definition change (file description : string) : Change.t :=
  Change.mk file description None None.

Definition warning (file message : string) : Warning.t :=
  Warning.mk file message None.

(** [result.changes.push(...cs)] and [result.warnings.push(...ws)] *)
Definition pushChanges (result : MigrationResult) (cs : list Change.t) : MigrationResult :=
  {| step := step result; changes := changes result ++ cs;
     warnings := warnings result; errors := errors result |}.

Definition pushWarnings (result : MigrationResult) (ws : list Warning.t) : MigrationResult :=
  {| step := step result; changes := changes result;
     warnings := warnings result ++ ws; errors := errors result |}.

(** [warnings.map(w => ({ ...w, message }))] *)
Definition withMessage (message : string) (ws : list Warning.t) : list Warning.t :=
  List.map (fun w => Warning.mk (Warning.file w) message (Warning.line w)) ws.

(** ** The file system *)

(** [package.json]: the three dependency sections; each is an object from
    package names to version ranges and may be missing. *)
Record PackageJson := {
  dependencies : option (gmap string string);
  devDependencies : option (gmap string string);
  peerDependencies : option (gmap string string)
}.

(** A JSON value as far as [angular.json] is inspected. *)
Inductive Json :=
| JString (s : string)
| JArray (items : list Json)
| JOther (text : string).

(** One architect target of [angular.json]. *)
Record Target := {
  builder : option string;
  options : option (gmap string Json)
}.

(** One project of the workspace: the targets of its [architect] object,
    in the order in which [Object.entries] enumerates them. *)
Record WorkspaceProject := {
  architect : option (list (string * Target))
}.

(** [angular.json]: the projects of the workspace, in the order in which
    [Object.entries] enumerates them. *)
Record AngularJson := {
  defaultProject : option Json;
  projects : option (list (string * WorkspaceProject))
}.

(** *** Syntax trees *)

Inductive SyntaxKind :=
| Identifier
| StringLiteral
| CallExpression
| PropertyAccessExpression
| BinaryExpression
| ObjectLiteralExpression
| ArrayLiteralExpression
| PropertyAssignment
| ShorthandPropertyAssignment
| SpreadAssignment
| MethodDeclaration
| ClassDeclaration
| Decorator
| ConstructorDeclaration
| ParameterDeclaration
| PropertyDeclaration
| VariableDeclaration
| TypeReference
| KeywordType
| OtherKind.

Definition SyntaxKind_eqb (a b : SyntaxKind) : bool :=
  match a, b with
  | Identifier, Identifier | StringLiteral, StringLiteral
  | CallExpression, CallExpression
  | PropertyAccessExpression, PropertyAccessExpression
  | BinaryExpression, BinaryExpression
  | ObjectLiteralExpression, ObjectLiteralExpression
  | ArrayLiteralExpression, ArrayLiteralExpression
  | PropertyAssignment, PropertyAssignment
  | ShorthandPropertyAssignment, ShorthandPropertyAssignment
  | SpreadAssignment, SpreadAssignment
  | MethodDeclaration, MethodDeclaration
  | ClassDeclaration, ClassDeclaration | Decorator, Decorator
  | ConstructorDeclaration, ConstructorDeclaration | ParameterDeclaration, ParameterDeclaration
  | PropertyDeclaration, PropertyDeclaration
  | VariableDeclaration, VariableDeclaration
  | TypeReference, TypeReference | KeywordType, KeywordType
  | OtherKind, OtherKind => true
  | _, _ => false
  end.

(** A node of a source tree: its kind, the text of its own token (the name of
    an identifier, the value of a string literal, the operator of a binary
    expression) and its children in source order.

    Children by kind:
    - [PropertyAccessExpression]: the expression, then the name;
    - [CallExpression]: the callee, then the arguments;
    - [BinaryExpression]: left and right operand;
    - [ObjectLiteralExpression]: its properties; [ArrayLiteralExpression]:
      its elements;
    - [PropertyAssignment]: the name, then the initializer;
      [ShorthandPropertyAssignment], [MethodDeclaration]: the name first;
    - [Decorator]: the decorator expression ([Name] or [Name(args)]);
    - [ClassDeclaration]: decorators, the name if any, then the members;
    - [ConstructorDeclaration]: parameters, then the body;
    - [ParameterDeclaration], [PropertyDeclaration], [VariableDeclaration]:
      the name,
      then the type node and the initializer if present;
    - [TypeReference]: the type name, then the type arguments. *)
Inductive Node :=
| mkNode (kind : SyntaxKind) (text : string) (children : list Node).

Definition kind (n : Node) : SyntaxKind := let '(mkNode k _ _) := n in k.
Definition text (n : Node) : string := let '(mkNode _ t _) := n in t.
Definition children (n : Node) : list Node := let '(mkNode _ _ cs) := n in cs.

(** [import Default, { name as alias, ... } from 'moduleSpecifier'] *)
Record ImportSpecifier := {
  importedName : string;
  alias : option string
}.

(** An import declaration with at most a default import and named imports;
    a namespace import ([import * as ns]) is not represented. *)
Record ImportDeclaration := {
  moduleSpecifier : string;
  defaultImport : option string;
  namedImports : list ImportSpecifier
}.

(** A source file of a ts-morph project. *)
Record SourceFile := {
  filePath : string;
  importDeclarations : list ImportDeclaration;
  statements : list Node
}.

(** What a path of the disk holds, as the program reads it: a directory,
    a manifest, workspace file or source file that parses as such, the
    configuration of a TypeScript project with the absolute paths of the
    source files that creating the project from it adds ([None] for a
    configuration that cannot be loaded), or any other text. *)
Inductive Entry :=
| Directory
| PackageJsonFile (pkg : PackageJson)
| AngularJsonFile (config : AngularJson)
| TsConfigFile (sourceFiles : option (list string))
| TypeScriptFile (imports : list ImportDeclaration) (body : list Node)
| TextFile (lines : list string).

Abbreviation Disk := (gmap string Entry).

(** [path.join(dir, file)] for a normalised directory *)
Definition path_join (dir file : string) : string := dir +:+ "/" +:+ file.

(** [fs.existsSync(path)] *)
Definition existsSync (disk : Disk) (path : string) : bool :=
  match disk !! path with Some _ => true | None => false end.

(** ** Computations: a disk, and a result or an exception *)

(** A thrown value: an error of the class [errorName], with its message. *)
Record JsError := { errorName : string; errorMessage : string }.

(** [new Error(message)] *)
Definition Error (message : string) : JsError :=
  {| errorName := "Error"; errorMessage := message |}.
Coercion Error : string >-> JsError.

(** A [TypeError] of the engine. *)
Definition TypeError (message : string) : JsError :=
  {| errorName := "TypeError"; errorMessage := message |}.

(** What [JSON.parse] throws for the text of the file at [path] when that
    is no JSON document.  The message of the engine depends on the text and
    is not modelled: this one stands for it. *)
Definition jsonSyntaxError (path : string) : JsError :=
  {| errorName := "SyntaxError"; errorMessage := "Unexpected token in JSON at " +:+ path |}.

Inductive Completion (A : Type) :=
| Returned (value : A)
| Thrown (error : JsError).
Arguments Returned {A} value.
Arguments Thrown {A} error.

Definition IO (A : Type) : Type := Disk -> Completion A * Disk.

Definition ret {A} (a : A) : IO A := fun disk => (Returned a, disk).

Definition throw {A} (error : JsError) : IO A := fun disk => (Thrown error, disk).

Definition bind {A B} (c : IO A) (k : A -> IO B) : IO B :=
  fun disk =>
    match c disk with
    | (Returned a, disk') => k a disk'
    | (Thrown message, disk') => (Thrown message, disk')
    end.

(** [try { c } catch (e) { handler(e) }] *)
Definition tryCatch {A} (c : IO A) (handler : JsError -> IO A) : IO A :=
  fun disk =>
    match c disk with
    | (Returned a, disk') => (Returned a, disk')
    | (Thrown message, disk') => handler message disk'
    end.

Definition readFile (path : string) : IO (option Entry) :=
  fun disk => (Returned (disk !! path), disk).

(** [fs.writeFileSync(path, content)].  The write is taken to succeed: the
    directory of [path] exists and may be written to, and [path] is not
    itself a directory. *)
Definition writeFileSync (path : string) (content : Entry) : IO unit :=
  fun disk => (Returned tt, <[path := content]> disk).

Declare Scope io_scope.
Delimit Scope io_scope with io.
Notation "x <- c ;; k" := (bind c (fun x => k))
  (at level 100, c at next level, right associativity) : io_scope.
Local Open Scope io_scope.

(** [String(err)]: the class of the error, then its message. *)
Definition String_of_error (err : JsError) : string :=
  errorName err +:+ ": " +:+ errorMessage err.

(** ** [utils/pkg.ts] *)

Definition readPackageJson (projectPath : string) : IO PackageJson :=
  let pkgPath := path_join projectPath "package.json" in
  entry <- readFile pkgPath ;;
  match entry with
  | None => throw ("package.json not found at " +:+ pkgPath)
  | Some (PackageJsonFile pkg) => ret pkg
  | Some _ => throw (jsonSyntaxError pkgPath)
  end.

Definition writePackageJson (projectPath : string) (pkg : PackageJson) : IO unit :=
  writeFileSync (path_join projectPath "package.json") (PackageJsonFile pkg).

(** [{ ...pkg.dependencies, ...pkg.devDependencies }]: later keys win. *)
Definition allDependencies (pkg : PackageJson) : gmap string string :=
  default ∅ (devDependencies pkg) ∪ default ∅ (dependencies pkg).

Definition detectAngularVersion (projectPath : string) : IO Z :=
  pkg <- readPackageJson projectPath ;;
  match allDependencies pkg !! "@angular/core" with
  | None => throw "@angular/core not found in dependencies"
  | Some version =>
      if String.eqb version EmptyString
      then throw "@angular/core not found in dependencies"
      else match JsString.firstInteger version with
           | None => throw ("Cannot parse Angular version from: " +:+ version)
           | Some n => ret n
           end
  end.

(** The [sections] array and [pkg[section]]. *)
Definition sections : list string :=
  ["dependencies"; "devDependencies"; "peerDependencies"].

Definition getSection (pkg : PackageJson) (section : string) : option (gmap string string) :=
  if String.eqb section "dependencies" then dependencies pkg
  else if String.eqb section "devDependencies" then devDependencies pkg
  else if String.eqb section "peerDependencies" then peerDependencies pkg
  else None.

Definition setSection (pkg : PackageJson) (section : string) (deps : gmap string string)
  : PackageJson :=
  if String.eqb section "dependencies"
  then {| dependencies := Some deps; devDependencies := devDependencies pkg;
          peerDependencies := peerDependencies pkg |}
  else if String.eqb section "devDependencies"
  then {| dependencies := dependencies pkg; devDependencies := Some deps;
          peerDependencies := peerDependencies pkg |}
  else if String.eqb section "peerDependencies"
  then {| dependencies := dependencies pkg; devDependencies := devDependencies pkg;
          peerDependencies := Some deps |}
  else pkg.

(** The properties that every object inherits from [Object.prototype]:
    [name in deps] holds for these names whatever [deps] lists, and
    [deps[name]] is then a function ([Object.prototype] itself for
    [__proto__]).  [inheritedText] is what a template literal prints for the
    inherited value. *)
Definition inheritedMethods : list string :=
  ["__defineGetter__"; "__defineSetter__"; "hasOwnProperty"; "__lookupGetter__";
   "__lookupSetter__"; "isPrototypeOf"; "propertyIsEnumerable"; "toString"; "valueOf";
   "toLocaleString"].

Definition inheritedText (name : string) : option string :=
  if String.eqb name "__proto__" then Some "[object Object]"
  else if String.eqb name "constructor" then Some "function Object() { [native code] }"
  else if existsb (String.eqb name) inheritedMethods
       then Some ("function " +:+ name +:+ "() { [native code] }")
       else None.

(** [deps[name] = value]: the property is set on [deps], except that
    [__proto__], unless [deps] has it as a property of its own, is the
    accessor of [Object.prototype], which ignores a string. *)
Definition assign (name value : string) (deps : gmap string string) : gmap string string :=
  match deps !! name with
  | Some _ => <[name := value]> deps
  | None => if String.eqb name "__proto__" then deps else <[name := value]> deps
  end.

(** [name in deps ? deps[name] : undefined], printed: the version that
    [deps] lists, else the text of the inherited property. *)
Definition printedProperty (deps : gmap string string) (name : string) : option string :=
  match deps !! name with
  | Some version => Some version
  | None => inheritedText name
  end.

(** The body of the [for (const section of sections)] loop of
    [replacePackageDependency]. *)
Definition replaceInSection (oldName newName newVersion : string)
    (acc : PackageJson * list Change.t) (section : string) : PackageJson * list Change.t :=
  let '(pkg, changes) := acc in
  match getSection pkg section with
  | None => acc
  | Some deps =>
      match printedProperty deps oldName with
      | None => acc
      | Some oldVersion =>
          let deps' := assign newName newVersion (delete oldName deps) in
          (setSection pkg section deps',
           changes ++ [change "package.json"
                         (section +:+ ": replaced " +:+ oldName +:+ " (" +:+ oldVersion
                          +:+ ") with " +:+ newName +:+ " (" +:+ newVersion +:+ ")")])
      end
  end.

Definition replacePackageDependency (ctx : MigrationContext)
    (oldName newName newVersion : string) : IO (list Change.t) :=
  if skipPackageJson ctx then ret []
  else
    pkg <- readPackageJson (projectPath ctx) ;;
    let '(pkg', changes) :=
      fold_left (replaceInSection oldName newName newVersion) sections (pkg, []) in
    if (negb (Nat.eqb (length changes) 0) && negb (dryRun ctx))%bool
    then (_ <- writePackageJson (projectPath ctx) pkg' ;; ret changes)
    else ret changes.

(** The body of the inner loop of [updatePackageVersions]: one entry of
    [updates] applied to one section.  An inherited property is never equal
    to the version asked for. *)
Definition updateEntry (section : string) (acc : gmap string string * list Change.t)
    (update : string * string) : gmap string string * list Change.t :=
  let '(deps, changes) := acc in
  let '(name, newVersion) := update in
  let updated (oldVersion : string) :=
    (assign name newVersion deps,
     changes ++ [Change.mk "package.json"
                   (section +:+ ": " +:+ name +:+ " " +:+ oldVersion
                    +:+ " â†’ " +:+ newVersion)
                   (Some oldVersion) (Some newVersion)]) in
  match deps !! name with
  | Some oldVersion => if String.eqb oldVersion newVersion then acc else updated oldVersion
  | None =>
      match inheritedText name with
      | Some inherited => updated inherited
      | None => acc
      end
  end.

(** The body of the outer loop: all [updates] applied to one section. *)
Definition updateSection (updates : list (string * string))
    (acc : PackageJson * list Change.t) (section : string) : PackageJson * list Change.t :=
  let '(pkg, changes) := acc in
  match getSection pkg section with
  | None => acc
  | Some deps =>
      let '(deps', changes') := fold_left (updateEntry section) updates (deps, changes) in
      (setSection pkg section deps', changes')
  end.

Definition updatePackageVersions (ctx : MigrationContext)
    (updates : list (string * string)) : IO (list Change.t) :=
  if skipPackageJson ctx then ret []
  else
    pkg <- readPackageJson (projectPath ctx) ;;
    let '(pkg', changes) := fold_left (updateSection updates) sections (pkg, []) in
    if (negb (Nat.eqb (length changes) 0) && negb (dryRun ctx))%bool
    then (_ <- writePackageJson (projectPath ctx) pkg' ;; ret changes)
    else ret changes.

(** ** Loops that edit in place and push to an output array *)

(** [xs.forEach(x => ...)] where the body edits [x] in place and pushes to a
    shared array: the edited elements, and what was pushed, in order. *)
Fixpoint mapCollect {A B O : Type} (f : A -> B * list O) (xs : list A) : list B * list O :=
  match xs with
  | [] => ([], [])
  | x :: rest =>
      let '(y, out) := f x in
      let '(ys, outs) := mapCollect f rest in
      (y :: ys, out ++ outs)
  end.

(** ** [utils/angular-json.ts] *)

Definition readAngularJson (projectPath : string) : IO (option AngularJson) :=
  let filePath := path_join projectPath "angular.json" in
  entry <- readFile filePath ;;
  match entry with
  | None => ret None
  | Some (AngularJsonFile config) => ret (Some config)
  | Some _ => throw (jsonSyntaxError filePath)
  end.

Definition writeAngularJson (projectPath : string) (config : AngularJson) : IO unit :=
  writeFileSync (path_join projectPath "angular.json") (AngularJsonFile config).

(** The edits of one [build] target whose builder is [browser]:
    [options.main] becomes [options.browser], a string [options.polyfills]
    becomes an array. *)
Definition renameMainOption (projectName : string) (opts : gmap string Json)
  : gmap string Json * list Change.t :=
  match opts !! "main" with
  | Some main =>
      (delete "main" (<["browser" := main]> opts),
       [change "angular.json"
          ("[" +:+ projectName +:+ "] options: " +:+ JsString.quoted "main"
           +:+ " renamed to " +:+ JsString.quoted "browser")])
  | None => (opts, [])
  end.

Definition polyfillsToArray (projectName : string) (opts : gmap string Json)
  : gmap string Json * list Change.t :=
  match opts !! "polyfills" with
  | Some (JString p) =>
      (<["polyfills" := JArray [JString p]]> opts,
       [change "angular.json"
          ("[" +:+ projectName +:+ "] options.polyfills converted from string to array")])
  | _ => (opts, [])
  end.

Definition migrateTarget (projectName : string) (entry : string * Target)
  : (string * Target) * list Change.t :=
  let '(targetName, target) := entry in
  if negb (String.eqb targetName "build") then (entry, [])
  else
    match builder target with
    | Some b =>
        if String.eqb b "@angular-devkit/build-angular:browser" then
          let builderChange :=
            Change.mk "angular.json"
              ("[" +:+ projectName +:+ "] builder: browser → application")
              (Some "@angular-devkit/build-angular:browser")
              (Some "@angular-devkit/build-angular:application") in
          match options target with
          | Some opts =>
              let '(opts1, mainChanges) := renameMainOption projectName opts in
              let '(opts2, polyfillChanges) := polyfillsToArray projectName opts1 in
              ((targetName,
                {| builder := Some "@angular-devkit/build-angular:application";
                   options := Some opts2 |}),
               builderChange :: mainChanges ++ polyfillChanges)
          | None =>
              ((targetName,
                {| builder := Some "@angular-devkit/build-angular:application";
                   options := None |}),
               [builderChange])
          end
        else if String.eqb b "@angular-devkit/build-angular:browser-esbuild" then
          ((targetName,
            {| builder := Some "@angular-devkit/build-angular:application";
               options := options target |}),
           [Change.mk "angular.json"
              ("[" +:+ projectName +:+ "] builder: browser-esbuild → application")
              (Some "@angular-devkit/build-angular:browser-esbuild")
              (Some "@angular-devkit/build-angular:application")])
        else (entry, [])
    | None => (entry, [])
    end.

Definition migrateWorkspaceProject (entry : string * WorkspaceProject)
  : (string * WorkspaceProject) * list Change.t :=
  let '(projectName, project) := entry in
  match architect project with
  | None => (entry, [])
  | Some targets =>
      let '(targets', changes) := mapCollect (migrateTarget projectName) targets in
      ((projectName, {| architect := Some targets' |}), changes)
  end.

Definition migrateBrowserBuilderToApplication (ctx : MigrationContext) : IO (list Change.t) :=
  config <- readAngularJson (projectPath ctx) ;;
  match config with
  | None => ret []
  | Some config =>
      match projects config with
      | None => ret []
      | Some ps =>
          let '(ps', changes) := mapCollect migrateWorkspaceProject ps in
          let config' := {| defaultProject := defaultProject config; projects := Some ps' |} in
          if (negb (Nat.eqb (length changes) 0) && negb (dryRun ctx))%bool
          then (_ <- writeAngularJson (projectPath ctx) config' ;; ret changes)
          else ret changes
      end
  end.

Definition removeDefaultProject (ctx : MigrationContext) : IO (list Change.t) :=
  config <- readAngularJson (projectPath ctx) ;;
  match config with
  | None => ret []
  | Some config =>
      match defaultProject config with
      | None => ret []
      | Some _ =>
          let config' := {| defaultProject := None; projects := projects config |} in
          _ <- (if dryRun ctx then ret tt else writeAngularJson (projectPath ctx) config') ;;
          ret [change "angular.json"
               ("Removed deprecated " +:+ JsString.quoted "defaultProject" +:+ " field")]
      end
  end.

(** ** Source trees: the ts-morph operations the codemods use *)

Definition missingNode : Node := mkNode OtherKind EmptyString [].

Definition identifier (name : string) : Node := mkNode Identifier name [].

Definition isKind (k : SyntaxKind) (n : Node) : bool := SyntaxKind_eqb (kind n) k.

(** [node.getText()]: the tree printed in a canonical layout. *)
Fixpoint getText (n : Node) : string :=
  match n with
  | mkNode k t cs =>
      let parts := List.map getText cs in
      match k with
      | Identifier => t
      | StringLiteral => "'" +:+ t +:+ "'"
      | PropertyAccessExpression => JsString.join "." parts
      | CallExpression =>
          match parts with
          | [] => "()"
          | callee :: args => callee +:+ "(" +:+ JsString.join ", " args +:+ ")"
          end
      | BinaryExpression => JsString.join (" " +:+ t +:+ " ") parts
      | ObjectLiteralExpression => "{ " +:+ JsString.join ", " parts +:+ " }"
      | ArrayLiteralExpression => "[" +:+ JsString.join ", " parts +:+ "]"
      | PropertyAssignment => JsString.join ": " parts
      | SpreadAssignment => "..." +:+ JsString.join " " parts
      | TypeReference =>
          match parts with
          | [] => t
          | [typeName] => typeName
          | typeName :: args => typeName +:+ "<" +:+ JsString.join ", " args +:+ ">"
          end
      | _ =>
          if String.eqb t EmptyString then JsString.join " " parts
          else JsString.join " " (t :: parts)
      end
  end.

(** The descendants of a node, parents before children, in source order. *)
Fixpoint descendants (n : Node) : list Node :=
  match n with
  | mkNode _ _ cs => flat_map (fun c => c :: descendants c) cs
  end.

(** [sf.getDescendantsOfKind(k)] over the statements of a file *)
Definition getDescendantsOfKind (k : SyntaxKind) (sf : SourceFile) : list Node :=
  List.filter (isKind k) (flat_map (fun s => s :: descendants s) (statements sf)).

(** [call.getExpression()], [access.getExpression()] *)
Definition getExpression (n : Node) : Node := hd missingNode (children n).

(** [call.getArguments()] *)
Definition getArguments (call : Node) : list Node := tl (children call).

(** [access.getName()] for a property access expression *)
Definition PropertyAccess_getName (access : Node) : string :=
  getText (nth 1 (children access) missingNode).

(** [bin.getLeft()] *)
Definition getLeft (bin : Node) : Node := hd missingNode (children bin).

(** [ref.getTypeArguments()] *)
Definition getTypeArguments (ref : Node) : list Node := tl (children ref).

(** [p.getName()] for a member of an object literal; a spread has no name. *)
Definition Property_getName (p : Node) : option string :=
  match kind p with
  | PropertyAssignment | ShorthandPropertyAssignment | MethodDeclaration =>
      Some (getText (hd missingNode (children p)))
  | _ => None
  end.

Definition hasPropertyName (propertyName : string) (p : Node) : bool :=
  match Property_getName p with
  | Some n => String.eqb n propertyName
  | None => false
  end.

(** [arg.getProperty(name)] *)
Definition getProperty (propertyName : string) (arg : Node) : option Node :=
  List.find (hasPropertyName propertyName) (children arg).

(** [prop.getInitializer()] for a property assignment *)
Definition getInitializer (prop : Node) : Node := nth 1 (children prop) missingNode.

(** [dec.getName()]: [Name] for [@Name], [@Name(...)], [@ns.Name(...)] *)
Definition Decorator_getName (dec : Node) : string :=
  let e := getExpression dec in
  let callee := if isKind CallExpression e then getExpression e else e in
  if isKind PropertyAccessExpression callee then PropertyAccess_getName callee
  else getText callee.

(** [dec.getArguments()] *)
Definition Decorator_getArguments (dec : Node) : list Node :=
  let e := getExpression dec in
  if isKind CallExpression e then getArguments e else [].

(** The decorator with its first argument replaced (an edit of [args[0]]). *)
Definition Decorator_setFirstArgument (dec : Node) (arg : Node) : Node :=
  match dec with
  | mkNode k t (mkNode CallExpression ct (callee :: _ :: args) :: rest) =>
      mkNode k t (mkNode CallExpression ct (callee :: arg :: args) :: rest)
  | _ => dec
  end.

(** [cls.getName()] *)
Definition Class_getName (cls : Node) : option string :=
  option_map text (List.find (isKind Identifier) (children cls)).

Definition isTypeNode (n : Node) : bool :=
  (isKind TypeReference n || isKind KeywordType n)%bool.

(** [param.getTypeNode()], [prop.getTypeNode()] *)
Definition getTypeNode (declaration : Node) : option Node :=
  List.find isTypeNode (tl (children declaration)).

Definition hasTypeText (typeName : string) (declaration : Node) : bool :=
  match getTypeNode declaration with
  | Some ty => String.eqb (getText ty) typeName
  | None => false
  end.

(** The first element that satisfies [p] is replaced by [f] of it, or
    removed when [f] gives [None]: an edit through the handle that
    [xs.find(p)] returned. *)
Fixpoint editFirst {A : Type} (p : A -> bool) (f : A -> option A) (xs : list A) : list A :=
  match xs with
  | [] => []
  | x :: rest =>
      if p x then match f x with Some y => y :: rest | None => rest end
      else x :: editFirst p f rest
  end.

(** [sf.getClasses().forEach(cls => ...)]: the body applied to the class
    declarations among the statements of the file. *)
Definition forEachClass {O : Type} (f : Node -> Node * list O) (stmts : list Node)
  : list Node * list O :=
  mapCollect (fun s => if isKind ClassDeclaration s then f s else (s, [])) stmts.

(** [cls.getDecorators().forEach(dec => ...)] *)
Definition forEachDecorator {O : Type} (f : Node -> Node * list O) (cls : Node)
  : Node * list O :=
  let '(cs, out) :=
    mapCollect (fun c => if isKind Decorator c then f c else (c, [])) (children cls) in
  (mkNode (kind cls) (text cls) cs, out).

(** [sf.getClasses().forEach(cls => cls.getDecorators().forEach(dec => ...))]
    as a read-only scan. *)
Definition decoratedClasses (sf : SourceFile) : list (Node * Node) :=
  flat_map (fun cls => List.map (fun dec => (cls, dec))
                         (List.filter (isKind Decorator) (children cls)))
    (List.filter (isKind ClassDeclaration) (statements sf)).

(** [sf.saveSync()] *)
Definition saveSync (sf : SourceFile) : IO unit :=
  writeFileSync (filePath sf) (TypeScriptFile (importDeclarations sf) (statements sf)).

(** ** [utils/codemods.ts] *)

(** What the body of a [for (const sf of sourceFiles)] loop does to one file:
    the file as edited in memory, the [fileChanged] flag that guards
    [sf.saveSync()], and what it pushes. *)
Module FileEdit.
Record t := mk {
  sourceFile : SourceFile;
  fileChanged : bool;
  changes : list Change.t;
  warnings : list Warning.t
}.
Definition unchanged (sf : SourceFile) : t := mk sf false [] [].
End FileEdit.

(** What a codemod leaves behind: the source files of the project as edited
    in memory and the arrays it returns. *)
Module Codemod.
Record t := mk {
  sourceFiles : list SourceFile;
  changes : list Change.t;
  warnings : list Warning.t
}.
End Codemod.

(** The loop shared by the codemods:

    [for (const sf of sourceFiles) { body; if (fileChanged && !ctx.dryRun) sf.saveSync(); }] *)
Fixpoint forEachSourceFile (ctx : MigrationContext) (body : SourceFile -> FileEdit.t)
    (sourceFiles : list SourceFile) : IO Codemod.t :=
  match sourceFiles with
  | [] => ret (Codemod.mk [] [] [])
  | sf :: rest =>
      let e := body sf in
      _ <- (if (FileEdit.fileChanged e && negb (dryRun ctx))%bool
            then saveSync (FileEdit.sourceFile e) else ret tt) ;;
      r <- forEachSourceFile ctx body rest ;;
      ret (Codemod.mk (FileEdit.sourceFile e :: Codemod.sourceFiles r)
             (FileEdit.changes e ++ Codemod.changes r)
             (FileEdit.warnings e ++ Codemod.warnings r))
  end.

(** The same loop around a body that may throw: the exception leaves the
    loop, and with it the codemod, before the file is saved; the files before
    it have been saved. *)
Fixpoint forEachSourceFileOrThrow (ctx : MigrationContext)
    (body : SourceFile -> Completion FileEdit.t) (sourceFiles : list SourceFile)
  : IO Codemod.t :=
  match sourceFiles with
  | [] => ret (Codemod.mk [] [] [])
  | sf :: rest =>
      match body sf with
      | Thrown message => throw message
      | Returned e =>
          _ <- (if (FileEdit.fileChanged e && negb (dryRun ctx))%bool
                then saveSync (FileEdit.sourceFile e) else ret tt) ;;
          r <- forEachSourceFileOrThrow ctx body rest ;;
          ret (Codemod.mk (FileEdit.sourceFile e :: Codemod.sourceFiles r)
                 (FileEdit.changes e ++ Codemod.changes r)
                 (FileEdit.warnings e ++ Codemod.warnings r))
      end
  end.

(** What a node of ts-morph throws when it is used after a manipulation has
    replaced it or a node around it (the text of the node, which ts-morph
    appends, is left out). *)
Definition forgottenNode : string :=
  "Attempted to get information from a node that was removed or forgotten.".

Definition withImports (sf : SourceFile) (imports : list ImportDeclaration) : SourceFile :=
  {| filePath := filePath sf; importDeclarations := imports; statements := statements sf |}.

Definition withStatements (sf : SourceFile) (stmts : list Node) : SourceFile :=
  {| filePath := filePath sf; importDeclarations := importDeclarations sf;
     statements := stmts |}.

(** [imp.getNamedImports().some(ni => ni.getName() === symbolName)] *)
Definition importsName (symbolName : string) (imp : ImportDeclaration) : bool :=
  existsb (fun ni => String.eqb (importedName ni) symbolName) (namedImports imp).

(** [imp.getModuleSpecifierValue() === moduleName && imp.getNamedImports().some(...)] *)
Definition importsFrom (moduleName symbolName : string) (imp : ImportDeclaration) : bool :=
  (String.eqb (moduleSpecifier imp) moduleName && importsName symbolName imp)%bool.

(** *** Import transformations *)

(** [ni.setName(newName)] on every specifier of [imp] named [oldName]. *)
Definition renameSpecifiers (oldName newName : string) (imp : ImportDeclaration)
  : ImportDeclaration :=
  {| moduleSpecifier := moduleSpecifier imp;
     defaultImport := defaultImport imp;
     namedImports :=
       List.map (fun ni => if String.eqb (importedName ni) oldName
                           then {| importedName := newName; alias := alias ni |} else ni)
         (namedImports imp) |}.

(** [id.replaceWithText(newName)] on every identifier of the tree whose text
    is [oldName]. *)
Fixpoint renameIdentifiers (oldName newName : string) (n : Node) : Node :=
  match n with
  | mkNode k t cs =>
      mkNode k
        (if (SyntaxKind_eqb k Identifier && String.eqb t oldName)%bool then newName else t)
        (List.map (renameIdentifiers oldName newName) cs)
  end.

(** The identifiers of an import declaration whose parent is not an import
    specifier: the default import. *)
Definition renameDefaultImport (oldName newName : string) (imp : ImportDeclaration)
  : ImportDeclaration :=
  {| moduleSpecifier := moduleSpecifier imp;
     defaultImport :=
       match defaultImport imp with
       | Some d => Some (if String.eqb d oldName then newName else d)
       | None => None
       end;
     namedImports := namedImports imp |}.

(** "Also rename usages in the file body": every identifier of the file with
    the text [oldName] whose parent is not an import specifier. *)
Definition renameUsages (oldName newName : string) (sf : SourceFile) : SourceFile :=
  {| filePath := filePath sf;
     importDeclarations := List.map (renameDefaultImport oldName newName) (importDeclarations sf);
     statements := List.map (renameIdentifiers oldName newName) (statements sf) |}.

Definition renameNamedImport_file (moduleName oldName newName : string) (sf : SourceFile)
  : FileEdit.t :=
  let fileChanged := existsb (importsFrom moduleName oldName) (importDeclarations sf) in
  if fileChanged then
    let renamed :=
      withImports sf
        (List.map (fun imp => if String.eqb (moduleSpecifier imp) moduleName
                              then renameSpecifiers oldName newName imp else imp)
           (importDeclarations sf)) in
    FileEdit.mk (renameUsages oldName newName renamed) true
      [change (filePath sf)
         (oldName +:+ " → " +:+ newName +:+ " (import from '" +:+ moduleName +:+ "')")]
      []
  else FileEdit.unchanged sf.

Definition renameNamedImport (sourceFiles : list SourceFile)
    (moduleName oldName newName : string) (ctx : MigrationContext) : IO Codemod.t :=
  forEachSourceFile ctx (renameNamedImport_file moduleName oldName newName) sourceFiles.

(** "Remove from old import": the declaration goes when the symbol was its
    only named import, otherwise its first specifier of that name goes. *)
Definition removeNamedImport (symbolName : string) (imp : ImportDeclaration)
  : option ImportDeclaration :=
  if Nat.eqb (length (namedImports imp)) 1 then None
  else Some {| moduleSpecifier := moduleSpecifier imp;
               defaultImport := defaultImport imp;
               namedImports :=
                 editFirst (fun ni => String.eqb (importedName ni) symbolName) (fun _ => None)
                   (namedImports imp) |}.

(** [imp.addNamedImport(symbolName)] *)
Definition addNamedImport (symbolName : string) (imp : ImportDeclaration)
  : ImportDeclaration :=
  {| moduleSpecifier := moduleSpecifier imp;
     defaultImport := defaultImport imp;
     namedImports := namedImports imp ++ [{| importedName := symbolName; alias := None |}] |}.

(** "Add to new import (merge with existing or create new)" *)
Definition addToModule (symbolName toModule : string) (imports : list ImportDeclaration)
  : list ImportDeclaration :=
  if existsb (fun imp => String.eqb (moduleSpecifier imp) toModule) imports
  then editFirst (fun imp => String.eqb (moduleSpecifier imp) toModule)
         (fun imp => Some (addNamedImport symbolName imp)) imports
  else imports ++ [{| moduleSpecifier := toModule; defaultImport := None;
                      namedImports := [{| importedName := symbolName; alias := None |}] |}].

Definition moveImport_file (symbolName fromModule toModule : string) (sf : SourceFile)
  : FileEdit.t :=
  if existsb (importsFrom fromModule symbolName) (importDeclarations sf) then
    let removed :=
      editFirst (importsFrom fromModule symbolName) (removeNamedImport symbolName)
        (importDeclarations sf) in
    FileEdit.mk (withImports sf (addToModule symbolName toModule removed)) true
      [change (filePath sf)
         (symbolName +:+ ": '" +:+ fromModule +:+ "' → '" +:+ toModule +:+ "'")]
      []
  else FileEdit.unchanged sf.

Definition moveImport (sourceFiles : list SourceFile)
    (symbolName fromModule toModule : string) (ctx : MigrationContext) : IO Codemod.t :=
  forEachSourceFile ctx (moveImport_file symbolName fromModule toModule) sourceFiles.

Definition removeObsoleteImport_file (moduleName symbolName : string) (sf : SourceFile)
  : FileEdit.t :=
  if existsb (importsFrom moduleName symbolName) (importDeclarations sf) then
    FileEdit.mk
      (withImports sf
         (editFirst (importsFrom moduleName symbolName) (removeNamedImport symbolName)
            (importDeclarations sf)))
      true
      [change (filePath sf)
         ("Removed obsolete import '" +:+ symbolName +:+ "' from '" +:+ moduleName +:+ "'")]
      [warning (filePath sf)
         ("'" +:+ symbolName +:+ "' was removed from '" +:+ moduleName
          +:+ "'. Check usages manually.")]
  else FileEdit.unchanged sf.

Definition removeObsoleteImport (sourceFiles : list SourceFile)
    (moduleName symbolName : string) (ctx : MigrationContext) : IO Codemod.t :=
  forEachSourceFile ctx (removeObsoleteImport_file moduleName symbolName) sourceFiles.

(** *** Remove symbol from NgModule imports/declarations/exports arrays *)

(** "Match plain identifier" *)
Definition isIdentifierNamed (symbolName : string) (el : Node) : bool :=
  (isKind Identifier el && String.eqb (getText el) symbolName)%bool.

(** One iteration of [for (const arrayProp of ['imports', 'declarations', 'exports'])]
    on the object literal [arg] of a decorator: whether [elements.forEach]
    meets an identifier called [symbolName]. *)
Definition listsIdentifier (symbolName : string) (arg : Node) (arrayProp : string) : bool :=
  match getProperty arrayProp arg with
  | None => false
  | Some prop =>
      (isKind PropertyAssignment prop
       && isKind ArrayLiteralExpression (getInitializer prop)
       && existsb (isIdentifierNamed symbolName) (children (getInitializer prop)))%bool
  end.

(** Whether the body of [cls.getDecorators().forEach] reaches [el.remove()]
    on this decorator. *)
Definition removeFromNgModuleArrays_decorator (symbolName : string) (dec : Node) : bool :=
  let decName := Decorator_getName dec in
  if (negb (String.eqb decName "NgModule") && negb (String.eqb decName "Component"))%bool
  then false
  else
    match Decorator_getArguments dec with
    | [] => false
    | arg :: _ =>
        (isKind ObjectLiteralExpression arg
         && existsb (listsIdentifier symbolName arg) ["imports"; "declarations"; "exports"])%bool
    end.

(** The element of an array literal is an expression, and an [Identifier]
    of ts-morph has no [remove] method (elements are removed through the
    array literal): [el.remove()] throws a [TypeError] before anything is
    removed or pushed.  A file without such an element is left alone. *)
Definition removeFromNgModuleArrays_file (symbolName : string) (sf : SourceFile)
  : Completion FileEdit.t :=
  if existsb (fun cd : Node * Node => removeFromNgModuleArrays_decorator symbolName cd.2)
       (decoratedClasses sf)
  then Thrown (TypeError "el.remove is not a function")
  else Returned (FileEdit.unchanged sf).

Definition removeFromNgModuleArrays (sourceFiles : list SourceFile)
    (symbolName : string) (ctx : MigrationContext) : IO Codemod.t :=
  forEachSourceFileOrThrow ctx (removeFromNgModuleArrays_file symbolName) sourceFiles.

(** *** ComponentFactory / ComponentFactoryResolver migration (v16 → v17) *)

Definition isResolverTyped (declaration : Node) : bool :=
  hasTypeText "ComponentFactoryResolver" declaration.

(** "1. Remove ComponentFactoryResolver constructor parameters": one
    constructor; a warning per removed parameter. *)
Definition removeResolverParameters (file className : string) (ctor : Node)
  : Node * list Warning.t :=
  let isRemoved c := (isKind ParameterDeclaration c && isResolverTyped c)%bool in
  (mkNode (kind ctor) (text ctor) (List.filter (fun c => negb (isRemoved c)) (children ctor)),
   List.map (fun _ =>
               warning file
                 ("Removed ComponentFactoryResolver constructor param in " +:+ className
                  +:+ ". Verify resolveComponentFactory() usages are migrated."))
     (List.filter isRemoved (children ctor))).

(** Steps 1 and 2 on one class: its constructors lose the parameters typed
    [ComponentFactoryResolver], then the class loses the fields of that type. *)
Definition removeResolverMembers (file : string) (cls : Node) : Node * list Warning.t :=
  let className := default "anonymous" (Class_getName cls) in
  let '(members, warnings) :=
    mapCollect (fun c => if isKind ConstructorDeclaration c
                         then removeResolverParameters file className c else (c, []))
      (children cls) in
  let isRemovedField c := (isKind PropertyDeclaration c && isResolverTyped c)%bool in
  (mkNode (kind cls) (text cls) (List.filter (fun c => negb (isRemovedField c)) members),
   warnings).

(** Whether steps 1 and 2 remove anything from the class. *)
Definition hasResolverMembers (cls : Node) : bool :=
  existsb (fun c =>
             (isKind ConstructorDeclaration c
              && existsb (fun p => (isKind ParameterDeclaration p && isResolverTyped p)%bool)
                   (children c))
             || (isKind PropertyDeclaration c && isResolverTyped c))%bool
    (children cls).

(** [x.name(...)]: a call whose callee is a property access of that name. *)
Definition isMethodCall (methodName : string) (call : Node) : bool :=
  (isKind CallExpression call
   && isKind PropertyAccessExpression (getExpression call)
   && String.eqb (PropertyAccess_getName (getExpression call)) methodName)%bool.

(** Step 3: a warning for every [x.resolveComponentFactory(X)]. *)
Definition resolveComponentFactoryWarnings (sf : SourceFile) : list Warning.t :=
  flat_map (fun call =>
              if (isMethodCall "resolveComponentFactory" call
                  && Nat.eqb (length (getArguments call)) 1)%bool
              then [warning (filePath sf)
                      ("Found resolveComponentFactory("
                       +:+ getText (hd missingNode (getArguments call))
                       +:+ ") — replace vcr.createComponent(factory) with vcr.createComponent("
                       +:+ getText (hd missingNode (getArguments call))
                       +:+ ") manually or check auto-migration below.")]
              else [])
    (getDescendantsOfKind CallExpression sf).

(** Step 4: whether [call] is a [createComponent(r.resolveComponentFactory(X), ...)]
    whose first argument the loop replaces by [X]. *)
Definition inlinesFactoryCall (call : Node) : bool :=
  (isMethodCall "createComponent" call
   && match getArguments call with
      | [] => false
      | firstArg :: _ =>
          (isMethodCall "resolveComponentFactory" firstArg
           && Nat.eqb (length (getArguments firstArg)) 1)%bool
      end)%bool.

(** Steps 1 to 4 on one file.  The loop of step 4 walks the calls that
    [getDescendantsOfKind] collected before any edit: the first argument it
    replaces is one of them, further on in the list, and is forgotten by
    [replaceWithText], so that the loop throws when it comes to it.  A file
    in which step 4 finds nothing to replace comes back with the members
    removed by steps 1 and 2 and the warnings of steps 1 and 3. *)
Definition migrateComponentFactoryResolver_file (sf : SourceFile) : Completion FileEdit.t :=
  let '(stmts1, memberWarnings) :=
    forEachClass (removeResolverMembers (filePath sf)) (statements sf) in
  let membersRemoved :=
    existsb (fun s => (isKind ClassDeclaration s && hasResolverMembers s)%bool)
      (statements sf) in
  let sf1 := withStatements sf stmts1 in
  let callWarnings := resolveComponentFactoryWarnings sf1 in
  if existsb inlinesFactoryCall (getDescendantsOfKind CallExpression sf1)
  then Thrown forgottenNode
  else Returned (FileEdit.mk sf1 membersRemoved [] (memberWarnings ++ callWarnings)).

Definition migrateComponentFactoryResolver (sourceFiles : list SourceFile)
    (ctx : MigrationContext) : IO Codemod.t :=
  forEachSourceFileOrThrow ctx migrateComponentFactoryResolver_file sourceFiles.

(** *** CanLoad → CanMatch (v16 → v17) *)

Definition migrateCanLoadToCanMatch_file (sf : SourceFile) : FileEdit.t :=
  if existsb (importsFrom "@angular/router" "CanLoad") (importDeclarations sf) then
    let renamed :=
      withImports sf
        (editFirst (importsFrom "@angular/router" "CanLoad")
           (fun imp => Some (renameSpecifiers "CanLoad" "CanMatch" imp))
           (importDeclarations sf)) in
    FileEdit.mk (renameUsages "CanLoad" "CanMatch" renamed) true
      [change (filePath sf) "CanLoad → CanMatch (removed in Angular 17)"]
      []
  else FileEdit.unchanged sf.

Definition migrateCanLoadToCanMatch (sourceFiles : list SourceFile)
    (ctx : MigrationContext) : IO Codemod.t :=
  forEachSourceFile ctx migrateCanLoadToCanMatch_file sourceFiles.

(** *** BrowserModule.withServerTransition (v17 → v18) *)

(** [BrowserModule.withServerTransition(...)] *)
Definition isServerTransitionCall (call : Node) : bool :=
  (isMethodCall "withServerTransition" call
   && String.eqb (getText (getExpression (getExpression call))) "BrowserModule")%bool.

(** [BrowserModule.withServerTransition({...})] becomes [BrowserModule]; the
    number of calls replaced. *)
Fixpoint replaceWithServerTransition (n : Node) : Node * nat :=
  match n with
  | mkNode k t cs =>
      if isServerTransitionCall n
      then (identifier "BrowserModule", 1%nat)
      else (mkNode k t (List.map (fun c => fst (replaceWithServerTransition c)) cs),
            list_sum (List.map (fun c => snd (replaceWithServerTransition c)) cs))
  end.

(** The loop walks the calls that [getDescendantsOfKind] collected before
    any edit.  A call below a replaced call is one of them, further on in the
    list, and is forgotten by [replaceWithText]: the loop throws when it
    comes to it.  Otherwise every matching call is replaced. *)
Definition removeBrowserModuleWithServerTransition_file (sf : SourceFile)
  : Completion FileEdit.t :=
  if existsb (fun call => (isServerTransitionCall call
                           && existsb (isKind CallExpression) (descendants call))%bool)
       (getDescendantsOfKind CallExpression sf)
  then Thrown forgottenNode
  else
    let replaced :=
      list_sum (List.map (fun s => snd (replaceWithServerTransition s)) (statements sf)) in
    Returned
      (FileEdit.mk
         (withStatements sf
            (List.map (fun s => fst (replaceWithServerTransition s)) (statements sf)))
         (negb (Nat.eqb replaced 0))
         (repeat (change (filePath sf)
                    "BrowserModule.withServerTransition() → BrowserModule (removed in Angular 18)")
            replaced)
         []).

Definition removeBrowserModuleWithServerTransition (sourceFiles : list SourceFile)
    (ctx : MigrationContext) : IO Codemod.t :=
  forEachSourceFileOrThrow ctx removeBrowserModuleWithServerTransition_file sourceFiles.

(** *** ModuleWithProviders<T> — ensure generic is present *)

Definition ensureModuleWithProvidersGeneric_file (sf : SourceFile) : FileEdit.t :=
  FileEdit.mk sf false []
    (flat_map (fun ref =>
                 if (String.eqb (getText ref) "ModuleWithProviders"
                     && Nat.eqb (length (getTypeArguments ref)) 0)%bool
                 then [warning (filePath sf)
                         "ModuleWithProviders is missing a generic type parameter. Add ModuleWithProviders<YourModule>"]
                 else [])
       (getDescendantsOfKind TypeReference sf)).

Definition ensureModuleWithProvidersGeneric (sourceFiles : list SourceFile)
    (ctx : MigrationContext) : IO Codemod.t :=
  forEachSourceFile ctx ensureModuleWithProvidersGeneric_file sourceFiles.

(** *** standalone: false migration (v18 → v19) *)

Definition standaloneDecorators : list string := ["Component"; "Directive"; "Pipe"].

(** [arg.getProperties().some(p => Node.isPropertyAssignment(p) && p.getName() === 'standalone')] *)
Definition hasStandalone (arg : Node) : bool :=
  existsb (fun p => (isKind PropertyAssignment p && hasPropertyName "standalone" p)%bool)
    (children arg).

(** The property [standalone: false]. *)
Definition standaloneFalse : Node :=
  mkNode PropertyAssignment EmptyString
    [identifier "standalone"; mkNode OtherKind "false" []].

(** [arg.insertPropertyAssignment(0, { name: 'standalone', initializer: 'false' })] *)
Definition insertStandaloneFalse (arg : Node) : Node :=
  mkNode (kind arg) (text arg) (standaloneFalse :: children arg).

Definition addStandaloneFalse_decorator (file className : string) (dec : Node)
  : Node * list Change.t :=
  if negb (existsb (String.eqb (Decorator_getName dec)) standaloneDecorators) then (dec, [])
  else
    match Decorator_getArguments dec with
    | [] => (dec, [])
    | arg :: _ =>
        if negb (isKind ObjectLiteralExpression arg) then (dec, [])
        else if hasStandalone arg then (dec, [])
        else
          (Decorator_setFirstArgument dec (insertStandaloneFalse arg),
           [change file
              ("@" +:+ Decorator_getName dec +:+ "(" +:+ className
               +:+ "): added standalone: false (Angular 19 default changed to true)")])
    end.

Definition addStandaloneFalse_class (file : string) (cls : Node) : Node * list Change.t :=
  forEachDecorator
    (addStandaloneFalse_decorator file (default EmptyString (Class_getName cls))) cls.

Definition addStandaloneFalse_file (sf : SourceFile) : FileEdit.t :=
  let '(stmts, changes) :=
    forEachClass (addStandaloneFalse_class (filePath sf)) (statements sf) in
  FileEdit.mk (withStatements sf stmts) (negb (Nat.eqb (length changes) 0)) changes [].

Definition addStandaloneFalse (sourceFiles : list SourceFile) (ctx : MigrationContext)
  : IO Codemod.t :=
  forEachSourceFile ctx addStandaloneFalse_file sourceFiles.

(** *** async() → waitForAsync() (v17 → v18) *)

Definition migrateAsyncToWaitForAsync (sourceFiles : list SourceFile)
    (ctx : MigrationContext) : IO Codemod.t :=
  renameNamedImport sourceFiles "@angular/core/testing" "async" "waitForAsync" ctx.

(** *** Files of a project *)

(** The path relative to [cwd], for a path below it. *)
Definition relativeTo (cwd path : string) : option string :=
  JsString.dropPrefix (cwd +:+ "/") path.

(** [ignore: ['node_modules/**', 'dist/**']] *)
Definition isIgnored (relative : string) : bool :=
  (JsString.startsWith "node_modules/" relative || JsString.startsWith "dist/" relative)%bool.

(** Whether a segment of the path starts with a dot: a pattern matches no
    such file and goes into no such directory unless [dot] is set. *)
Definition hasDotSegment (relative : string) : bool :=
  (JsString.startsWith "." relative || JsString.includes "/." relative)%bool.

(** ['**/*.ts'] *)
Definition isTypeScriptPath (cwd path : string) : bool :=
  match relativeTo cwd path with
  | Some relative =>
      (JsString.endsWith ".ts" relative && negb (isIgnored relative)
       && negb (hasDotSegment relative))%bool
  | None => false
  end.

Definition zoneCandidateNames : list string :=
  ["polyfills"; "test"; "setup-jest"; "jest-setup"; "test-setup"].

(** ['**/{polyfills,test,setup-jest,jest-setup,test-setup}.ts'] *)
Definition isZoneCandidatePath (cwd path : string) : bool :=
  match relativeTo cwd path with
  | Some relative =>
      (existsb (fun base => (String.eqb relative (base +:+ ".ts")
                             || JsString.endsWith ("/" +:+ base +:+ ".ts") relative)%bool)
         zoneCandidateNames
       && negb (isIgnored relative) && negb (hasDotSegment relative))%bool
  | None => false
  end.

Definition isTypeScriptEntry (entry : Entry) : bool :=
  match entry with TypeScriptFile _ _ => true | _ => false end.

(** [globSync(pattern, { cwd, ignore, absolute: true })]: the TypeScript files
    of the disk whose path matches. *)
Definition globSync (matches : string -> bool) (disk : Disk) : list (string * Entry) :=
  map_to_list
    (filter (fun kv : string * Entry => matches kv.1 && isTypeScriptEntry kv.2 = true) disk).

Definition sourceFileAt (file : string * Entry) : list SourceFile :=
  match file.2 with
  | TypeScriptFile imports body =>
      [{| filePath := file.1; importDeclarations := imports; statements := body |}]
  | _ => []
  end.

(** The source files that a configuration brings into the project: the
    files it names that the disk holds, each once, under their absolute
    paths. *)
Definition configuredSourceFiles (disk : Disk) (paths : list string) : list SourceFile :=
  flat_map (fun path =>
              if JsString.startsWith "/" path
              then match disk !! path with
                   | Some entry => sourceFileAt (path, entry)
                   | None => []
                   end
              else [])
    (remove_dups paths).

(** [project.addSourceFilesAtPaths(tsFiles)]: a file that the project
    already holds is not added again.  Each path is taken for the file it
    names; ts-morph reads it as a glob pattern, which names that file as
    long as the path holds no glob character. *)
Definition addSourceFilesAtPaths (project : list SourceFile) (tsFiles : list (string * Entry))
  : list SourceFile :=
  project
  ++ flat_map sourceFileAt
       (List.filter (fun file : string * Entry =>
                       negb (existsb (fun sf => String.eqb (filePath sf) file.1) project))
          tsFiles).

(** [createTsProject]: the project configuration is read from
    [tsconfig.app.json], else from [tsconfig.json], when one exists;
    [new Project] adds the source files of the configuration, and throws
    for a configuration that cannot be loaded (the text of its error is not
    modelled).  All [.ts] files below the project path are then added. *)
Definition createTsProject (projectPath : string) : IO (list SourceFile) :=
  fun disk =>
    let tsConfigPath := path_join projectPath "tsconfig.json" in
    let tsConfigAppPath := path_join projectPath "tsconfig.app.json" in
    let configFile := if existsSync disk tsConfigAppPath then tsConfigAppPath else tsConfigPath in
    let tsFiles := globSync (isTypeScriptPath projectPath) disk in
    match disk !! configFile with
    | None => (Returned (addSourceFilesAtPaths [] tsFiles), disk)
    | Some (TsConfigFile (Some paths)) =>
        (Returned (addSourceFilesAtPaths (configuredSourceFiles disk paths) tsFiles), disk)
    | Some _ => (Thrown ("Failed to read tsconfig: " +:+ configFile), disk)
    end.

(** [getSourceFiles(project, projectPath)] *)
Definition getSourceFiles (project : list SourceFile) (projectPath : string)
  : list SourceFile :=
  List.filter (fun sf => (negb (JsString.includes "node_modules" (filePath sf))
                          && negb (JsString.includes "/dist/" (filePath sf)))%bool)
    project.

(** *** zone.js import path fixes (v16 → v17) *)

(** The [replacements] table: the string literal matched by each pattern,
    and what it becomes. *)
Definition zoneReplacements : list (string * string) :=
  [("zone.js/dist/zone", "zone.js");
   ("zone.js/dist/zone-testing", "zone.js/testing");
   ("zone.js/bundles/zone-testing.js", "zone.js/testing");
   ("zone.js/dist/long-stack-trace-zone", "zone.js/plugins/long-stack-trace-zone");
   ("zone.js/dist/async-test", "zone.js/testing");
   ("zone.js/dist/fake-async-test", "zone.js/testing")].

(** [content.replace(pattern, replacement)] on a tree: every string literal
    whose value is [pattern], a module specifier included. *)
Fixpoint replaceLiteral (pattern replacement : string) (n : Node) : Node :=
  match n with
  | mkNode k t cs =>
      mkNode k
        (if (SyntaxKind_eqb k StringLiteral && String.eqb t pattern)%bool
         then replacement else t)
        (List.map (replaceLiteral pattern replacement) cs)
  end.

Definition replaceSpecifier (pattern replacement : string) (imp : ImportDeclaration)
  : ImportDeclaration :=
  {| moduleSpecifier :=
       if String.eqb (moduleSpecifier imp) pattern then replacement else moduleSpecifier imp;
     defaultImport := defaultImport imp;
     namedImports := namedImports imp |}.

(** Whether the pattern matches somewhere in the file. *)
Definition literalOccurs (pattern : string) (imports : list ImportDeclaration)
    (body : list Node) : bool :=
  (existsb (fun imp => String.eqb (moduleSpecifier imp) pattern) imports
   || existsb (fun n => (isKind StringLiteral n && String.eqb (text n) pattern)%bool)
        (flat_map (fun s => s :: descendants s) body))%bool.

(** The body of [for (const [pattern, replacement] of replacements)]. *)
Definition applyReplacement (acc : list ImportDeclaration * list Node * bool)
    (entry : string * string) : list ImportDeclaration * list Node * bool :=
  let '(imports, body, changed) := acc in
  let '(pattern, replacement) := entry in
  if literalOccurs pattern imports body
  then (List.map (replaceSpecifier pattern replacement) imports,
        List.map (replaceLiteral pattern replacement) body, true)
  else acc.

Fixpoint fixZoneJsImports_files (ctx : MigrationContext) (candidates : list (string * Entry))
  : IO (list Change.t) :=
  match candidates with
  | [] => ret []
  | (file, TypeScriptFile imports body) :: rest =>
      let '(imports', body', changed) :=
        fold_left applyReplacement zoneReplacements (imports, body, false) in
      _ <- (if (changed && negb (dryRun ctx))%bool
            then writeFileSync file (TypeScriptFile imports' body') else ret tt) ;;
      changes <- fixZoneJsImports_files ctx rest ;;
      ret ((if changed
            then [change file "Fixed zone.js deep imports → shallow imports"] else [])
           ++ changes)
  | _ :: rest => fixZoneJsImports_files ctx rest
  end.

Definition fixZoneJsImports (projectPath : string) (ctx : MigrationContext)
  : IO (list Change.t) :=
  fun disk =>
    fixZoneJsImports_files ctx (globSync (isZoneCandidatePath projectPath) disk) disk.

(** ** [types.ts]: migration steps *)

Record MigrationStep := {
  from : Z;
  to : Z;
  name : string;
  run : MigrationContext -> IO MigrationResult
}.

(** ** Shared shape of the step bodies *)

(** The [result] record a step starts from. *)
Definition emptyResult (stepName : string) : MigrationResult :=
  {| step := stepName; changes := []; warnings := []; errors := [] |}.

(** The mutable state of a step body once the project is loaded: the source
    files, edited in place by the codemods, and the [result] being filled. *)
Record StepState := {
  sourceFiles : list SourceFile;
  result : MigrationResult
}.

(** What a step pushes to [result] from what a codemod returned. *)
Definition reportChanges (r : Codemod.t) (res : MigrationResult) : MigrationResult :=
  pushChanges res (Codemod.changes r).

Definition reportWarnings (r : Codemod.t) (res : MigrationResult) : MigrationResult :=
  pushWarnings res (Codemod.warnings r).

Definition reportAll (r : Codemod.t) (res : MigrationResult) : MigrationResult :=
  pushWarnings (pushChanges res (Codemod.changes r)) (Codemod.warnings r).

(** [result.changes.push(...changes); result.warnings.push(...warnings.map(w => ({ ...w, message })))] *)
Definition reportWithMessage (message : string) (r : Codemod.t) (res : MigrationResult)
  : MigrationResult :=
  pushWarnings (pushChanges res (Codemod.changes r)) (withMessage message (Codemod.warnings r)).

Definition reportNothing (r : Codemod.t) (res : MigrationResult) : MigrationResult := res.

(** One codemod call of a step body followed by the pushes to [result]. *)
Definition applyCodemod (codemod : list SourceFile -> IO Codemod.t)
    (report : Codemod.t -> MigrationResult -> MigrationResult) (st : StepState)
  : IO StepState :=
  r <- codemod (sourceFiles st) ;;
  ret {| sourceFiles := Codemod.sourceFiles r; result := report r (result st) |}.

(** A read-only scan of the source files that pushes warnings. *)
Definition scan (detect : SourceFile -> list Warning.t) (st : StepState) : StepState :=
  {| sourceFiles := sourceFiles st;
     result := pushWarnings (result st) (flat_map detect (sourceFiles st)) |}.

Definition warn (file message : string) (st : StepState) : StepState :=
  {| sourceFiles := sourceFiles st;
     result := pushWarnings (result st) [warning file message] |}.

(** [try { project = createTsProject(ctx.projectPath) } catch (e) { ... }]
    followed by [getSourceFiles]: the error when loading failed. *)
Definition loadSourceFiles (ctx : MigrationContext) : IO (JsError + list SourceFile) :=
  tryCatch
    (project <- createTsProject (projectPath ctx) ;;
     ret (inr (getSourceFiles project (projectPath ctx))))
    (fun e => ret (inl e)).

(** The warning a step returns with when the project cannot be loaded. *)
Definition projectLoadFailed (res : MigrationResult) (e : JsError) : MigrationResult :=
  pushWarnings res
    [warning "tsconfig.json" ("Could not load TypeScript project: " +:+ String_of_error e)].

(** The entries for the framework packages, common to the [updates] table of
    every step. *)
Definition angularPackages (version : string) : list (string * string) :=
  List.map (fun p => (p, version))
    ["@angular/animations"; "@angular/cdk"; "@angular/cli"; "@angular/common";
     "@angular/compiler"; "@angular/compiler-cli"; "@angular/core"; "@angular/elements";
     "@angular/forms"; "@angular/language-service"; "@angular/material";
     "@angular/platform-browser"; "@angular/platform-browser-dynamic";
     "@angular/platform-server"; "@angular/router"; "@angular/service-worker";
     "@angular-devkit/build-angular"; "@angular-devkit/core"; "@angular-devkit/schematics"].

(** ** [migrations/v15-to-v16.ts] *)

Definition v15ToV16_updates : list (string * string) :=
  angularPackages "^16.2.0"
  ++ [("typescript", "~5.1.0"); ("zone.js", "~0.13.0"); ("rxjs", "~7.8.0")].

(** "Check NgModule entryComponents" *)
Definition v15_entryComponents (sf : SourceFile) : list Warning.t :=
  flat_map (fun cd : Node * Node =>
              let '(cls, dec) := cd in
              if negb (String.eqb (Decorator_getName dec) "NgModule") then []
              else match Decorator_getArguments dec with
                   | [] => []
                   | arg :: _ =>
                       if JsString.includes "entryComponents" (getText arg)
                       then [warning (filePath sf)
                               (default "NgModule" (Class_getName cls)
                                +:+ ": 'entryComponents' is removed in Angular 16. Remove it from the decorator — Ivy handles dynamic components automatically.")]
                       else []
                   end)
    (decoratedClasses sf).

(** "CanLoad deprecation warning (removed in v17)" *)
Definition v15_canLoad (sf : SourceFile) : list Warning.t :=
  if existsb (importsFrom "@angular/router" "CanLoad") (importDeclarations sf)
  then [warning (filePath sf)
          "CanLoad is deprecated (Angular 15) and removed in Angular 17. Will be migrated to CanMatch automatically in the next step."]
  else [].

Definition v15ToV16_name : string := "Angular 15 → 16".

Definition v15ToV16_codemods (ctx : MigrationContext) (st : StepState) : IO StepState :=
  st <- applyCodemod (fun sfs => moveImport sfs "TransferState"
                        "@angular/platform-browser" "@angular/core" ctx) reportChanges st ;;
  st <- applyCodemod (fun sfs => moveImport sfs "makeStateKey"
                        "@angular/platform-browser" "@angular/core" ctx) reportChanges st ;;
  st <- applyCodemod (fun sfs => moveImport sfs "StateKey"
                        "@angular/platform-browser" "@angular/core" ctx) reportChanges st ;;
  st <- applyCodemod (fun sfs => moveImport sfs "XhrFactory"
                        "@angular/common/http" "@angular/common" ctx) reportChanges st ;;
  st <- applyCodemod (fun sfs => removeObsoleteImport sfs "@angular/platform-browser"
                        "BrowserTransferStateModule" ctx) reportChanges st ;;
  st <- applyCodemod (fun sfs => removeFromNgModuleArrays sfs
                        "BrowserTransferStateModule" ctx) reportChanges st ;;
  stsm <- removeObsoleteImport (sourceFiles st) "@angular/platform-server"
            "ServerTransferStateModule" ctx ;;
  let st := {| sourceFiles := Codemod.sourceFiles stsm;
               result := reportChanges stsm (result st) |} in
  st <- applyCodemod (fun sfs => removeFromNgModuleArrays sfs
                        "ServerTransferStateModule" ctx) reportChanges st ;;
  let st :=
    {| sourceFiles := sourceFiles st;
       result := pushWarnings (result st)
                   (withMessage "ServerTransferStateModule removed. Remove from NgModule imports[], TransferState is now injected automatically."
                      (Codemod.warnings stsm)) |} in
  st <- applyCodemod (fun sfs => removeObsoleteImport sfs "@angular/platform-server"
                        "renderModuleFactory" ctx)
          (reportWithMessage "renderModuleFactory removed. Use renderModule() from '@angular/platform-server' instead.")
          st ;;
  st <- applyCodemod (fun sfs => removeObsoleteImport sfs "@angular/core"
                        "ANALYZE_FOR_ENTRY_COMPONENTS" ctx) reportChanges st ;;
  st <- applyCodemod (fun sfs => removeObsoleteImport sfs "@angular/core"
                        "ReflectiveInjector" ctx)
          (reportWithMessage "ReflectiveInjector removed. Replace with Injector.create({ providers: [...] }).")
          st ;;
  let st := scan v15_entryComponents st in
  st <- applyCodemod (fun sfs => ensureModuleWithProvidersGeneric sfs ctx) reportWarnings st ;;
  let st := scan v15_canLoad st in
  ret (warn "angular.json"
         "[Angular 16] CSS keyframe animation names are now scoped per component. If you reference keyframe names globally, move them to a global stylesheet or use ViewEncapsulation.None."
         st).

Definition v15ToV16_run (ctx : MigrationContext) : IO MigrationResult :=
  let res := emptyResult v15ToV16_name in
  pkgChanges <- updatePackageVersions ctx v15ToV16_updates ;;
  let res := pushChanges res pkgChanges in
  loaded <- loadSourceFiles ctx ;;
  match loaded with
  | inl e => ret (projectLoadFailed res e)
  | inr sfs =>
      st <- v15ToV16_codemods ctx {| sourceFiles := sfs; result := res |} ;;
      ret (result st)
  end.

Definition v15ToV16 : MigrationStep :=
  {| from := 15; to := 16; name := v15ToV16_name; run := v15ToV16_run |}.

(** [sf.getDescendantsOfKind(SyntaxKind.PropertyAccessExpression).forEach(pa => ...)] *)
Definition scanPropertyAccesses (detect : Node -> list Warning.t) (sf : SourceFile)
  : list Warning.t :=
  flat_map detect (getDescendantsOfKind PropertyAccessExpression sf).

(** The named imports of [imp] that occur in [names], by name. *)
Definition foundImports (names : list string) (imp : ImportDeclaration) : list string :=
  List.map importedName
    (List.filter (fun ni => existsb (String.eqb (importedName ni)) names) (namedImports imp)).

(** ** [migrations/v17-to-v18.ts] *)

Definition v17ToV18_updates : list (string * string) :=
  angularPackages "^18.2.0" ++ [("typescript", "~5.4.0")].

Definition v17_matchesElement (sf : SourceFile) : list Warning.t :=
  scanPropertyAccesses
    (fun pa => if String.eqb (PropertyAccess_getName pa) "matchesElement"
               then [warning (filePath sf)
                       "AnimationDriver.matchesElement() removed in Angular 18. Remove this usage."]
               else [])
    sf.

Definition removedTestabilityMethods : list string :=
  ["increasePendingRequestCount"; "decreasePendingRequestCount"; "getPendingRequestCount"].

Definition v17_testability (sf : SourceFile) : list Warning.t :=
  scanPropertyAccesses
    (fun pa => if existsb (String.eqb (PropertyAccess_getName pa)) removedTestabilityMethods
               then [warning (filePath sf)
                       ("Testability." +:+ PropertyAccess_getName pa
                        +:+ "() removed in Angular 18. Remove this call — it has no replacement.")]
               else [])
    sf.

Definition v17_swUpdate (sf : SourceFile) : list Warning.t :=
  scanPropertyAccesses
    (fun pa =>
       let name := PropertyAccess_getName pa in
       if (negb (String.eqb name "available") && negb (String.eqb name "activated"))%bool
       then []
       else
         let objText := JsString.toLowerCase (getText (getExpression pa)) in
         if (JsString.includes "update" objText || JsString.includes "swupdate" objText)%bool
         then [warning (filePath sf)
                 ("Possible SwUpdate." +:+ name
                  +:+ " usage. This observable was removed in Angular 18 — use swUpdate.versionUpdates observable instead.")]
         else [])
    sf.

Definition deprecatedHttpModules : list string :=
  ["HttpClientModule"; "HttpClientXsrfModule"; "HttpClientJsonpModule"].

Definition v17_httpClientModule (sf : SourceFile) : list Warning.t :=
  flat_map (fun imp =>
              if negb (String.eqb (moduleSpecifier imp) "@angular/common/http") then []
              else
                let found := foundImports deprecatedHttpModules imp in
                if Nat.ltb 0 (length found)
                then [warning (filePath sf)
                        (JsString.join ", " found
                         +:+ " deprecated in Angular 18. Migrate to provideHttpClient() in your app config/bootstrap. See: https://angular.dev/guide/http/setup")]
                else [])
    (importDeclarations sf).

Definition v17ToV18_name : string := "Angular 17 → 18".

Definition v17ToV18_codemods (ctx : MigrationContext) (st : StepState) : IO StepState :=
  st <- applyCodemod (fun sfs => migrateAsyncToWaitForAsync sfs ctx) reportChanges st ;;
  st <- applyCodemod (fun sfs => removeObsoleteImport sfs "@angular/common"
                        "isPlatformWorkerUi" ctx)
          (reportWithMessage "isPlatformWorkerUi() removed in Angular 18 — the Angular WebWorker platform is discontinued. Remove usages.")
          st ;;
  st <- applyCodemod (fun sfs => removeObsoleteImport sfs "@angular/common"
                        "isPlatformWorkerApp" ctx)
          (reportWithMessage "isPlatformWorkerApp() removed in Angular 18 — the Angular WebWorker platform is discontinued. Remove usages.")
          st ;;
  st <- applyCodemod (fun sfs => removeObsoleteImport sfs "@angular/platform-server"
                        "platformDynamicServer" ctx)
          (reportWithMessage "platformDynamicServer removed. Add import '@angular/compiler' before bootstrapping and use platformServer() instead.")
          st ;;
  st <- applyCodemod (fun sfs => removeObsoleteImport sfs "@angular/platform-browser-dynamic"
                        "RESOURCE_CACHE_PROVIDER" ctx) reportChanges st ;;
  st <- applyCodemod (fun sfs => removeObsoleteImport sfs "@angular/animations/browser"
                        "AnimationDriver" ctx) reportNothing st ;;
  let st := scan v17_matchesElement st in
  let st := scan v17_testability st in
  let st := scan v17_swUpdate st in
  let st := scan v17_httpClientModule st in
  let st := warn "angular.json"
              "[Angular 18] withHttpTransferCache now excludes requests with Authorization headers by default. To include them: provideClientHydration(withHttpTransferCache({ includeRequestsWithAuthHeaders: true }))"
              st in
  let st := warn "angular.json"
              "[Angular 18] Infinite change detection loops now throw NG0103 error instead of silently running. Check for components that call markForCheck() unconditionally."
              st in
  let st := warn "angular.json"
              "[Angular 18] Two-way bindings ([(ngModel)], [(value)]) now require writable expressions. Check banana-in-a-box bindings on computed/readonly properties."
              st in
  ret (warn "angular.json"
         "[Angular 18] Router: component providers no longer come from RouterOutlet — only from the route config. If you rely on outlet providers, add them to the route directly."
         st).

Definition v17ToV18_run (ctx : MigrationContext) : IO MigrationResult :=
  let res := emptyResult v17ToV18_name in
  pkgChanges <- updatePackageVersions ctx v17ToV18_updates ;;
  let res := pushChanges res pkgChanges in
  loaded <- loadSourceFiles ctx ;;
  match loaded with
  | inl e => ret (projectLoadFailed res e)
  | inr sfs =>
      st <- v17ToV18_codemods ctx {| sourceFiles := sfs; result := res |} ;;
      ret (result st)
  end.

Definition v17ToV18 : MigrationStep :=
  {| from := 17; to := 18; name := v17ToV18_name; run := v17ToV18_run |}.

(** ** [migrations/v18-to-v19.ts] *)

Definition v18ToV19_updates : list (string * string) :=
  angularPackages "^19.2.0" ++ [("typescript", "~5.6.0")].

Definition v18_keyValueDiffers (sf : SourceFile) : list Warning.t :=
  scanPropertyAccesses
    (fun pa =>
       if (String.eqb (PropertyAccess_getName pa) "factories"
           && JsString.includes "differ" (JsString.toLowerCase (getText (getExpression pa))))%bool
       then [warning (filePath sf)
               "KeyValueDiffers.factories removed in Angular 19. Use KeyValueDiffer directly via DI."]
       else [])
    sf.

Definition v18_errorHandler (sf : SourceFile) : list Warning.t :=
  flat_map (fun bin =>
              let left := getLeft bin in
              if (isKind PropertyAccessExpression left
                  && String.eqb (PropertyAccess_getName left) "errorHandler"
                  && JsString.includes "router"
                       (JsString.toLowerCase (getText (getExpression left))))%bool
              then [warning (filePath sf)
                      "router.errorHandler = ... removed in Angular 19. Use withNavigationErrorHandler((e) => ...) in provideRouter() or RouterModule.forRoot(routes, { errorHandler: ... }) instead."]
              else [])
    (getDescendantsOfKind BinaryExpression sf).

Definition legacyMaterialModules : list string :=
  ["MatLegacyButtonModule"; "MatLegacyCardModule"; "MatLegacyCheckboxModule";
   "MatLegacyChipsModule"; "MatLegacyDialogModule"; "MatLegacyFormFieldModule";
   "MatLegacyInputModule"; "MatLegacyListModule"; "MatLegacyMenuModule";
   "MatLegacyProgressBarModule"; "MatLegacyProgressSpinnerModule"; "MatLegacyRadioModule";
   "MatLegacySelectModule"; "MatLegacySlideToggleModule"; "MatLegacySliderModule";
   "MatLegacySnackBarModule"; "MatLegacyTableModule"; "MatLegacyTabsModule";
   "MatLegacyTooltipModule"].

Definition v18_legacyMaterial (sf : SourceFile) : list Warning.t :=
  flat_map (fun imp =>
              if negb (JsString.startsWith "@angular/material" (moduleSpecifier imp)) then []
              else
                let found := foundImports legacyMaterialModules imp in
                if Nat.ltb 0 (length found)
                then [warning (filePath sf)
                        ("Legacy Angular Material components removed in v19: "
                         +:+ JsString.join ", " found
                         +:+ ". Replace with MDC-based equivalents (remove 'Legacy' from the class name).")]
                else [])
    (importDeclarations sf).

Definition v18ToV19_name : string := "Angular 18 → 19".

Definition v18ToV19_codemods (ctx : MigrationContext) (st : StepState) : IO StepState :=
  st <- applyCodemod (fun sfs => renameNamedImport sfs "@angular/core"
                        "ExperimentalPendingTasks" "PendingTasks" ctx) reportChanges st ;;
  serverTransition <- removeBrowserModuleWithServerTransition (sourceFiles st) ctx ;;
  let st := {| sourceFiles := Codemod.sourceFiles serverTransition;
               result := reportChanges serverTransition (result st) |} in
  let st :=
    if Nat.ltb 0 (length (Codemod.changes serverTransition))
    then warn "angular.json"
           "BrowserModule.withServerTransition() removed. Replaced with BrowserModule. If you need a stable app ID for SSR, add: { provide: APP_ID, useValue: 'my-app' } to providers."
           st
    else st in
  st <- applyCodemod (fun sfs => removeObsoleteImport sfs "@angular/core"
                        "KeyValueDiffers" ctx) reportNothing st ;;
  let st := scan v18_keyValueDiffers st in
  let st := scan v18_errorHandler st in
  standalone <- addStandaloneFalse (sourceFiles st) ctx ;;
  let st := {| sourceFiles := Codemod.sourceFiles standalone;
               result := reportChanges standalone (result st) |} in
  let st :=
    if Nat.ltb 0 (length (Codemod.changes standalone))
    then warn "angular.json"
           ("[Angular 19] Added standalone: false to "
            +:+ JsString.ofNat (length (Codemod.changes standalone))
            +:+ " component(s)/directive(s)/pipe(s). Angular 19 changed the default to standalone: true. Components with standalone: true that are still in NgModule.declarations should be removed from declarations[].")
           st
    else st in
  let st := scan v18_legacyMaterial st in
  let st := warn "angular.json"
              "[Angular 19] Signal effects now run during change detection (not as microtasks). Effects outside change detection will now run during the next CD cycle."
              st in
  let st := warn "angular.json"
              ("[Angular 19] [routerLink]=" +:+ JsString.quoted "null"
               +:+ " now removes the href attribute. Review conditional routerLink bindings that use null/undefined as a "
               +:+ JsString.quoted "disabled" +:+ " state.")
              st in
  let st := warn "angular.json"
              "[Angular 19] Template property reads: this.foo in templates no longer refers to template variables. If you have template variables and class properties with the same name, remove this. prefix."
              st in
  ret (warn "angular.json"
         "[Angular 19] ApplicationRef.tick() errors in TestBed are now rethrown. Wrap expected-to-throw scenarios with expect(() => fixture.detectChanges()).toThrow(), or set rethrowApplicationErrors: false in TestBed."
         st).

Definition v18ToV19_run (ctx : MigrationContext) : IO MigrationResult :=
  let res := emptyResult v18ToV19_name in
  pkgChanges <- updatePackageVersions ctx v18ToV19_updates ;;
  let res := pushChanges res pkgChanges in
  loaded <- loadSourceFiles ctx ;;
  match loaded with
  | inl e => ret (projectLoadFailed res e)
  | inr sfs =>
      st <- v18ToV19_codemods ctx {| sourceFiles := sfs; result := res |} ;;
      ret (result st)
  end.

Definition v18ToV19 : MigrationStep :=
  {| from := 18; to := 19; name := v18ToV19_name; run := v18ToV19_run |}.

(** ** [migrations/v16-to-v17.ts] *)

Definition v16ToV17_updates : list (string * string) :=
  angularPackages "^17.3.0" ++ [("typescript", "~5.2.0"); ("zone.js", "~0.14.0")].

(** "Detect WritableSignal.mutate() usage" *)
Definition v16_mutate (sf : SourceFile) : list Warning.t :=
  flat_map (fun call =>
              if isMethodCall "mutate" call
              then [warning (filePath sf)
                      ("signal.mutate() removed in Angular 17. Replace with signal.update(val => { ...val, changedProp }). Found: "
                       +:+ JsString.slice0 80 (getText call))]
              else [])
    (getDescendantsOfKind CallExpression sf).

Definition movedRouterProps : list string :=
  ["urlHandlingStrategy"; "canceledNavigationResolution"; "paramsInheritanceStrategy";
   "titleStrategy"; "urlUpdateStrategy"; "malformedUriErrorHandler"].

(** "Detect direct Router property assignments" *)
Definition v16_routerProps (sf : SourceFile) : list Warning.t :=
  flat_map (fun bin =>
              let left := getLeft bin in
              if (isKind PropertyAccessExpression left
                  && existsb (String.eqb (PropertyAccess_getName left)) movedRouterProps)%bool
              then [warning (filePath sf)
                      ("router." +:+ PropertyAccess_getName left
                       +:+ " = ... is no longer supported in Angular 17. Configure via provideRouter([routes], with"
                       +:+ JsString.capitalize (PropertyAccess_getName left)
                       +:+ "(...)) or RouterModule.forRoot config.")]
              else [])
    (getDescendantsOfKind BinaryExpression sf).

(** "entryComponents warning (if missed in v15→v16)" *)
Definition v16_entryComponents (sf : SourceFile) : list Warning.t :=
  flat_map (fun cd : Node * Node =>
              let '(cls, dec) := cd in
              if negb (String.eqb (Decorator_getName dec) "NgModule") then []
              else match Decorator_getArguments dec with
                   | [] => []
                   | arg :: _ =>
                       if JsString.includes "entryComponents" (getText arg)
                       then [warning (filePath sf)
                               (default "undefined" (Class_getName cls)
                                +:+ ": entryComponents must be removed before Angular 17.")]
                       else []
                   end)
    (decoratedClasses sf).

Definition v16ToV17_name : string := "Angular 16 → 17".

Section Pipeline.

(** [removeDominoSetup] is imported from [utils/codemods] by the step
    16 → 17; its definition is not among the sources, so the pipeline takes
    it as given: a codemod over the source files that returns changes. *)
Variable removeDominoSetup : list SourceFile -> MigrationContext -> IO Codemod.t.

Definition v16ToV17_codemods (ctx : MigrationContext) (st : StepState) : IO StepState :=
  st <- applyCodemod (fun sfs => renameNamedImport sfs "@angular/router"
                        "RouterLinkWithHref" "RouterLink" ctx) reportChanges st ;;
  st <- applyCodemod (fun sfs => moveImport sfs "ngExpressEngine"
                        "@nguniversal/express-engine" "@angular/ssr" ctx) reportChanges st ;;
  st <- applyCodemod (fun sfs => moveImport sfs "CommonEngine"
                        "@nguniversal/express-engine" "@angular/ssr/node" ctx)
          reportChanges st ;;
  st <- applyCodemod (fun sfs => removeDominoSetup sfs ctx) reportChanges st ;;
  st <- applyCodemod (fun sfs => migrateCanLoadToCanMatch sfs ctx) reportChanges st ;;
  st <- applyCodemod (fun sfs => migrateComponentFactoryResolver sfs ctx) reportAll st ;;
  st <- applyCodemod (fun sfs => removeObsoleteImport sfs "@angular/core"
                        "ComponentFactory" ctx) reportChanges st ;;
  st <- applyCodemod (fun sfs => removeObsoleteImport sfs "@angular/core"
                        "ComponentFactoryResolver" ctx) reportChanges st ;;
  st <- applyCodemod (fun sfs => removeObsoleteImport sfs "@angular/router/testing"
                        "setupTestingRouter" ctx)
          (reportWithMessage "setupTestingRouter() removed. Use RouterModule.forRoot([]) or provideRouter([]) in TestBed.configureTestingModule instead.")
          st ;;
  st <- applyCodemod (fun sfs => removeObsoleteImport sfs "@angular/platform-browser"
                        "withNoDomReuse" ctx)
          (reportWithMessage "withNoDomReuse() removed. Use the ngSkipHydration attribute on the <app-root> tag instead.")
          st ;;
  let st := scan v16_mutate st in
  let st := scan v16_routerProps st in
  let st := scan v16_entryComponents st in
  let st := warn "angular.json"
              "[Angular 17] REMOVE_STYLES_ON_COMPONENT_DESTROY now defaults to true. Component styles are removed on destroy. If your app relies on styles persisting, add { provide: REMOVE_STYLES_ON_COMPONENT_DESTROY, useValue: false } to providers."
              st in
  let st := warn "angular.json"
              "[Angular 17] NgSwitch now uses strict equality (===) instead of loose equality (==). Review switch cases that relied on type coercion."
              st in
  ret (warn "angular.json"
         "[Angular 17] Router absolute redirects are now non-terminal (processing continues after redirect). Check route configs for potential infinite redirect loops."
         st).

Definition v16ToV17_run (ctx : MigrationContext) : IO MigrationResult :=
  let res := emptyResult v16ToV17_name in
  pkgChanges <- updatePackageVersions ctx v16ToV17_updates ;;
  let res := pushChanges res pkgChanges in
  builderChanges <- migrateBrowserBuilderToApplication ctx ;;
  let res := pushChanges res builderChanges in
  defaultProjectChanges <- removeDefaultProject ctx ;;
  let res := pushChanges res defaultProjectChanges in
  zoneChanges <- fixZoneJsImports (projectPath ctx) ctx ;;
  let res := pushChanges res zoneChanges in
  ssrPkgChanges <- replacePackageDependency ctx "@nguniversal/express-engine"
                     "@angular/ssr" "^17.3.0" ;;
  let res := pushChanges res ssrPkgChanges in
  loaded <- loadSourceFiles ctx ;;
  match loaded with
  | inl e => ret (projectLoadFailed res e)
  | inr sfs =>
      st <- v16ToV17_codemods ctx {| sourceFiles := sfs; result := res |} ;;
      ret (result st)
  end.

Definition v16ToV17 : MigrationStep :=
  {| from := 16; to := 17; name := v16ToV17_name; run := v16ToV17_run |}.

(** ** [migrator.ts] *)

Definition ALL_STEPS : list MigrationStep := [v15ToV16; v16ToV17; v17ToV18; v18ToV19].

(** [ALL_STEPS.filter(s => s.from >= currentVersion && s.to <= toVersion)] *)
Definition stepsToRun (currentVersion toVersion : Z) : list MigrationStep :=
  List.filter (fun s => (from s >=? currentVersion) && (to s <=? toVersion))%bool ALL_STEPS.

End Pipeline.

Module MigratorOptions.
Record t := mk {
  projectPath : string;
  fromVersion : option Z;
  toVersion : option Z;
  dryRun : option bool;
  skipPackageJson : option bool
}.
End MigratorOptions.

(** How a call of [migrate] ends when it does not throw. *)
Inductive MigrateOutcome :=
| NothingToDo (currentVersion : Z)
| NoStepsFound (currentVersion toVersion : Z)
| Completed (allResults : list MigrationResult).

(** [path.resolve(projectPath)]: project paths are taken absolute and
    normalised. *)
Definition path_resolve (p : string) : string := p.

(** The result pushed for a step that threw. *)
Definition failedResult (s : MigrationStep) (err : JsError) : MigrationResult :=
  {| step := name s; changes := []; warnings := [];
     errors := [MigrationError.mk "migrator" (String_of_error err)] |}.

(** The [for (const step of stepsToRun)] loop. *)
Fixpoint runSteps (context : MigrationStep -> MigrationContext) (steps : list MigrationStep)
  : IO (list MigrationResult) :=
  match steps with
  | [] => ret []
  | s :: rest =>
      r <- tryCatch (run s (context s)) (fun err => ret (failedResult s err)) ;;
      rs <- runSteps context rest ;;
      ret (r :: rs)
  end.

(** [file.replace(projectPath, '').replace(/^[\\/]/, '')] *)
Definition shortFile (projectPath file : string) : string :=
  JsString.dropLeadingSeparator (JsString.removeFirst projectPath file).

Definition isTruthy (s : option string) : bool :=
  match s with
  | Some v => negb (String.eqb v EmptyString)
  | None => false
  end.

Definition reportChange (projectPath : string) (c : Change.t) : list string :=
  let headline :=
    "- **" +:+ shortFile projectPath (Change.file c) +:+ "**: " +:+ Change.description c in
  if (isTruthy (Change.before c) && isTruthy (Change.after c))%bool
  then [headline;
        "  - Before: `" +:+ default EmptyString (Change.before c) +:+ "`";
        "  - After: `" +:+ default EmptyString (Change.after c) +:+ "`"]
  else [headline].

Definition reportWarning (projectPath : string) (w : Warning.t) : list string :=
  match Warning.line w with
  | Some (S n) =>
      ["- **" +:+ shortFile projectPath (Warning.file w) +:+ ":" +:+ JsString.ofNat (S n)
       +:+ "**: " +:+ Warning.message w]
  | _ => ["- **" +:+ shortFile projectPath (Warning.file w) +:+ "**: " +:+ Warning.message w]
  end.

Definition reportError (e : MigrationError.t) : list string :=
  ["- **" +:+ MigrationError.file e +:+ "**: " +:+ MigrationError.message e].

(** The lines pushed for one result of [for (const result of results)]. *)
Definition reportSection (projectPath : string) (r : MigrationResult) : list string :=
  ["## " +:+ step r; EmptyString]
  ++ (if Nat.ltb 0 (length (changes r))
      then ["### Changes applied (" +:+ JsString.ofNat (length (changes r)) +:+ ")";
            EmptyString]
           ++ flat_map (reportChange projectPath) (changes r) ++ [EmptyString]
      else ["_No automatic changes in this step._"; EmptyString])
  ++ (if Nat.ltb 0 (length (warnings r))
      then ["### Manual attention required (" +:+ JsString.ofNat (length (warnings r)) +:+ ")";
            EmptyString;
            "> These items were detected but require manual fixes:";
            EmptyString]
           ++ flat_map (reportWarning projectPath) (warnings r) ++ [EmptyString]
      else [])
  ++ (if Nat.ltb 0 (length (errors r))
      then ["### Errors"; EmptyString] ++ flat_map reportError (errors r) ++ [EmptyString]
      else [])
  ++ ["---"; EmptyString].

(** The [lines] of the report; [now] is the time stamp read from the clock. *)
Definition reportLines (projectPath : string) (results : list MigrationResult)
    (dryRun : bool) (now : string) : list string :=
  ["# Angular Migration Report"; EmptyString;
   "Generated: " +:+ now;
   "Mode: " +:+ (if dryRun then "DRY RUN (no files changed)" else "APPLIED");
   EmptyString; "---"; EmptyString]
  ++ flat_map (reportSection projectPath) results.

Definition writeReport (projectPath : string) (results : list MigrationResult)
    (dryRun : bool) (now : string) : IO unit :=
  let reportPath := path_join projectPath "migration-report.md" in
  writeFileSync reportPath (TextFile (reportLines projectPath results dryRun now)).

(** [options.fromVersion ?? detectAngularVersion(absPath)] *)
Definition resolveCurrentVersion (options : MigratorOptions.t) : IO Z :=
  match MigratorOptions.fromVersion options with
  | Some v => ret v
  | None => detectAngularVersion (path_resolve (MigratorOptions.projectPath options))
  end.

Section Migrator.

Variable removeDominoSetup : list SourceFile -> MigrationContext -> IO Codemod.t.

(** The context built for each step of the loop. *)
Definition stepContext (absPath : string) (dryRun skipPackageJson : bool)
    (s : MigrationStep) : MigrationContext :=
  {| projectPath := absPath; fromVersion := from s; toVersion := to s;
     dryRun := dryRun; skipPackageJson := skipPackageJson |}.

(** [migrate(options)]; [now] is the time at which the report is written. *)
Definition migrate (options : MigratorOptions.t) (now : string) : IO MigrateOutcome :=
  let dryRun := default false (MigratorOptions.dryRun options) in
  let skipPackageJson := default false (MigratorOptions.skipPackageJson options) in
  let absPath := path_resolve (MigratorOptions.projectPath options) in
  pathEntry <- readFile absPath ;;
  match pathEntry with
  | None => throw ("Project path does not exist: " +:+ absPath)
  | Some _ =>
      currentVersion <- resolveCurrentVersion options ;;
      let toVersion := default 19 (MigratorOptions.toVersion options) in
      if currentVersion >=? toVersion then ret (NothingToDo currentVersion)
      else
        let selected := stepsToRun removeDominoSetup currentVersion toVersion in
        if Nat.eqb (length selected) 0 then ret (NoStepsFound currentVersion toVersion)
        else
          allResults <- runSteps (stepContext absPath dryRun skipPackageJson) selected ;;
          _ <- writeReport absPath allResults dryRun now ;;
          ret (Completed allResults)
  end.

End Migrator.

(** ** Notions used by the specifications *)

(** A computation that leaves the disk as it found it. *)
Definition preservesDisk {A : Type} (c : IO A) : Prop :=
  forall disk, (c disk).2 = disk.

(** Two computations that complete alike (same value returned, or same
    exception) whatever the disks they start from. *)
Definition sameCompletion {A : Type} (c1 c2 : IO A) : Prop :=
  forall disk1 disk2, (c1 disk1).1 = (c2 disk2).1.

(** The context [ctx] in preview ([true]) or applied ([false]) mode. *)
Definition inMode (preview : bool) (ctx : MigrationContext) : MigrationContext :=
  {| projectPath := projectPath ctx; fromVersion := fromVersion ctx;
     toVersion := toVersion ctx; dryRun := preview;
     skipPackageJson := skipPackageJson ctx |}.

(** A project without a domino setup: [removeDominoSetup] finds nothing. *)
Definition noDominoSetup (sfs : list SourceFile) (ctx : MigrationContext) : IO Codemod.t :=
  ret (Codemod.mk sfs [] []).

(** The loop of the orchestrator as a relation: from [disk], the steps
    leave the results [rs] and the disk [disk']; a step that throws
    contributes [failedResult] and the loop goes on from the disk it left. *)
Inductive StepsTrace (context : MigrationStep -> MigrationContext)
  : list MigrationStep -> Disk -> list MigrationResult -> Disk -> Prop :=
| trace_done disk :
    StepsTrace context [] disk [] disk
| trace_returned s rest disk r disk1 rs disk2 :
    run s (context s) disk = (Returned r, disk1) ->
    StepsTrace context rest disk1 rs disk2 ->
    StepsTrace context (s :: rest) disk (r :: rs) disk2
| trace_thrown s rest disk err disk1 rs disk2 :
    run s (context s) disk = (Thrown err, disk1) ->
    StepsTrace context rest disk1 rs disk2 ->
    StepsTrace context (s :: rest) disk (failedResult s err :: rs) disk2.

(** [symbolName] can be imported from [moduleName] in [sf]: some import
    declaration of that module has a named import of that name. *)
Definition isImportedFrom (moduleName symbolName : string) (sf : SourceFile) : bool :=
  existsb (importsFrom moduleName symbolName) (importDeclarations sf).

(** The number of named imports of [symbolName] from [moduleName] in a list
    of import declarations. *)
Definition countBindings (moduleName symbolName : string) (imports : list ImportDeclaration)
  : nat :=
  list_sum
    (List.map (fun imp =>
                 if String.eqb (moduleSpecifier imp) moduleName
                 then length (List.filter (fun ni => String.eqb (importedName ni) symbolName)
                                (namedImports imp))
                 else 0%nat)
       imports).

(** [n'] is [n] where some identifiers of text [oldName] now read [newName]
    and nothing else differs. *)
Inductive RenamedNode (oldName newName : string) : Node -> Node -> Prop :=
| renamed_node k t t' cs cs' :
    Forall2 (RenamedNode oldName newName) cs cs' ->
    (t' = t \/ (k = Identifier /\ t = oldName /\ t' = newName)) ->
    RenamedNode oldName newName (mkNode k t cs) (mkNode k t' cs').

(** The call shape that step 4 of the resolver migration rewrites:
    [x.createComponent(y.resolveComponentFactory(X), ...)]. *)
Definition isNestedFactoryCall (n : Node) : bool :=
  match children n with
  | _ :: firstArg :: _ =>
      (isMethodCall "createComponent" n
       && isMethodCall "resolveComponentFactory" firstArg
       && Nat.eqb (length (getArguments firstArg)) 1)%bool
  | _ => false
  end.

(** All changes, and all warnings, of a run. *)
Definition allChanges (rs : list MigrationResult) : list Change.t := flat_map changes rs.
Definition allWarnings (rs : list MigrationResult) : list Warning.t := flat_map warnings rs.

(** ** Example projects *)

Module Examples.

Definition options (fromVersion toVersion : option Z) (preview : bool)
  : MigratorOptions.t :=
  MigratorOptions.mk "/app" fromVersion toVersion (Some preview) None.

Definition now : string := "2024-05-01 10:00:00".

Definition context (preview : bool) : MigrationContext :=
  {| projectPath := "/app"; fromVersion := 15; toVersion := 16;
     dryRun := preview; skipPackageJson := false |}.

(** A project directory without a manifest. *)
Definition bareProject : Disk := {[ "/app" := Directory ]}.

Definition manifest (coreVersion : string) : PackageJson :=
  {| dependencies := Some {[ "@angular/core" := coreVersion ]};
     devDependencies := None; peerDependencies := None |}.

(** A project on Angular 17 with a manifest and no source file. *)
Definition projectV17 : Disk :=
  <[ "/app" := Directory ]>
    (<[ "/app/package.json" := PackageJsonFile (manifest "^17.0.0") ]> ∅).

(** [const config = { propertyName: true }]: a declaration of its own,
    with nothing imported in it. *)
Definition configStatement (propertyName : string) : Node :=
  mkNode OtherKind "const"
    [mkNode VariableDeclaration EmptyString
       [identifier "config";
        mkNode ObjectLiteralExpression EmptyString
          [mkNode PropertyAssignment EmptyString
             [identifier propertyName; mkNode OtherKind "true" []]]]].

(** A test file: [import { async } from '@angular/core/testing'] and the
    statement [const config = { async: true }]. *)
Definition specFile : SourceFile :=
  {| filePath := "/app/src/app.component.spec.ts";
     importDeclarations :=
       [{| moduleSpecifier := "@angular/core/testing"; defaultImport := None;
           namedImports := [{| importedName := "async"; alias := None |}] |}];
     statements := [configStatement "async"] |}.

(** A file that imports nothing. *)
Definition plainFile : SourceFile :=
  {| filePath := "/app/src/main.ts"; importDeclarations := [];
     statements := [configStatement "async"] |}.

(** [import { TransferState, TransferState as State } from '@angular/platform-browser'] *)
Definition transferFile : SourceFile :=
  {| filePath := "/app/src/app.module.ts";
     importDeclarations :=
       [{| moduleSpecifier := "@angular/platform-browser"; defaultImport := None;
           namedImports := [{| importedName := "TransferState"; alias := None |};
                            {| importedName := "TransferState"; alias := Some "State" |}] |}];
     statements := [] |}.

End Examples.

(** A step body that ends, when it returns, with a result of step [n]. *)
Definition keepsStepName (n : string) (c : IO StepState) : Prop :=
  forall disk st disk', c disk = (Returned st, disk') -> step (result st) = n.

(** The results of a call of [migrate] that ran steps. *)
Definition resultsOf (outcome : Completion MigrateOutcome * Disk) : list MigrationResult :=
  match outcome.1 with
  | Returned (Completed rs) => rs
  | _ => []
  end.

(** A node and its descendants. *)
Definition subtree (n : Node) : list Node := n :: descendants n.

(** [receiver.methodName(args)] *)
Definition methodCall (receiver : Node) (methodName : string) (args : list Node) : Node :=
  mkNode CallExpression EmptyString
    (mkNode PropertyAccessExpression EmptyString [receiver; identifier methodName] :: args).

(** The two-step pattern with the factory held in a variable:

    [const factory = resolver.resolveComponentFactory(X);]
    [vcr.createComponent(factory);] *)
Definition factoryViaVariable (resolver vcr componentType : Node) (factory : string)
  : list Node :=
  [mkNode OtherKind "const"
     [mkNode VariableDeclaration EmptyString
        [identifier factory;
         methodCall resolver "resolveComponentFactory" [componentType]]];
   methodCall vcr "createComponent" [identifier factory]].

(** A tree without call expressions. *)
Definition callFree (n : Node) : Prop :=
  Forall (fun d => isKind CallExpression d = false) (subtree n).

(** ** Notions for the manifest and the workspace configuration *)

(** [pkg'] has the sections of [pkg], each with the same package names, and
    the versions of the packages outside [names] are those of [pkg]. *)
Definition sameKeys (names : list string) (pkg pkg' : PackageJson) : Prop :=
  forall section, In section sections ->
    match getSection pkg section, getSection pkg' section with
    | Some deps, Some deps' =>
        dom deps' = dom deps
        /\ (forall name, ~ In name names -> deps' !! name = deps !! name)
    | None, None => True
    | _, _ => False
    end.

(** The manifest stored on a disk under a project path. *)
Definition manifestOf (disk : Disk) (projectPath : string) : option PackageJson :=
  match disk !! path_join projectPath "package.json" with
  | Some (PackageJsonFile pkg) => Some pkg
  | _ => None
  end.

(** No entry of [updates] is named like a property of [Object.prototype]:
    [name in deps] then holds for the packages that [deps] lists and for no
    other name. *)
Definition namesPackages (updates : list (string * string)) : Prop :=
  Forall (λ update, inheritedText update.1 = None) updates.

(** The change that [updatePackageVersions] files for the version
    [oldVersion] of [name] in [section] that becomes [newVersion]. *)
Definition versionChange (section name oldVersion newVersion : string) : Change.t :=
  Change.mk "package.json"
    (section +:+ ": " +:+ name +:+ " " +:+ oldVersion +:+ " â†’ " +:+ newVersion)
    (Some oldVersion) (Some newVersion).

(** The differences between the versions a section lists and the versions
    that [updates] asks for, in the order of [updates]. *)
Definition sectionChanges (updates : list (string * string)) (section : string)
    (deps : gmap string string) : list Change.t :=
  flat_map (λ update : string * string,
              match deps !! update.1 with
              | Some oldVersion =>
                  if String.eqb oldVersion update.2 then []
                  else [versionChange section update.1 oldVersion update.2]
              | None => []
              end)
    updates.

(** The same for the three sections of a manifest, in their order. *)
Definition manifestChanges (updates : list (string * string)) (pkg : PackageJson)
  : list Change.t :=
  flat_map (λ section,
              match getSection pkg section with
              | Some deps => sectionChanges updates section deps
              | None => []
              end)
    sections.

(** A real version change of the manifest [pkg] for [updates]: a section
    of [pkg] lists a package at [oldVersion], [updates] asks for a different
    [newVersion], and [c] is the change filed for it. *)
Definition isVersionBump (pkg : PackageJson) (updates : list (string * string))
    (c : Change.t) : Prop :=
  exists section deps name oldVersion newVersion,
    In section sections
    /\ getSection pkg section = Some deps
    /\ In (name, newVersion) updates
    /\ deps !! name = Some oldVersion
    /\ oldVersion <> newVersion
    /\ c = versionChange section name oldVersion newVersion.

(** The versions that [updates] asks for are those the section already
    has. *)
Definition sectionSettled (updates : list (string * string)) (pkg : PackageJson)
    (section : string) : Prop :=
  forall deps, getSection pkg section = Some deps ->
    forall name newVersion oldVersion,
      In (name, newVersion) updates -> deps !! name = Some oldVersion ->
      oldVersion = newVersion.

(** A dependency section after [oldName] has been replaced by [newName] at
    [newVersion]; a section without [oldName] stays as it is. *)
Definition replacedIn (oldName newName newVersion : string) (deps : gmap string string)
  : gmap string string :=
  match deps !! oldName with
  | Some _ => <[newName := newVersion]> (delete oldName deps)
  | None => deps
  end.

(** Whether a section of the manifest lists the package. *)
Definition listsPackage (pkg : PackageJson) (packageName section : string) : bool :=
  match getSection pkg section with
  | Some deps => match deps !! packageName with Some _ => true | None => false end
  | None => false
  end.

(** The version of [@angular/core] a manifest declares: the entry of
    [devDependencies] when there is one, otherwise that of [dependencies]. *)
Definition coreVersion (pkg : PackageJson) : option string :=
  match devDependencies pkg ≫= (λ deps, deps !! "@angular/core") with
  | Some version => Some version
  | None => dependencies pkg ≫= (λ deps, deps !! "@angular/core")
  end.

Fixpoint digitFree (s : string) : bool :=
  match s with
  | EmptyString => true
  | String c rest => negb (JsString.isDigit c) && digitFree rest
  end.

Definition startsWithDigit (s : string) : bool :=
  match s with
  | EmptyString => false
  | String c _ => JsString.isDigit c
  end.

(** The workspace file of the project at [projectPath], when the disk holds one. *)
Definition workspaceOf (disk : Disk) (projectPath : string) : option AngularJson :=
  match disk !! path_join projectPath "angular.json" with
  | Some (AngularJsonFile config) => Some config
  | _ => None
  end.

(** A [build] target still on the [browser] or [browser-esbuild] builder. *)
Definition isBrowserBuild (entry : string * Target) : bool :=
  String.eqb entry.1 "build"
  && match builder entry.2 with
     | Some b => String.eqb b "@angular-devkit/build-angular:browser"
                 || String.eqb b "@angular-devkit/build-angular:browser-esbuild"
     | None => false
     end.

Definition projectUsesBrowserBuilder (entry : string * WorkspaceProject) : bool :=
  match architect entry.2 with
  | Some targets => existsb isBrowserBuild targets
  | None => false
  end.

Definition usesBrowserBuilder (config : AngularJson) : bool :=
  match projects config with
  | Some ps => existsb projectUsesBrowserBuilder ps
  | None => false
  end.

(** The names of the targets of every project, in order. *)
Definition targetNames (config : AngularJson) : option (list (string * option (list string))) :=
  option_map
    (List.map (λ entry : string * WorkspaceProject,
                 (entry.1, option_map (List.map fst) (architect entry.2))))
    (projects config).

(** The targets of a workspace that are not called [build]. *)
Definition otherTargets (config : AngularJson) : list (string * list (string * Target)) :=
  List.map (λ entry : string * WorkspaceProject,
              (entry.1,
               List.filter (λ t : string * Target, negb (String.eqb t.1 "build"))
                 (default [] (architect entry.2))))
    (default [] (projects config)).

(** The source files in memory are the ones the disk holds at their paths. *)
Definition inSync (disk : Disk) (sourceFiles : list SourceFile) : Prop :=
  Forall (λ sf, disk !! filePath sf
                = Some (TypeScriptFile (importDeclarations sf) (statements sf)))
    sourceFiles.

(** The codemods of [utils/codemods.ts] that edit named imports,
    identifiers and decorator properties in place, with their arguments. *)
Inductive CodemodCall :=
| RenameNamedImport (moduleName oldName newName : string)
| RemoveObsoleteImport (moduleName symbolName : string)
| MigrateCanLoadToCanMatch
| MigrateAsyncToWaitForAsync
| EnsureModuleWithProvidersGeneric
| AddStandaloneFalse.


(** The body of the loop of each of them. *)
Definition codemodBody (call : CodemodCall) : SourceFile -> FileEdit.t :=
  match call with
  | RenameNamedImport moduleName oldName newName =>
      renameNamedImport_file moduleName oldName newName
  | RemoveObsoleteImport moduleName symbolName =>
      removeObsoleteImport_file moduleName symbolName
  | MigrateCanLoadToCanMatch => migrateCanLoadToCanMatch_file
  | MigrateAsyncToWaitForAsync =>
      renameNamedImport_file "@angular/core/testing" "async" "waitForAsync"
  | EnsureModuleWithProvidersGeneric => ensureModuleWithProvidersGeneric_file
  | AddStandaloneFalse => addStandaloneFalse_file
  end.




(** A property of the result under construction that a step body keeps up
    to the state it returns. *)
Definition keepsResult (P : MigrationResult -> Prop) (c : IO StepState) : Prop :=
  forall disk st disk', c disk = (Returned st, disk') -> P (result st).

(** A result as a step returns it, without errors, or as the orchestrator
    records it for a step that threw. *)
Definition cleanOrFailed (r : MigrationResult) : Prop :=
  errors r = []
  \/ (changes r = [] /\ warnings r = []
      /\ exists message, errors r = [MigrationError.mk "migrator" message]).

(** The state of a step in which the file [sf] has gone unnoticed so far:
    the files of the state have distinct paths and are on disk as they
    are in memory, [sf] is among them as it was loaded, and no change of
    the result is filed under its path. *)
Definition unnoticed (sf : SourceFile) (st : StepState) (disk : Disk) : Prop :=
  NoDup (List.map filePath (sourceFiles st))
  /\ inSync disk (sourceFiles st)
  /\ In sf (sourceFiles st)
  /\ Forall (λ c, Change.file c <> filePath sf) (changes (result st)).


(** The names of the projects of a workspace. *)
Definition projectNames (config : AngularJson) : list string :=
  List.map fst (default [] (projects config)).

(** The project [projectName] of the workspace has [t] as its target
    [targetName]. *)
Definition hasTarget (config : AngularJson) (projectName targetName : string) (t : Target)
  : Prop :=
  exists project targets,
    In (projectName, project) (default [] (projects config))
    /\ architect project = Some targets
    /\ In (targetName, t) targets.

(** The project [projectName] of the workspace has a target [targetName]. *)
Definition declaresTarget (config : AngularJson) (projectName targetName : string) : Prop :=
  exists t, hasTarget config projectName targetName t.

(** The configuration that [createTsProject] reads for a project. *)
Definition configFileOf (disk : Disk) (projectPath : string) : string :=
  if existsSync disk (path_join projectPath "tsconfig.app.json")
  then path_join projectPath "tsconfig.app.json"
  else path_join projectPath "tsconfig.json".

(** The source files that the configuration of the project names. *)
Definition configuredPaths (disk : Disk) (projectPath : string) : list string :=
  match disk !! configFileOf disk projectPath with
  | Some (TsConfigFile (Some paths)) => paths
  | _ => []
  end.

(** The files of the project at [projectPath]: the TypeScript files of
    the disk that the glob of [createTsProject] matches or that the
    configuration of the project names. *)
Definition isProjectFile (disk : Disk) (projectPath path : string) : bool :=
  match disk !! path with
  | Some (TypeScriptFile _ _) =>
      isTypeScriptPath projectPath path
      || (JsString.startsWith "/" path
          && existsb (String.eqb path) (configuredPaths disk projectPath))
  | _ => false
  end.










(** * Properties *)

(** ** The [IO] monad *)

Lemma bind_returned {A B : Type} (c : IO A) (k : A -> IO B) disk b disk' :
  bind c k disk = (Returned b, disk') ->
  exists a disk1, c disk = (Returned a, disk1) /\ k a disk1 = (Returned b, disk').
Proof.
  unfold bind. destruct (c disk) as [[a | e] disk1]; [eauto | discriminate].
Qed.

Lemma bind_eq {A B : Type} (c : IO A) (k : A -> IO B) disk a disk1 :
  c disk = (Returned a, disk1) -> bind c k disk = k a disk1.
Proof. intros H. unfold bind. by rewrite H. Qed.

Lemma bind_thrown {A B : Type} (c : IO A) (k : A -> IO B) disk e disk1 :
  c disk = (Thrown e, disk1) -> bind c k disk = (Thrown e, disk1).
Proof. intros H. unfold bind. by rewrite H. Qed.

Lemma preservesDisk_ret {A : Type} (a : A) : preservesDisk (ret a).
Proof. by intros disk. Qed.

Lemma preservesDisk_throw {A : Type} (e : JsError) : preservesDisk (@throw A e).
Proof. by intros disk. Qed.

Lemma preservesDisk_readFile path : preservesDisk (readFile path).
Proof. by intros disk. Qed.

Lemma preservesDisk_bind {A B : Type} (c : IO A) (k : A -> IO B) :
  preservesDisk c -> (forall a, preservesDisk (k a)) -> preservesDisk (bind c k).
Proof.
  intros Hc Hk disk. unfold bind. specialize (Hc disk).
  destruct (c disk) as [[a | e] disk1]; simpl in *; subst; [apply Hk | done].
Qed.

Lemma preservesDisk_tryCatch {A : Type} (c : IO A) (h : JsError -> IO A) :
  preservesDisk c -> (forall e, preservesDisk (h e)) -> preservesDisk (tryCatch c h).
Proof.
  intros Hc Hh disk. unfold tryCatch. specialize (Hc disk).
  destruct (c disk) as [[a | e] disk1]; simpl in *; subst; [done | apply Hh].
Qed.

Lemma sameCompletion_ret {A : Type} (a : A) : sameCompletion (ret a) (ret a).
Proof. by intros d1 d2. Qed.

Lemma sameCompletion_bind {A B : Type} (c1 c2 : IO A) (k1 k2 : A -> IO B) :
  sameCompletion c1 c2 -> (forall a, sameCompletion (k1 a) (k2 a)) ->
  sameCompletion (bind c1 k1) (bind c2 k2).
Proof.
  intros Hc Hk d1 d2. unfold bind. specialize (Hc d1 d2).
  destruct (c1 d1) as [[a1 | e1] d1'], (c2 d2) as [[a2 | e2] d2'];
    simpl in *; try discriminate; inversion Hc; subst; [apply Hk | done].
Qed.

Ltac preserves :=
  repeat first
    [ apply preservesDisk_ret | apply preservesDisk_throw | apply preservesDisk_readFile
    | apply preservesDisk_bind; [ | intros ? ]
    | apply preservesDisk_tryCatch; [ | intros ? ] ].

(** ** Step selection *)

Lemma StronglySorted_filter_keeps {A : Type} (R : A -> A -> Prop) (p : A -> bool) l :
  StronglySorted R l -> StronglySorted R (List.filter p l).
Proof.
  induction 1 as [| a l Hs IH Hall]; simpl; [constructor |].
  destruct (p a); [| done].
  constructor; [done |].
  rewrite Forall_forall in Hall |- *.
  intros x Hx. apply list_elem_of_In, filter_In in Hx as [Hx _].
  apply Hall. by apply list_elem_of_In.
Qed.

Lemma detectAngularVersion_preservesDisk projectPath :
  preservesDisk (detectAngularVersion projectPath).
Proof.
  unfold detectAngularVersion, readPackageJson. preserves.
  - destruct a as [[] |]; preserves.
  - destruct (allDependencies a !! "@angular/core"); preserves.
    destruct (String.eqb _ _); preserves.
    destruct (JsString.firstInteger _); preserves.
Qed.

Lemma resolveCurrentVersion_preservesDisk options :
  preservesDisk (resolveCurrentVersion options).
Proof.
  unfold resolveCurrentVersion. destruct (MigratorOptions.fromVersion options).
  - apply preservesDisk_ret.
  - apply detectAngularVersion_preservesDisk.
Qed.

(** ** The results carry the name of their step *)

Lemma keepsStepName_ret n st : step (result st) = n -> keepsStepName n (ret st).
Proof. intros H disk st' disk' Heq. by inversion Heq; subst. Qed.

Lemma keepsStepName_bind {A : Type} n (c : IO A) (k : A -> IO StepState) :
  (forall a, keepsStepName n (k a)) -> keepsStepName n (bind c k).
Proof.
  intros Hk disk st disk' H. apply bind_returned in H as (a & disk1 & _ & H).
  by eapply Hk.
Qed.

Lemma keepsStepName_applyCodemod n codemod report st (k : StepState -> IO StepState) :
  (forall r res, step (report r res) = step res) ->
  step (result st) = n ->
  (forall st1, step (result st1) = n -> keepsStepName n (k st1)) ->
  keepsStepName n (bind (applyCodemod codemod report st) k).
Proof.
  intros Hreport Hst Hk disk st' disk' H.
  apply bind_returned in H as (st1 & disk1 & Hc & H).
  unfold applyCodemod in Hc. apply bind_returned in Hc as (r & disk2 & _ & Hc).
  inversion Hc; subst. eapply Hk; [| done]. simpl. by rewrite Hreport.
Qed.

Ltac step_side :=
  simpl;
  repeat match goal with
         | |- context [if ?b then _ else _] => destruct b; simpl
         end;
  assumption.

Ltac keeps_step_name :=
  repeat first
    [ apply keepsStepName_ret; step_side
    | apply keepsStepName_applyCodemod; [ reflexivity | step_side | intros ? ? ]
    | apply keepsStepName_bind; intros ? ].

Lemma v15ToV16_codemods_step ctx st :
  keepsStepName (step (result st)) (v15ToV16_codemods ctx st).
Proof.
  unfold v15ToV16_codemods. generalize (eq_refl (step (result st))).
  generalize (step (result st)) at 2 3. intros n Hn.
  keeps_step_name.
Qed.

Lemma v17ToV18_codemods_step ctx st :
  keepsStepName (step (result st)) (v17ToV18_codemods ctx st).
Proof.
  unfold v17ToV18_codemods. generalize (eq_refl (step (result st))).
  generalize (step (result st)) at 2 3. intros n Hn.
  keeps_step_name.
Qed.

Lemma v18ToV19_codemods_step ctx st :
  keepsStepName (step (result st)) (v18ToV19_codemods ctx st).
Proof.
  unfold v18ToV19_codemods. generalize (eq_refl (step (result st))).
  generalize (step (result st)) at 2 3. intros n Hn.
  keeps_step_name.
Qed.

Lemma v16ToV17_codemods_step removeDominoSetup ctx st :
  keepsStepName (step (result st)) (v16ToV17_codemods removeDominoSetup ctx st).
Proof.
  unfold v16ToV17_codemods. generalize (eq_refl (step (result st))).
  generalize (step (result st)) at 2 3. intros n Hn.
  keeps_step_name.
Qed.

Lemma run_returns_own_name removeDominoSetup s ctx disk r disk' :
  In s (ALL_STEPS removeDominoSetup) ->
  run s ctx disk = (Returned r, disk') -> step r = name s.
Proof.
  intros Hin H.
  assert (Hload : forall res (body : StepState -> IO StepState) d r0 d0,
             (forall st, keepsStepName (step (result st)) (body st)) ->
             bind (loadSourceFiles ctx)
               (fun loaded => match loaded with
                              | inl e => ret (projectLoadFailed res e)
                              | inr sfs =>
                                  bind (body {| sourceFiles := sfs; result := res |})
                                    (fun st => ret (result st))
                              end) d = (Returned r0, d0) ->
             step r0 = step res).
  { intros res body d r0 d0 Hbody H0.
    apply bind_returned in H0 as ([e | sfs] & d1 & _ & H0).
    - by inversion H0.
    - apply bind_returned in H0 as (st & d2 & Hst & H0). inversion H0; subst.
      by apply Hbody in Hst. }
  unfold ALL_STEPS in Hin. simpl in Hin.
  destruct Hin as [<- | [<- | [<- | [<- | []]]]]; simpl in *.
  - unfold v15ToV16_run in H. apply bind_returned in H as (cs & d1 & _ & H).
    eapply Hload in H; [done | apply v15ToV16_codemods_step].
  - unfold v16ToV17_run in H.
    do 5 (apply bind_returned in H as (? & ? & _ & H)).
    eapply Hload in H; [done | apply v16ToV17_codemods_step].
  - unfold v17ToV18_run in H. apply bind_returned in H as (cs & d1 & _ & H).
    eapply Hload in H; [done | apply v17ToV18_codemods_step].
  - unfold v18ToV19_run in H. apply bind_returned in H as (cs & d1 & _ & H).
    eapply Hload in H; [done | apply v18ToV19_codemods_step].
Qed.

(** ** The loop of the orchestrator *)

Lemma runSteps_trace context steps disk :
  exists rs disk',
    runSteps context steps disk = (Returned rs, disk')
    /\ StepsTrace context steps disk rs disk'.
Proof.
  revert disk. induction steps as [| s rest IH]; intros disk; simpl.
  - exists [], disk. split; [done | constructor].
  - destruct (run s (context s) disk) as [[r | err] disk1] eqn:Hrun.
    + destruct (IH disk1) as (rs & disk2 & Hrest & Htrace).
      exists (r :: rs), disk2. split.
      * unfold bind at 1. unfold tryCatch. rewrite Hrun.
        unfold bind. by rewrite Hrest.
      * by eapply trace_returned.
    + destruct (IH disk1) as (rs & disk2 & Hrest & Htrace).
      exists (failedResult s err :: rs), disk2. split.
      * unfold bind at 1. unfold tryCatch. rewrite Hrun. simpl.
        unfold bind. by rewrite Hrest.
      * by eapply trace_thrown.
Qed.

Lemma StepsTrace_length context steps disk rs disk' :
  StepsTrace context steps disk rs disk' -> length rs = length steps.
Proof. induction 1; simpl; congruence. Qed.

Lemma StepsTrace_names removeDominoSetup context steps disk rs disk' :
  (forall s, In s steps -> In s (ALL_STEPS removeDominoSetup)) ->
  StepsTrace context steps disk rs disk' ->
  List.map step rs = List.map name steps.
Proof.
  intros Hall Htrace. induction Htrace as [| s rest d r d1 rs d2 Hrun _ IH
                                          | s rest d err d1 rs d2 Hrun _ IH]; simpl.
  - done.
  - f_equal.
    + eapply run_returns_own_name; [| exact Hrun]. apply Hall. by left.
    + apply IH. intros s' Hs'. apply Hall. by right.
  - f_equal. apply IH. intros s' Hs'. apply Hall. by right.
Qed.

Lemma stepsToRun_declared removeDominoSetup currentVersion toVersion s :
  In s (stepsToRun removeDominoSetup currentVersion toVersion) ->
  In s (ALL_STEPS removeDominoSetup).
Proof. unfold stepsToRun. rewrite filter_In. tauto. Qed.

(** What [migrate] does once the project path exists and the current
    version is below the target: the outcome of the loop over the selected
    steps, then the report. *)
Lemma migrate_runs_selected removeDominoSetup options now disk currentVersion disk1 :
  is_Some (disk !! path_resolve (MigratorOptions.projectPath options)) ->
  resolveCurrentVersion options disk = (Returned currentVersion, disk1) ->
  currentVersion < default 19 (MigratorOptions.toVersion options) ->
  let absPath := path_resolve (MigratorOptions.projectPath options) in
  let preview := default false (MigratorOptions.dryRun options) in
  let context :=
    stepContext absPath preview (default false (MigratorOptions.skipPackageJson options)) in
  let selected :=
    stepsToRun removeDominoSetup currentVersion
      (default 19 (MigratorOptions.toVersion options)) in
  selected <> [] ->
  exists rs disk2,
    StepsTrace context selected disk rs disk2
    /\ migrate removeDominoSetup options now disk
       = (Returned (Completed rs),
          <[path_join absPath "migration-report.md"
              := TextFile (reportLines absPath rs preview now)]> disk2).
Proof.
  intros [entry Hentry] Hversion Hlt absPath preview context selected Hsel.
  pose proof (resolveCurrentVersion_preservesDisk options disk) as Hdisk.
  rewrite Hversion in Hdisk. simpl in Hdisk. subst disk1.
  destruct (runSteps_trace context selected disk) as (rs & disk2 & Hrun & Htrace).
  exists rs, disk2. split; [done |].
  unfold migrate.
  rewrite (bind_eq _ _ disk (Some entry) disk) by (unfold readFile; by rewrite Hentry).
  rewrite (bind_eq _ _ disk currentVersion disk) by done.
  replace (currentVersion >=? default 19 (MigratorOptions.toVersion options)) with false
    by (symmetry; lia).
  fold absPath preview selected.
  destruct selected as [| s0 rest] eqn:Hs; [done |].
  cbn [length Nat.eqb].
  fold context. rewrite (bind_eq _ _ disk rs disk2) by done.
  done.
Qed.

(** C1. The pipeline selects exactly the declared steps with
    [from >= currentVersion] and [to <= toVersion], in ascending version
    order: all four steps for 15 to 19, the single step 17 → 18 for 17 to
    18; when the current version is not below the target, [migrate] runs
    no step, touches nothing and ends with "nothing to do"; and when it is
    below the target, the steps [migrate] runs are the selected ones, each
    once and in that order, before the report is written (with no step
    selected it runs nothing and writes nothing). *)
Theorem step_selection_is_exact
    (removeDominoSetup : list SourceFile -> MigrationContext -> IO Codemod.t) :
  (forall currentVersion toVersion s,
      In s (stepsToRun removeDominoSetup currentVersion toVersion) <->
      In s (ALL_STEPS removeDominoSetup)
      /\ from s >= currentVersion /\ to s <= toVersion)
  /\ (forall currentVersion toVersion,
         StronglySorted (fun a b => from a < from b /\ to a <= from b)
           (stepsToRun removeDominoSetup currentVersion toVersion))
  /\ List.map (fun s => (from s, to s)) (stepsToRun removeDominoSetup 15 19)
     = [(15, 16); (16, 17); (17, 18); (18, 19)]
  /\ stepsToRun removeDominoSetup 15 19
     = [v15ToV16; v16ToV17 removeDominoSetup; v17ToV18; v18ToV19]
  /\ stepsToRun removeDominoSetup 17 18 = [v17ToV18]
  /\ (forall options now disk currentVersion disk1,
         is_Some (disk !! path_resolve (MigratorOptions.projectPath options)) ->
         resolveCurrentVersion options disk = (Returned currentVersion, disk1) ->
         currentVersion >= default 19 (MigratorOptions.toVersion options) ->
         migrate removeDominoSetup options now disk
         = (Returned (NothingToDo currentVersion), disk))
  /\ (forall options now disk currentVersion disk1,
         is_Some (disk !! path_resolve (MigratorOptions.projectPath options)) ->
         resolveCurrentVersion options disk = (Returned currentVersion, disk1) ->
         currentVersion < default 19 (MigratorOptions.toVersion options) ->
         let absPath := path_resolve (MigratorOptions.projectPath options) in
         let toVersion := default 19 (MigratorOptions.toVersion options) in
         let preview := default false (MigratorOptions.dryRun options) in
         let context :=
           stepContext absPath preview
             (default false (MigratorOptions.skipPackageJson options)) in
         let selected := stepsToRun removeDominoSetup currentVersion toVersion in
         (selected = [] ->
          migrate removeDominoSetup options now disk
          = (Returned (NoStepsFound currentVersion toVersion), disk))
         /\ (selected <> [] ->
             exists rs disk2,
               StepsTrace context selected disk rs disk2
               /\ length rs = length selected
               /\ migrate removeDominoSetup options now disk
                  = (_ <- writeReport absPath rs preview now ;; ret (Completed rs)) disk2)).
Proof.
  split; [| split; [| split; [| split; [| split; [| split]]]]]; try reflexivity.
  - intros currentVersion toVersion s. unfold stepsToRun. rewrite filter_In.
    rewrite andb_true_iff. split.
    + intros (Hin & Hfrom & Hto). repeat split; [done | lia | lia].
    + intros (Hin & Hfrom & Hto). repeat split; [done | lia | lia].
  - intros currentVersion toVersion. unfold stepsToRun.
    apply StronglySorted_filter_keeps. unfold ALL_STEPS.
    repeat (constructor; [| repeat constructor; simpl; lia]). constructor.
  - intros options now disk currentVersion disk1 [entry Hentry] Hversion Hge.
    pose proof (resolveCurrentVersion_preservesDisk options disk) as Hdisk.
    rewrite Hversion in Hdisk. simpl in Hdisk. subst disk1.
    unfold migrate.
    rewrite (bind_eq _ _ disk (Some entry) disk) by (unfold readFile; by rewrite Hentry).
    rewrite (bind_eq _ _ disk currentVersion disk) by done.
    replace (currentVersion >=? default 19 (MigratorOptions.toVersion options)) with true
      by (symmetry; lia).
    done.
  - intros options now disk currentVersion disk1 Hpath Hversion Hlt
      absPath toVersion preview context selected.
    split.
    + intros Hnone. destruct Hpath as [entry Hentry].
      pose proof (resolveCurrentVersion_preservesDisk options disk) as Hdisk.
      rewrite Hversion in Hdisk. simpl in Hdisk. subst disk1.
      unfold migrate.
      rewrite (bind_eq _ _ disk (Some entry) disk)
        by (unfold readFile; by rewrite Hentry).
      rewrite (bind_eq _ _ disk currentVersion disk) by done.
      replace (currentVersion >=? default 19 (MigratorOptions.toVersion options))
        with false by (symmetry; lia).
      fold toVersion selected. by rewrite Hnone.
    + intros Hsome.
      destruct (migrate_runs_selected removeDominoSetup options now disk currentVersion
                  disk1 Hpath Hversion Hlt Hsome) as (rs & disk2 & Htrace & Hmigrate).
      exists rs, disk2. split; [exact Htrace |].
      split; [by eapply StepsTrace_length |]. exact Hmigrate.
Qed.

Lemma step_selection_is_exact_witness :
  migrate noDominoSetup (Examples.options (Some 19) (Some 19) false) Examples.now
    Examples.bareProject
  = (Returned (NothingToDo 19), Examples.bareProject)
  /\ exists rs disk2,
       StepsTrace (stepContext "/app" false false) [v17ToV18; v18ToV19]
         Examples.bareProject rs disk2
       /\ length rs = 2%nat
       /\ migrate noDominoSetup (Examples.options (Some 17) (Some 19) false) Examples.now
            Examples.bareProject
          = (_ <- writeReport "/app" rs false Examples.now ;; ret (Completed rs)) disk2.
Proof.
  destruct (step_selection_is_exact noDominoSetup)
    as (_ & _ & _ & _ & _ & Hnothing & Hruns).
  split.
  - apply Hnothing with (disk1 := Examples.bareProject).
    + vm_compute. eauto.
    + reflexivity.
    + simpl. lia.
  - apply (Hruns (Examples.options (Some 17) (Some 19) false) Examples.now
             Examples.bareProject 17 Examples.bareProject).
    + vm_compute. eauto.
    + reflexivity.
    + simpl. lia.
    + discriminate.
Defined.



(** C10. After a run in which steps were selected, the result list holds
    one result per selected step, in selection order, each under the name of
    its step; a step that threw contributes a result with no change, no
    warning and exactly one error. *)
Theorem one_result_per_selected_step
    (removeDominoSetup : list SourceFile -> MigrationContext -> IO Codemod.t)
    options now disk currentVersion disk1 :
  is_Some (disk !! path_resolve (MigratorOptions.projectPath options)) ->
  resolveCurrentVersion options disk = (Returned currentVersion, disk1) ->
  currentVersion < default 19 (MigratorOptions.toVersion options) ->
  let absPath := path_resolve (MigratorOptions.projectPath options) in
  let context :=
    stepContext absPath (default false (MigratorOptions.dryRun options))
      (default false (MigratorOptions.skipPackageJson options)) in
  let selected :=
    stepsToRun removeDominoSetup currentVersion
      (default 19 (MigratorOptions.toVersion options)) in
  selected <> [] ->
  exists rs disk',
    migrate removeDominoSetup options now disk = (Returned (Completed rs), disk')
    /\ length rs = length selected
    /\ List.map step rs = List.map name selected
    /\ (forall i s d err d',
          selected !! i = Some s ->
          run s (context s) d = (Thrown err, d') ->
          step (failedResult s err) = name s
          /\ changes (failedResult s err) = []
          /\ warnings (failedResult s err) = []
          /\ length (errors (failedResult s err)) = 1%nat)
    /\ (exists disk2, StepsTrace context selected disk rs disk2).
Proof.
  intros Hpath Hversion Hlt absPath context selected Hsel.
  destruct (migrate_runs_selected removeDominoSetup options now disk currentVersion disk1
              Hpath Hversion Hlt Hsel) as (rs & disk2 & Htrace & Hmigrate).
  eexists rs, _. split; [exact Hmigrate |].
  split; [by eapply StepsTrace_length |].
  split.
  - eapply StepsTrace_names; [| exact Htrace].
    intros s Hs. by eapply stepsToRun_declared.
  - split; [by intros | by exists disk2].
Qed.

Lemma one_result_per_selected_step_witness :
  exists rs disk',
    migrate noDominoSetup (Examples.options None (Some 19) true) Examples.now
      Examples.projectV17
    = (Returned (Completed rs), disk')
    /\ length rs = 2%nat
    /\ List.map step rs = ["Angular 17 → 18"; "Angular 18 → 19"]
    /\ (forall i s d err d',
          [v17ToV18; v18ToV19] !! i = Some s ->
          run s (stepContext "/app" true false s) d = (Thrown err, d') ->
          step (failedResult s err) = name s
          /\ changes (failedResult s err) = []
          /\ warnings (failedResult s err) = []
          /\ length (errors (failedResult s err)) = 1%nat)
    /\ (exists disk2,
          StepsTrace (stepContext "/app" true false) [v17ToV18; v18ToV19]
            Examples.projectV17 rs disk2).
Proof.
  apply (one_result_per_selected_step noDominoSetup
           (Examples.options None (Some 19) true) Examples.now
           Examples.projectV17 17 Examples.projectV17).
  - vm_compute. eauto.
  - vm_compute. reflexivity.
  - simpl. lia.
  - discriminate.
Defined.

(** ** Preview mode: what reaches the disk *)

Lemma forEachSourceFile_preview ctx body sfs :
  dryRun ctx = true -> preservesDisk (forEachSourceFile ctx body sfs).
Proof.
  intros Hdry. induction sfs as [| sf rest IH]; simpl.
  - apply preservesDisk_ret.
  - rewrite Hdry, andb_false_r. preserves. exact IH.
Qed.

Lemma forEachSourceFileOrThrow_preview ctx body sfs :
  dryRun ctx = true -> preservesDisk (forEachSourceFileOrThrow ctx body sfs).
Proof.
  intros Hdry. induction sfs as [| sf rest IH]; cbn [forEachSourceFileOrThrow].
  - apply preservesDisk_ret.
  - destruct (body sf) as [e | message]; [| apply preservesDisk_throw].
    rewrite Hdry, andb_false_r. preserves. exact IH.
Qed.

Lemma readPackageJson_preservesDisk projectPath : preservesDisk (readPackageJson projectPath).
Proof. unfold readPackageJson. preserves. destruct a as [[] |]; preserves. Qed.

Lemma readAngularJson_preservesDisk projectPath : preservesDisk (readAngularJson projectPath).
Proof. unfold readAngularJson. preserves. destruct a as [[] |]; preserves. Qed.

Lemma updatePackageVersions_preview ctx updates :
  dryRun ctx = true -> preservesDisk (updatePackageVersions ctx updates).
Proof.
  intros Hdry. unfold updatePackageVersions.
  destruct (skipPackageJson ctx); [apply preservesDisk_ret |].
  apply preservesDisk_bind; [apply readPackageJson_preservesDisk |]. intros pkg.
  destruct (fold_left _ _ _) as [pkg' changes].
  rewrite Hdry, andb_false_r. apply preservesDisk_ret.
Qed.

Lemma replacePackageDependency_preview ctx oldName newName newVersion :
  dryRun ctx = true ->
  preservesDisk (replacePackageDependency ctx oldName newName newVersion).
Proof.
  intros Hdry. unfold replacePackageDependency.
  destruct (skipPackageJson ctx); [apply preservesDisk_ret |].
  apply preservesDisk_bind; [apply readPackageJson_preservesDisk |]. intros pkg.
  destruct (fold_left _ _ _) as [pkg' changes].
  rewrite Hdry, andb_false_r. apply preservesDisk_ret.
Qed.

Lemma migrateBrowserBuilderToApplication_preview ctx :
  dryRun ctx = true -> preservesDisk (migrateBrowserBuilderToApplication ctx).
Proof.
  intros Hdry. unfold migrateBrowserBuilderToApplication.
  apply preservesDisk_bind; [apply readAngularJson_preservesDisk |]. intros [config |].
  - destruct (projects config) as [ps |]; [| apply preservesDisk_ret].
    destruct (mapCollect _ _) as [ps' changes].
    rewrite Hdry, andb_false_r. apply preservesDisk_ret.
  - apply preservesDisk_ret.
Qed.

Lemma removeDefaultProject_preview ctx :
  dryRun ctx = true -> preservesDisk (removeDefaultProject ctx).
Proof.
  intros Hdry. unfold removeDefaultProject.
  apply preservesDisk_bind; [apply readAngularJson_preservesDisk |]. intros [config |].
  - destruct (defaultProject config); [| apply preservesDisk_ret].
    rewrite Hdry. preserves.
  - apply preservesDisk_ret.
Qed.

Lemma fixZoneJsImports_files_preview ctx candidates :
  dryRun ctx = true -> preservesDisk (fixZoneJsImports_files ctx candidates).
Proof.
  intros Hdry. induction candidates as [| [file entry] rest IH];
    cbn [fixZoneJsImports_files].
  - apply preservesDisk_ret.
  - destruct entry; try exact IH.
    destruct (fold_left applyReplacement zoneReplacements _)
      as [[imports' body'] changed].
    rewrite Hdry, andb_false_r. preserves. exact IH.
Qed.

Lemma fixZoneJsImports_preview projectPath ctx :
  dryRun ctx = true -> preservesDisk (fixZoneJsImports projectPath ctx).
Proof.
  intros Hdry disk. unfold fixZoneJsImports.
  apply fixZoneJsImports_files_preview. exact Hdry.
Qed.

Lemma createTsProject_preservesDisk projectPath : preservesDisk (createTsProject projectPath).
Proof.
  intros disk. unfold createTsProject.
  destruct (disk !! _) as [[| | | [paths |] | |] |]; reflexivity.
Qed.

Lemma loadSourceFiles_preservesDisk ctx : preservesDisk (loadSourceFiles ctx).
Proof.
  unfold loadSourceFiles. apply preservesDisk_tryCatch.
  - apply preservesDisk_bind; [apply createTsProject_preservesDisk |]. intros.
    apply preservesDisk_ret.
  - intros. apply preservesDisk_ret.
Qed.

Lemma applyCodemod_preservesDisk codemod report st :
  preservesDisk (codemod (sourceFiles st)) ->
  preservesDisk (applyCodemod codemod report st).
Proof. intros H. unfold applyCodemod. preserves. exact H. Qed.

Ltac preview_codemods Hdry :=
  repeat first
    [ apply preservesDisk_ret
    | apply applyCodemod_preservesDisk
    | apply forEachSourceFile_preview; exact Hdry
    | apply forEachSourceFileOrThrow_preview; exact Hdry
    | apply preservesDisk_bind; [ | intros ? ] ].

Lemma v15ToV16_run_preview ctx : dryRun ctx = true -> preservesDisk (v15ToV16_run ctx).
Proof.
  intros Hdry. unfold v15ToV16_run.
  apply preservesDisk_bind; [by apply updatePackageVersions_preview |]. intros cs.
  apply preservesDisk_bind; [apply loadSourceFiles_preservesDisk |]. intros [e | sfs].
  - apply preservesDisk_ret.
  - apply preservesDisk_bind; [| intros; apply preservesDisk_ret].
    unfold v15ToV16_codemods, moveImport, removeObsoleteImport, removeFromNgModuleArrays,
      ensureModuleWithProvidersGeneric.
    preview_codemods Hdry.
Qed.

Lemma v17ToV18_run_preview ctx : dryRun ctx = true -> preservesDisk (v17ToV18_run ctx).
Proof.
  intros Hdry. unfold v17ToV18_run.
  apply preservesDisk_bind; [by apply updatePackageVersions_preview |]. intros cs.
  apply preservesDisk_bind; [apply loadSourceFiles_preservesDisk |]. intros [e | sfs].
  - apply preservesDisk_ret.
  - apply preservesDisk_bind; [| intros; apply preservesDisk_ret].
    unfold v17ToV18_codemods, migrateAsyncToWaitForAsync, renameNamedImport,
      removeObsoleteImport.
    preview_codemods Hdry.
Qed.

Lemma v18ToV19_run_preview ctx : dryRun ctx = true -> preservesDisk (v18ToV19_run ctx).
Proof.
  intros Hdry. unfold v18ToV19_run.
  apply preservesDisk_bind; [by apply updatePackageVersions_preview |]. intros cs.
  apply preservesDisk_bind; [apply loadSourceFiles_preservesDisk |]. intros [e | sfs].
  - apply preservesDisk_ret.
  - apply preservesDisk_bind; [| intros; apply preservesDisk_ret].
    unfold v18ToV19_codemods, renameNamedImport, removeObsoleteImport,
      removeBrowserModuleWithServerTransition, addStandaloneFalse.
    preview_codemods Hdry.
Qed.

Lemma v16ToV17_run_preview removeDominoSetup ctx :
  (forall sfs, preservesDisk (removeDominoSetup sfs ctx)) ->
  dryRun ctx = true -> preservesDisk (v16ToV17_run removeDominoSetup ctx).
Proof.
  intros Hdomino Hdry. unfold v16ToV17_run.
  apply preservesDisk_bind; [by apply updatePackageVersions_preview |]. intros cs1.
  apply preservesDisk_bind; [by apply migrateBrowserBuilderToApplication_preview |].
  intros cs2.
  apply preservesDisk_bind; [by apply removeDefaultProject_preview |]. intros cs3.
  apply preservesDisk_bind; [by apply fixZoneJsImports_preview |]. intros cs4.
  apply preservesDisk_bind; [by apply replacePackageDependency_preview |]. intros cs5.
  apply preservesDisk_bind; [apply loadSourceFiles_preservesDisk |]. intros [e | sfs].
  - apply preservesDisk_ret.
  - apply preservesDisk_bind; [| intros; apply preservesDisk_ret].
    unfold v16ToV17_codemods, renameNamedImport, moveImport, removeObsoleteImport,
      migrateCanLoadToCanMatch, migrateComponentFactoryResolver.
    repeat first
      [ apply preservesDisk_ret
      | apply applyCodemod_preservesDisk
      | apply forEachSourceFile_preview; exact Hdry
      | apply forEachSourceFileOrThrow_preview; exact Hdry
      | apply Hdomino
      | apply preservesDisk_bind; [ | intros ? ] ].
Qed.

Lemma runSteps_preservesDisk context steps :
  (forall s, In s steps -> preservesDisk (run s (context s))) ->
  preservesDisk (runSteps context steps).
Proof.
  induction steps as [| s rest IH]; intros Hsteps; simpl.
  - apply preservesDisk_ret.
  - apply preservesDisk_bind.
    + apply preservesDisk_tryCatch; [apply Hsteps; by left |].
      intros. apply preservesDisk_ret.
    + intros r. apply preservesDisk_bind; [| intros; apply preservesDisk_ret].
      apply IH. intros s' Hs'. apply Hsteps. by right.
Qed.

Lemma declared_step_preview removeDominoSetup s ctx :
  (forall sfs, preservesDisk (removeDominoSetup sfs ctx)) ->
  In s (ALL_STEPS removeDominoSetup) ->
  dryRun ctx = true -> preservesDisk (run s ctx).
Proof.
  intros Hdomino Hin Hdry. unfold ALL_STEPS in Hin. simpl in Hin.
  destruct Hin as [<- | [<- | [<- | [<- | []]]]]; simpl.
  - by apply v15ToV16_run_preview.
  - by apply v16ToV17_run_preview.
  - by apply v17ToV18_run_preview.
  - by apply v18ToV19_run_preview.
Qed.

(** ** Steps write files, never directories *)




















(** C2, as amended. In preview mode no source file, manifest, workspace
    configuration or zone file is written: when [migrate] ran steps, the
    disk it leaves is the initial disk plus the report document
    [migration-report.md] (written in preview mode too, with the results of
    the steps); in every other case the disk is left as it was. *)
Theorem preview_writes_only_the_report
    (removeDominoSetup : list SourceFile -> MigrationContext -> IO Codemod.t)
    options now disk :
  (forall sfs ctx, dryRun ctx = true -> preservesDisk (removeDominoSetup sfs ctx)) ->
  MigratorOptions.dryRun options = Some true ->
  match migrate removeDominoSetup options now disk with
  | (Returned (Completed rs), disk') =>
      let absPath := path_resolve (MigratorOptions.projectPath options) in
      disk' = <[path_join absPath "migration-report.md"
                  := TextFile (reportLines absPath rs true now)]> disk
  | (_, disk') => disk' = disk
  end.
Proof.
  intros Hdomino Hdry. unfold migrate. rewrite Hdry. cbn [default].
  unfold bind at 1. unfold readFile at 1.
  destruct (disk !! path_resolve (MigratorOptions.projectPath options)) as [entry |];
    [| done].
  unfold bind at 1.
  pose proof (resolveCurrentVersion_preservesDisk options disk) as Hversion.
  destruct (resolveCurrentVersion options disk) as [[currentVersion | e] disk1];
    simpl in Hversion; subst disk1; [| done].
  destruct (currentVersion >=? _); [done |].
  destruct (Nat.eqb _ 0); [done |].
  unfold bind at 1.
  match goal with
  | |- context [runSteps ?c ?l disk] =>
      pose proof (runSteps_preservesDisk c l) as Hloop;
      destruct (runSteps c l disk) as [[rs | e] disk2] eqn:Hrun
  end.
  - assert (disk2 = disk) as ->.
    { change disk2 with (Returned rs, disk2).2. rewrite <- Hrun. apply Hloop.
      intros s Hs. eapply declared_step_preview.
      - intros sfs. by apply Hdomino.
      - by eapply stepsToRun_declared.
      - done. }
    done.
  - change disk2 with (@Thrown (list MigrationResult) e, disk2).2. rewrite <- Hrun.
    apply Hloop. intros s Hs. eapply declared_step_preview.
    + intros sfs. by apply Hdomino.
    + by eapply stepsToRun_declared.
    + done.
Qed.

Lemma preview_writes_only_the_report_witness :
  match migrate noDominoSetup (Examples.options None (Some 19) true) Examples.now
          Examples.projectV17 with
  | (Returned (Completed rs), disk') =>
      disk' = <["/app/migration-report.md"
                  := TextFile (reportLines "/app" rs true Examples.now)]>
                Examples.projectV17
  | (_, disk') => disk' = Examples.projectV17
  end.
Proof.
  apply (preview_writes_only_the_report noDominoSetup
           (Examples.options None (Some 19) true) Examples.now Examples.projectV17).
  - intros sfs ctx _ disk. reflexivity.
  - reflexivity.
Defined.

(** C2 as stated fails: a preview run that selects a step creates the report
    document on the disk. *)
Lemma preview_creates_the_report :
  Examples.projectV17 !! "/app/migration-report.md" = None
  /\ is_Some ((migrate noDominoSetup (Examples.options None (Some 19) true) Examples.now
                 Examples.projectV17).2 !! "/app/migration-report.md")
  /\ (migrate noDominoSetup (Examples.options None (Some 19) true) Examples.now
        Examples.projectV17).2 <> Examples.projectV17.
Proof.
  assert (H : is_Some ((migrate noDominoSetup (Examples.options None (Some 19) true)
                          Examples.now Examples.projectV17).2
                       !! "/app/migration-report.md")).
  { vm_compute. eauto. }
  assert (Hnone : Examples.projectV17 !! "/app/migration-report.md" = None)
    by (vm_compute; reflexivity).
  split; [exact Hnone |]. split; [exact H |].
  intros Heq. rewrite Heq, Hnone in H. clear Heq. destruct H as [x H]. discriminate H.
Qed.

(** ** Preview mode against applied mode *)

Lemma forEachSourceFile_sameCompletion ctx1 ctx2 body sfs :
  sameCompletion (forEachSourceFile ctx1 body sfs) (forEachSourceFile ctx2 body sfs).
Proof.
  induction sfs as [| sf rest IH]; simpl.
  - apply sameCompletion_ret.
  - apply sameCompletion_bind.
    + intros d1 d2.
      destruct (_ && negb (dryRun ctx1))%bool, (_ && negb (dryRun ctx2))%bool; reflexivity.
    + intros []. apply sameCompletion_bind; [exact IH |].
      intros r. apply sameCompletion_ret.
Qed.

Lemma forEachSourceFileOrThrow_sameCompletion ctx1 ctx2 body sfs :
  sameCompletion (forEachSourceFileOrThrow ctx1 body sfs)
    (forEachSourceFileOrThrow ctx2 body sfs).
Proof.
  induction sfs as [| sf rest IH]; cbn [forEachSourceFileOrThrow].
  - apply sameCompletion_ret.
  - destruct (body sf) as [e | message]; [| by intros d1 d2].
    apply sameCompletion_bind.
    + intros d1 d2.
      destruct (_ && negb (dryRun ctx1))%bool, (_ && negb (dryRun ctx2))%bool; reflexivity.
    + intros []. apply sameCompletion_bind; [exact IH |].
      intros r. apply sameCompletion_ret.
Qed.

Lemma applyCodemod_sameCompletion codemod1 codemod2 report st :
  sameCompletion (codemod1 (sourceFiles st)) (codemod2 (sourceFiles st)) ->
  sameCompletion (applyCodemod codemod1 report st) (applyCodemod codemod2 report st).
Proof.
  intros H. unfold applyCodemod. apply sameCompletion_bind; [exact H |].
  intros r. apply sameCompletion_ret.
Qed.

Ltac same_completion :=
  repeat first
    [ apply sameCompletion_ret
    | apply applyCodemod_sameCompletion
    | apply forEachSourceFile_sameCompletion
    | apply forEachSourceFileOrThrow_sameCompletion
    | apply sameCompletion_bind; [ | intros ? ] ].

Lemma v15ToV16_codemods_sameCompletion ctx1 ctx2 st :
  sameCompletion (v15ToV16_codemods ctx1 st) (v15ToV16_codemods ctx2 st).
Proof.
  unfold v15ToV16_codemods, moveImport, removeObsoleteImport, removeFromNgModuleArrays,
    ensureModuleWithProvidersGeneric.
  same_completion.
Qed.

Lemma v17ToV18_codemods_sameCompletion ctx1 ctx2 st :
  sameCompletion (v17ToV18_codemods ctx1 st) (v17ToV18_codemods ctx2 st).
Proof.
  unfold v17ToV18_codemods, migrateAsyncToWaitForAsync, renameNamedImport,
    removeObsoleteImport.
  same_completion.
Qed.

Lemma v18ToV19_codemods_sameCompletion ctx1 ctx2 st :
  sameCompletion (v18ToV19_codemods ctx1 st) (v18ToV19_codemods ctx2 st).
Proof.
  unfold v18ToV19_codemods, renameNamedImport, removeObsoleteImport,
    removeBrowserModuleWithServerTransition, addStandaloneFalse.
  same_completion.
Qed.

Lemma append_cancel (p a b : string) : p +:+ a = p +:+ b -> a = b.
Proof. induction p as [| c p IH]; simpl; [done |]. intros H. apply IH. by inversion H. Qed.

Lemma path_join_inj dir file1 file2 :
  path_join dir file1 = path_join dir file2 -> file1 = file2.
Proof.
  unfold path_join. intros H. apply append_cancel in H. by apply append_cancel in H.
Qed.

Lemma sourceFileAt_other path entry :
  isTypeScriptEntry entry = false -> sourceFileAt (path, entry) = [].
Proof. by destruct entry. Qed.

(** A project is loaded from its configuration and from TypeScript files:
    writing a file of another kind where there was none, or one of another
    kind, does not change the project, unless it is a configuration. *)
Lemma createTsProject_insert_other projectPath disk path entry :
  isTypeScriptEntry entry = false ->
  (forall e, disk !! path = Some e -> isTypeScriptEntry e = false) ->
  path <> path_join projectPath "tsconfig.app.json" ->
  path <> path_join projectPath "tsconfig.json" ->
  (createTsProject projectPath (<[path := entry]> disk)).1
  = (createTsProject projectPath disk).1.
Proof.
  intros Hentry Hold Happ Hcfg. unfold createTsProject, existsSync.
  rewrite (lookup_insert_ne disk path _ _ Happ).
  assert (Hglob : globSync (isTypeScriptPath projectPath) (<[path := entry]> disk)
                  = globSync (isTypeScriptPath projectPath) disk).
  { unfold globSync. f_equal.
    destruct (disk !! path) as [e |] eqn:Hlookup.
    - apply map_filter_insert_not'.
      + cbn [fst snd]. rewrite Hentry, andb_false_r. done.
      + intros y Hy. cbn [fst snd]. rewrite Hlookup in Hy.
        rewrite (Hold y Hy), andb_false_r. done.
    - rewrite map_filter_insert_False; [by rewrite delete_id |].
      cbn [fst snd]. rewrite Hentry, andb_false_r. done. }
  assert (Hconfigured : forall paths,
             configuredSourceFiles (<[path := entry]> disk) paths
             = configuredSourceFiles disk paths).
  { intros paths. unfold configuredSourceFiles. apply flat_map_ext. intros p.
    destruct (JsString.startsWith "/" p); [| done].
    destruct (decide (path = p)) as [<- | Hne].
    - rewrite lookup_insert_eq, sourceFileAt_other by done.
      destruct (disk !! path) as [e |] eqn:Hlookup; [| done].
      by rewrite sourceFileAt_other by (by apply Hold).
    - by rewrite lookup_insert_ne. }
  rewrite Hglob.
  destruct (disk !! path_join projectPath "tsconfig.app.json") as [e1 |] eqn:Hconfig.
  - rewrite (lookup_insert_ne disk path _ _ Happ), Hconfig.
    destruct e1 as [| | | [paths |] | |]; try reflexivity.
    by rewrite Hconfigured.
  - rewrite (lookup_insert_ne disk path _ _ Hcfg).
    destruct (disk !! path_join projectPath "tsconfig.json")
      as [[| | | [paths |] | |] |]; try reflexivity.
    by rewrite Hconfigured.
Qed.

(** The manifest is not among the files a project is loaded from. *)
Lemma loadSourceFiles_after_manifest_write ctx disk pkg pkg' :
  disk !! path_join (projectPath ctx) "package.json" = Some (PackageJsonFile pkg) ->
  (loadSourceFiles ctx
     (<[path_join (projectPath ctx) "package.json" := PackageJsonFile pkg']> disk)).1
  = (loadSourceFiles ctx disk).1.
Proof.
  intros Hpkg.
  pose proof (createTsProject_insert_other (projectPath ctx) disk
                (path_join (projectPath ctx) "package.json") (PackageJsonFile pkg')) as Hsame.
  unfold loadSourceFiles, tryCatch, bind.
  destruct (createTsProject (projectPath ctx) (<[_ := _]> disk)) as [c1 d1],
    (createTsProject (projectPath ctx) disk) as [c2 d2].
  cbn [fst] in Hsame. rewrite Hsame.
  - by destruct c2.
  - reflexivity.
  - intros e He. rewrite Hpkg in He. by injection He as <-.
  - intros H. apply path_join_inj in H. discriminate.
  - intros H. apply path_join_inj in H. discriminate.
Qed.

(** What [updatePackageVersions] computes, by cases on the manifest. *)
Lemma updatePackageVersions_eq ctx updates disk :
  updatePackageVersions ctx updates disk
  = if skipPackageJson ctx then (Returned [], disk)
    else
      let pkgPath := path_join (projectPath ctx) "package.json" in
      match disk !! pkgPath with
      | None => (Thrown ("package.json not found at " +:+ pkgPath), disk)
      | Some (PackageJsonFile pkg) =>
          let r := fold_left (updateSection updates) sections (pkg, []) in
          (Returned r.2,
           if (negb (Nat.eqb (length r.2) 0) && negb (dryRun ctx))%bool
           then <[pkgPath := PackageJsonFile r.1]> disk else disk)
      | Some _ => (Thrown (jsonSyntaxError pkgPath), disk)
      end.
Proof.
  unfold updatePackageVersions.
  destruct (skipPackageJson ctx); [done |].
  unfold bind at 1. unfold readPackageJson, bind, readFile.
  destruct (disk !! path_join (projectPath ctx) "package.json") as [[| pkg | | | |] |];
    try reflexivity.
  unfold ret at 1. cbv zeta.
  destruct (fold_left (updateSection updates) sections (pkg, [])) as [pkg' changes].
  cbn [fst snd].
  destruct (negb (Nat.eqb (length changes) 0) && negb (dryRun ctx))%bool; reflexivity.
Qed.

(** The manifest patch in both modes, from the same disk: the same changes
    (or the same exception); preview leaves the disk, applied mode may
    rewrite the manifest and nothing else. *)
Lemma updatePackageVersions_modes ctx updates disk :
  (updatePackageVersions (inMode true ctx) updates disk).1
  = (updatePackageVersions (inMode false ctx) updates disk).1
  /\ (updatePackageVersions (inMode true ctx) updates disk).2 = disk
  /\ ((updatePackageVersions (inMode false ctx) updates disk).2 = disk
      \/ exists pkg pkg',
           disk !! path_join (projectPath ctx) "package.json" = Some (PackageJsonFile pkg)
           /\ (updatePackageVersions (inMode false ctx) updates disk).2
              = <[path_join (projectPath ctx) "package.json" := PackageJsonFile pkg']> disk).
Proof.
  rewrite !updatePackageVersions_eq.
  cbn [inMode dryRun skipPackageJson projectPath negb].
  destruct (skipPackageJson ctx); [by auto |].
  cbv zeta.
  destruct (disk !! path_join (projectPath ctx) "package.json") as [[| pkg | | | |] |] eqn:Hpkg;
    cbn [fst snd]; auto.
  rewrite andb_false_r, andb_true_r.
  split; [done |]. split; [done |].
  destruct (negb _); [right | by left].
  by exists pkg, (fold_left (updateSection updates) sections (pkg, [])).1.
Qed.

(** A step body that patches the manifest, loads the project once and then
    only runs codemods on the loaded files completes alike in both modes. *)
Lemma single_load_step_parity stepName updates
    (codemods : MigrationContext -> StepState -> IO StepState) ctx disk :
  (forall ctx1 ctx2 st, sameCompletion (codemods ctx1 st) (codemods ctx2 st)) ->
  let body (c : MigrationContext) : IO MigrationResult :=
    bind (updatePackageVersions c updates)
      (fun pkgChanges =>
         bind (loadSourceFiles c)
           (fun loaded =>
              match loaded with
              | inl e => ret (projectLoadFailed (pushChanges (emptyResult stepName) pkgChanges) e)
              | inr sfs =>
                  bind (codemods c {| sourceFiles := sfs;
                                      result := pushChanges (emptyResult stepName) pkgChanges |})
                    (fun st => ret (result st))
              end)) in
  (body (inMode true ctx) disk).1 = (body (inMode false ctx) disk).1.
Proof.
  intros Hcodemods body. unfold body.
  destruct (updatePackageVersions_modes ctx updates disk) as (Hsame & Hdry & Happlied).
  unfold bind at 1 4.
  destruct (updatePackageVersions (inMode true ctx) updates disk) as [o1 d1].
  destruct (updatePackageVersions (inMode false ctx) updates disk) as [o2 d2].
  simpl in Hsame, Hdry, Happlied. subst o2 d1.
  destruct o1 as [pkgChanges | e]; [| done].
  assert (Hload : (loadSourceFiles (inMode false ctx) d2).1
                  = (loadSourceFiles (inMode true ctx) disk).1).
  { destruct Happlied as [-> | (pkg & pkg' & Hpkg & ->)]; [done |].
    change (loadSourceFiles (inMode true ctx) disk)
      with (loadSourceFiles (inMode false ctx) disk).
    by apply (loadSourceFiles_after_manifest_write (inMode false ctx) disk pkg pkg'). }
  unfold bind at 1 3.
  destruct (loadSourceFiles (inMode true ctx) disk) as [l1 d1'].
  destruct (loadSourceFiles (inMode false ctx) d2) as [l2 d2'].
  simpl in Hload. subst l2.
  destruct l1 as [[e | sfs] | e]; [done | | done].
  apply sameCompletion_bind; [apply Hcodemods | intros st; apply sameCompletion_ret].
Qed.

(** C3, as amended. Each of the steps 15 → 16, 17 → 18 and 18 → 19, run
    on a project state, completes alike in preview and in applied mode: the
    same result (changes and warnings, in the same order) or the same
    exception; and the loop of a codemod over the source files returns the
    same trees, changes and warnings whatever the mode and the disk. *)
Theorem preview_parity_within_a_step :
  (forall ctx disk,
      (run v15ToV16 (inMode true ctx) disk).1 = (run v15ToV16 (inMode false ctx) disk).1)
  /\ (forall ctx disk,
      (run v17ToV18 (inMode true ctx) disk).1 = (run v17ToV18 (inMode false ctx) disk).1)
  /\ (forall ctx disk,
      (run v18ToV19 (inMode true ctx) disk).1 = (run v18ToV19 (inMode false ctx) disk).1)
  /\ (forall ctx body sfs disk1 disk2,
      (forEachSourceFile (inMode true ctx) body sfs disk1).1
      = (forEachSourceFile (inMode false ctx) body sfs disk2).1).
Proof.
  split; [| split; [| split]].
  - intros ctx disk.
    apply (single_load_step_parity v15ToV16_name v15ToV16_updates v15ToV16_codemods).
    apply v15ToV16_codemods_sameCompletion.
  - intros ctx disk.
    apply (single_load_step_parity v17ToV18_name v17ToV18_updates v17ToV18_codemods).
    apply v17ToV18_codemods_sameCompletion.
  - intros ctx disk.
    apply (single_load_step_parity v18ToV19_name v18ToV19_updates v18ToV19_codemods).
    apply v18ToV19_codemods_sameCompletion.
  - intros ctx body sfs disk1 disk2. apply forEachSourceFile_sameCompletion.
Qed.

(** C3 as stated fails: over the two steps 17 → 18 and 18 → 19 the preview
    run reports a change of the manifest that the applied run does not
    report, since the second step reads the manifest again. *)
Lemma preview_differs_from_applied_over_two_steps :
  In (Change.mk "package.json" "dependencies: @angular/core ^17.0.0 â†’ ^19.2.0"
        (Some "^17.0.0") (Some "^19.2.0"))
    (allChanges (resultsOf (migrate noDominoSetup (Examples.options None (Some 19) true)
                              Examples.now Examples.projectV17)))
  /\ ~ In (Change.mk "package.json" "dependencies: @angular/core ^17.0.0 â†’ ^19.2.0"
             (Some "^17.0.0") (Some "^19.2.0"))
       (allChanges (resultsOf (migrate noDominoSetup (Examples.options None (Some 19) false)
                                 Examples.now Examples.projectV17))).
Proof.
  split.
  - vm_compute. right. by left.
  - vm_compute. intros [H | [H | []]]; discriminate.
Qed.

(** ** Renaming a named import *)

Lemma Node_ind_children (P : Node -> Prop) :
  (forall k t cs, Forall P cs -> P (mkNode k t cs)) -> forall n, P n.
Proof.
  intros H. fix IH 1. intros [k t cs]. apply H.
  induction cs as [| c cs IHcs]; constructor; [apply IH | exact IHcs].
Qed.

Lemma renameIdentifiers_renamed oldName newName n :
  RenamedNode oldName newName n (renameIdentifiers oldName newName n).
Proof.
  induction n as [k t cs IH] using Node_ind_children. simpl. constructor.
  - induction IH as [| c cs Hc _ IHcs]; simpl; constructor; done.
  - destruct (SyntaxKind_eqb k Identifier) eqn:Hk; simpl; [| by left].
    destruct (String.eqb t oldName) eqn:Ht; [| by left].
    right. apply String.eqb_eq in Ht. by destruct k.
Qed.

Lemma RenamedNode_refl oldName newName n : RenamedNode oldName newName n n.
Proof.
  induction n as [k t cs IH] using Node_ind_children. constructor; [| by left].
  induction IH as [| c cs Hc _ IHcs]; constructor; done.
Qed.

Lemma renameIdentifiers_complete oldName newName n :
  oldName <> newName ->
  Forall (fun d => ~ (kind d = Identifier /\ text d = oldName))
    (subtree (renameIdentifiers oldName newName n)).
Proof.
  intros Hne. induction n as [k t cs IH] using Node_ind_children.
  unfold subtree in *. simpl. constructor.
  - simpl. intros [-> Ht]. simpl in Ht.
    destruct (String.eqb t oldName) eqn:Heq; [congruence |].
    apply String.eqb_neq in Heq. done.
  - induction IH as [| c cs Hc _ IHcs]; simpl; [constructor |].
    rewrite app_comm_cons. apply Forall_app. split; [exact Hc | exact IHcs].
Qed.

Lemma forEachSourceFile_unchanged ctx body sfs disk :
  Forall (fun sf => body sf = FileEdit.unchanged sf) sfs ->
  forEachSourceFile ctx body sfs disk = (Returned (Codemod.mk sfs [] []), disk).
Proof.
  induction 1 as [| sf rest Hsf _ IH]; simpl; [done |].
  rewrite Hsf. simpl. unfold bind at 1. simpl. unfold bind at 1. rewrite IH. done.
Qed.

Lemma rename_leaves_no_import moduleName oldName newName imports :
  oldName <> newName ->
  existsb (importsFrom moduleName oldName)
    (List.map (renameDefaultImport oldName newName)
       (List.map (fun imp => if String.eqb (moduleSpecifier imp) moduleName
                             then renameSpecifiers oldName newName imp else imp)
          imports)) = false.
Proof.
  intros Hne. induction imports as [| imp imps IH]; simpl; [done |].
  rewrite IH, orb_false_r. unfold importsFrom.
  destruct (String.eqb (moduleSpecifier imp) moduleName) eqn:Hm; simpl.
  - rewrite Hm. simpl. unfold importsName. simpl.
    induction (namedImports imp) as [| ni nis IHn]; simpl; [done |].
    rewrite IHn, orb_false_r.
    destruct (String.eqb (importedName ni) oldName) eqn:Hn; simpl.
    + apply String.eqb_neq. congruence.
    + exact Hn.
  - rewrite Hm. done.
Qed.

(** C4, as amended. On a file with no import of [oldName] from the module,
    [renameNamedImport] changes nothing, reports nothing and does not fail.
    Otherwise what it rewrites is: the import specifiers named [oldName] of
    the declarations from that module, and every identifier of the file
    with the text [oldName] outside import specifiers, wherever it stands
    (also in a declaration that has nothing to do with the import); no such
    identifier is left. Identifiers with another text and all other import
    specifiers keep their names. *)
Theorem rename_rewrites_every_matching_identifier moduleName oldName newName :
  (forall sf,
      isImportedFrom moduleName oldName sf = false ->
      renameNamedImport_file moduleName oldName newName sf = FileEdit.unchanged sf)
  /\ (forall ctx sfs disk,
         Forall (fun sf => isImportedFrom moduleName oldName sf = false) sfs ->
         renameNamedImport sfs moduleName oldName newName ctx disk
         = (Returned (Codemod.mk sfs [] []), disk))
  /\ (forall sf,
         let sf' := FileEdit.sourceFile (renameNamedImport_file moduleName oldName newName sf) in
         filePath sf' = filePath sf
         /\ Forall2 (RenamedNode oldName newName) (statements sf) (statements sf')
         /\ Forall2
              (fun imp imp' =>
                 moduleSpecifier imp' = moduleSpecifier imp
                 /\ Forall2
                      (fun ni ni' =>
                         alias ni' = alias ni
                         /\ (importedName ni' = importedName ni
                             \/ (moduleSpecifier imp = moduleName
                                 /\ importedName ni = oldName
                                 /\ importedName ni' = newName)))
                      (namedImports imp) (namedImports imp'))
              (importDeclarations sf) (importDeclarations sf'))
  /\ (forall sf,
         isImportedFrom moduleName oldName sf = true ->
         oldName <> newName ->
         let sf' := FileEdit.sourceFile (renameNamedImport_file moduleName oldName newName sf) in
         statements sf' = List.map (renameIdentifiers oldName newName) (statements sf)
         /\ Forall (fun d => ~ (kind d = Identifier /\ text d = oldName))
              (flat_map subtree (statements sf'))
         /\ isImportedFrom moduleName oldName sf' = false).
Proof.
  split; [| split; [| split]].
  - intros sf H. unfold renameNamedImport_file. unfold isImportedFrom in H. by rewrite H.
  - intros ctx sfs disk H. unfold renameNamedImport.
    apply forEachSourceFile_unchanged.
    eapply Forall_impl; [exact H |]. intros sf Hsf. simpl in Hsf.
    unfold renameNamedImport_file. unfold isImportedFrom in Hsf. by rewrite Hsf.
  - intros sf. unfold renameNamedImport_file.
    destruct (existsb _ _); simpl.
    + split; [done |]. split.
      * induction (statements sf) as [| s ss IH]; simpl; constructor;
          [apply renameIdentifiers_renamed | exact IH].
      * induction (importDeclarations sf) as [| imp imps IH]; simpl; constructor;
          [| exact IH].
        destruct (String.eqb (moduleSpecifier imp) moduleName) eqn:Hm; simpl.
        -- split; [done |]. apply String.eqb_eq in Hm.
           induction (namedImports imp) as [| ni nis IHn]; simpl; constructor;
             [| exact IHn].
           destruct (String.eqb (importedName ni) oldName) eqn:Hn; simpl.
           ++ apply String.eqb_eq in Hn. split; [done |]. by right.
           ++ split; [done |]. by left.
        -- split; [done |].
           induction (namedImports imp) as [| ni nis IHn]; constructor;
             [split; [done | by left] | exact IHn].
    + split; [done |]. split.
      * induction (statements sf) as [| s ss IH]; constructor;
          [apply RenamedNode_refl | exact IH].
      * induction (importDeclarations sf) as [| imp imps IH]; constructor; [| exact IH].
        split; [done |].
        induction (namedImports imp) as [| ni nis IHn]; constructor;
          [split; [done | by left] | exact IHn].
  - intros sf Himp Hne. unfold renameNamedImport_file. unfold isImportedFrom in Himp.
    rewrite Himp. simpl. split; [done |]. split.
    + induction (statements sf) as [| s ss IH]; simpl; [constructor |].
      rewrite app_comm_cons. apply Forall_app.
      split; [by apply renameIdentifiers_complete | exact IH].
    + unfold isImportedFrom. simpl. by apply rename_leaves_no_import.
Qed.

Lemma rename_rewrites_every_matching_identifier_witness :
  renameNamedImport_file "@angular/core/testing" "async" "waitForAsync" Examples.plainFile
  = FileEdit.unchanged Examples.plainFile
  /\ statements
       (FileEdit.sourceFile
          (renameNamedImport_file "@angular/core/testing" "async" "waitForAsync"
             Examples.specFile))
     = List.map (renameIdentifiers "async" "waitForAsync") (statements Examples.specFile).
Proof.
  split.
  - apply (proj1 (rename_rewrites_every_matching_identifier
                    "@angular/core/testing" "async" "waitForAsync")).
    reflexivity.
  - apply (proj2 (proj2 (proj2 (rename_rewrites_every_matching_identifier
                                  "@angular/core/testing" "async" "waitForAsync")))
             Examples.specFile).
    + reflexivity.
    + discriminate.
Defined.

(** C4 as stated fails: in a file that imports [async] from the testing
    module, the property name of [const config = { async: true }], a
    declaration of its own, is rewritten. *)
Lemma rename_rewrites_an_unrelated_declaration :
  In (Examples.configStatement "async") (statements Examples.specFile)
  /\ statements
       (FileEdit.sourceFile
          (renameNamedImport_file "@angular/core/testing" "async" "waitForAsync"
             Examples.specFile))
     = [Examples.configStatement "waitForAsync"]
  /\ Examples.configStatement "waitForAsync" <> Examples.configStatement "async".
Proof.
  split; [by left |]. split; [reflexivity | discriminate].
Qed.

(** ** Moving a named import *)

Lemma addToModule_imported symbolName toModule imports :
  existsb (importsFrom toModule symbolName) (addToModule symbolName toModule imports) = true.
Proof.
  unfold addToModule.
  destruct (existsb (fun imp => String.eqb (moduleSpecifier imp) toModule) imports) eqn:Hex.
  - induction imports as [| imp imps IH]; simpl in *; [discriminate |].
    destruct (String.eqb (moduleSpecifier imp) toModule) eqn:Hm; simpl.
    + unfold importsFrom at 1. simpl. rewrite Hm. unfold importsName. simpl.
      rewrite existsb_app. simpl. rewrite String.eqb_refl. simpl.
      by rewrite orb_true_r.
    + rewrite (IH Hex). by rewrite orb_true_r.
  - rewrite existsb_app. simpl. unfold importsFrom at 2. simpl.
    rewrite !String.eqb_refl. unfold importsName. simpl.
    rewrite String.eqb_refl. simpl. by rewrite orb_true_r.
Qed.

Lemma filter_editFirst_length {A : Type} (q : A -> bool) (l : list A) :
  existsb q l = true ->
  S (length (List.filter q (editFirst q (fun _ => None) l))) = length (List.filter q l).
Proof.
  induction l as [| x xs IH]; simpl; [discriminate |].
  destruct (q x) eqn:Hq; simpl.
  - done.
  - intros H. rewrite Hq. by apply IH.
Qed.

Lemma countBindings_after_removal fromModule symbolName imports :
  existsb (importsFrom fromModule symbolName) imports = true ->
  S (countBindings fromModule symbolName
       (editFirst (importsFrom fromModule symbolName) (removeNamedImport symbolName) imports))
  = countBindings fromModule symbolName imports.
Proof.
  unfold countBindings.
  induction imports as [| imp imps IH]; simpl; [discriminate |].
  destruct (importsFrom fromModule symbolName imp) eqn:Himp; simpl.
  - intros _. unfold importsFrom in Himp. apply andb_prop in Himp as [Hm Hn].
    rewrite Hm. unfold removeNamedImport.
    destruct (Nat.eqb (length (namedImports imp)) 1) eqn:Hlen.
    + apply Nat.eqb_eq in Hlen. unfold importsName in Hn.
      destruct (namedImports imp) as [| ni [| ni' nis]]; simpl in *; try discriminate.
      rewrite orb_false_r in Hn. rewrite Hn. done.
    + simpl. rewrite Hm.
      rewrite <- (filter_editFirst_length _ (namedImports imp) Hn). done.
  - intros H. rewrite <- (IH H). lia.
Qed.

Lemma countBindings_addToModule fromModule toModule symbolName imports :
  fromModule <> toModule ->
  countBindings fromModule symbolName (addToModule symbolName toModule imports)
  = countBindings fromModule symbolName imports.
Proof.
  intros Hne. unfold addToModule, countBindings.
  assert (Hto : String.eqb toModule fromModule = false) by (apply String.eqb_neq; congruence).
  destruct (existsb _ imports).
  - induction imports as [| imp imps IH]; simpl; [done |].
    destruct (String.eqb (moduleSpecifier imp) toModule) eqn:Hm; simpl.
    + apply String.eqb_eq in Hm. rewrite Hm, Hto. done.
    + by rewrite IH.
  - rewrite List.map_app, list_sum_app. simpl. rewrite Hto. lia.
Qed.

Lemma countBindings_zero moduleName symbolName imports :
  countBindings moduleName symbolName imports = 0%nat ->
  existsb (importsFrom moduleName symbolName) imports = false.
Proof.
  unfold countBindings. induction imports as [| imp imps IH]; simpl; [done |].
  intros H. rewrite IH by lia. rewrite orb_false_r.
  unfold importsFrom. destruct (String.eqb (moduleSpecifier imp) moduleName); simpl; [| done].
  assert (Hlen : length (List.filter (fun ni => String.eqb (importedName ni) symbolName)
                           (namedImports imp)) = 0%nat) by lia.
  unfold importsName. clear -Hlen.
  induction (namedImports imp) as [| ni nis IHn]; simpl in *; [done |].
  destruct (String.eqb (importedName ni) symbolName); simpl in *; [discriminate |].
  by apply IHn.
Qed.

(** C5, as amended. After [moveImport] has run on a file that imported the
    symbol from [fromModule], the symbol can be imported from [toModule]:
    it is never lost, also when both modules are the same. When the modules
    differ and the file bound the symbol from [fromModule] exactly once, it
    can no longer be imported from [fromModule], so from exactly one of the
    two. *)
Theorem move_import_never_drops_the_symbol symbolName fromModule toModule sf :
  isImportedFrom fromModule symbolName sf = true ->
  let sf' := FileEdit.sourceFile (moveImport_file symbolName fromModule toModule sf) in
  isImportedFrom toModule symbolName sf' = true
  /\ (fromModule <> toModule ->
      countBindings fromModule symbolName (importDeclarations sf) = 1%nat ->
      isImportedFrom fromModule symbolName sf' = false).
Proof.
  intros Himp. unfold moveImport_file. unfold isImportedFrom in Himp. rewrite Himp.
  simpl. unfold isImportedFrom. simpl. split.
  - apply addToModule_imported.
  - intros Hne Hone. apply countBindings_zero.
    rewrite countBindings_addToModule by done.
    pose proof (countBindings_after_removal fromModule symbolName _ Himp) as H.
    lia.
Qed.

Lemma move_import_never_drops_the_symbol_witness :
  isImportedFrom "@angular/core" "makeStateKey"
    (FileEdit.sourceFile
       (moveImport_file "makeStateKey" "@angular/platform-browser" "@angular/core"
          {| filePath := "/app/src/state.ts";
             importDeclarations :=
               [{| moduleSpecifier := "@angular/platform-browser"; defaultImport := None;
                   namedImports := [{| importedName := "makeStateKey"; alias := None |}] |}];
             statements := [] |})) = true
  /\ isImportedFrom "@angular/platform-browser" "makeStateKey"
       (FileEdit.sourceFile
          (moveImport_file "makeStateKey" "@angular/platform-browser" "@angular/core"
             {| filePath := "/app/src/state.ts";
                importDeclarations :=
                  [{| moduleSpecifier := "@angular/platform-browser"; defaultImport := None;
                      namedImports := [{| importedName := "makeStateKey"; alias := None |}] |}];
                statements := [] |})) = false.
Proof.
  pose proof (move_import_never_drops_the_symbol "makeStateKey" "@angular/platform-browser"
                "@angular/core"
                {| filePath := "/app/src/state.ts";
                   importDeclarations :=
                     [{| moduleSpecifier := "@angular/platform-browser"; defaultImport := None;
                         namedImports := [{| importedName := "makeStateKey"; alias := None |}] |}];
                   statements := [] |} eq_refl) as [H1 H2].
  split; [exact H1 |]. apply H2; [discriminate | reflexivity].
Defined.

(** C5 as stated fails: a file that binds the symbol twice from
    [fromModule] still imports it from there after the move, so the symbol
    can be imported from both modules. *)
Lemma move_import_may_leave_a_binding_behind :
  isImportedFrom "@angular/platform-browser" "TransferState"
    (FileEdit.sourceFile
       (moveImport_file "TransferState" "@angular/platform-browser" "@angular/core"
          Examples.transferFile)) = true
  /\ isImportedFrom "@angular/core" "TransferState"
       (FileEdit.sourceFile
          (moveImport_file "TransferState" "@angular/platform-browser" "@angular/core"
             Examples.transferFile)) = true.
Proof. split; reflexivity. Qed.

(** ** Inserting [standalone: false] *)

Lemma Decorator_getArguments_shape dec arg args :
  Decorator_getArguments dec = arg :: args ->
  exists k t ct callee rest,
    dec = mkNode k t (mkNode CallExpression ct (callee :: arg :: args) :: rest).
Proof.
  destruct dec as [k t [| [ke te ces] rest]]; unfold Decorator_getArguments; simpl.
  - discriminate.
  - destruct ke; simpl; try discriminate.
    unfold getArguments. simpl. destruct ces as [| callee ces]; simpl; [discriminate |].
    intros ->. by exists k, t, te, callee, rest.
Qed.

Lemma Decorator_setFirstArgument_spec k t ct callee arg args rest arg' :
  let dec := mkNode k t (mkNode CallExpression ct (callee :: arg :: args) :: rest) in
  Decorator_setFirstArgument dec arg'
  = mkNode k t (mkNode CallExpression ct (callee :: arg' :: args) :: rest)
  /\ Decorator_getName (Decorator_setFirstArgument dec arg') = Decorator_getName dec
  /\ Decorator_getArguments (Decorator_setFirstArgument dec arg') = arg' :: args
  /\ kind (Decorator_setFirstArgument dec arg') = kind dec.
Proof. repeat split. Qed.

Lemma hasStandalone_after_insert arg : hasStandalone (insertStandaloneFalse arg) = true.
Proof. reflexivity. Qed.

Lemma addStandaloneFalse_decorator_kind file className dec :
  kind (addStandaloneFalse_decorator file className dec).1 = kind dec.
Proof.
  unfold addStandaloneFalse_decorator.
  destruct (negb _); [done |].
  destruct (Decorator_getArguments dec) as [| arg args] eqn:Hargs; [done |].
  destruct (negb _); [done |]. destruct (hasStandalone arg); [done |].
  apply Decorator_getArguments_shape in Hargs as (k & t & ct & callee & rest & ->).
  reflexivity.
Qed.

(** Whatever the first invocation did, the second one finds the property (or
    still finds nothing to do) and leaves the decorator alone. *)
Lemma addStandaloneFalse_decorator_twice file className1 className2 dec :
  addStandaloneFalse_decorator file className2
    (addStandaloneFalse_decorator file className1 dec).1
  = ((addStandaloneFalse_decorator file className1 dec).1, []).
Proof.
  unfold addStandaloneFalse_decorator at 2 3.
  destruct (negb (existsb _ standaloneDecorators)) eqn:Hname.
  { simpl. unfold addStandaloneFalse_decorator. by rewrite Hname. }
  destruct (Decorator_getArguments dec) as [| arg args] eqn:Hargs.
  { simpl. unfold addStandaloneFalse_decorator. by rewrite Hname, Hargs. }
  destruct (negb (isKind ObjectLiteralExpression arg)) eqn:Hobj.
  { simpl. unfold addStandaloneFalse_decorator. by rewrite Hname, Hargs, Hobj. }
  destruct (hasStandalone arg) eqn:Hhas.
  { simpl. unfold addStandaloneFalse_decorator. by rewrite Hname, Hargs, Hobj, Hhas. }
  cbn [fst].
  apply Decorator_getArguments_shape in Hargs as (k & t & ct & callee & rest & ->).
  destruct (Decorator_setFirstArgument_spec k t ct callee arg args rest
              (insertStandaloneFalse arg)) as (Heq & Hn & Ha & _).
  unfold addStandaloneFalse_decorator. rewrite Hn, Hname, Ha.
  replace (isKind ObjectLiteralExpression (insertStandaloneFalse arg))
    with (isKind ObjectLiteralExpression arg) by (by destruct arg).
  rewrite Hobj, hasStandalone_after_insert. done.
Qed.

(** C7. [addStandaloneFalse] inserts [standalone: false] into the literal of
    a decorator only when the literal has no property assignment of that
    name; invoked twice on the same decorator it reports one change in
    all when the literal lacked the property (none when it had it), and the
    second invocation reports nothing and leaves the literal as the first
    one left it. *)
Theorem standalone_insertion_happens_once file className dec :
  let first := addStandaloneFalse_decorator file className dec in
  let second := addStandaloneFalse_decorator file className first.1 in
  second = (first.1, [])
  /\ (length (first.2 ++ second.2) <= 1)%nat
  /\ (forall arg args,
         Decorator_getArguments dec = arg :: args ->
         hasStandalone arg = true ->
         first = (dec, []))
  /\ (forall arg args,
         In (Decorator_getName dec) standaloneDecorators ->
         Decorator_getArguments dec = arg :: args ->
         isKind ObjectLiteralExpression arg = true ->
         hasStandalone arg = false ->
         Decorator_getArguments first.1 = insertStandaloneFalse arg :: args
         /\ length (first.2 ++ second.2) = 1%nat
         /\ Decorator_getArguments second.1 = insertStandaloneFalse arg :: args).
Proof.
  intros first second.
  assert (Hsecond : second = (first.1, [])).
  { apply addStandaloneFalse_decorator_twice. }
  split; [exact Hsecond |]. rewrite Hsecond. cbn [fst snd]. rewrite app_nil_r.
  split; [| split].
  - unfold first, addStandaloneFalse_decorator.
    destruct (negb _); [simpl; lia |].
    destruct (Decorator_getArguments dec); [simpl; lia |].
    destruct (negb _); [simpl; lia |]. destruct (hasStandalone _); simpl; lia.
  - intros arg args Hargs Hhas. unfold first, addStandaloneFalse_decorator.
    rewrite Hargs, Hhas. destruct (negb _); [done |]. by destruct (negb _).
  - intros arg args Hname Hargs Hobj Hhas. unfold first, addStandaloneFalse_decorator.
    assert (Hin : existsb (String.eqb (Decorator_getName dec)) standaloneDecorators = true).
    { apply existsb_exists. exists (Decorator_getName dec). split; [done |].
      apply String.eqb_refl. }
    rewrite Hin, Hargs, Hobj, Hhas. cbn [negb fst snd length].
    apply Decorator_getArguments_shape in Hargs as (k & t & ct & callee & rest & ->).
    done.
Qed.

Lemma standalone_insertion_happens_once_witness :
  Decorator_getArguments
    (addStandaloneFalse_decorator "/app/src/app.component.ts" "AppComponent"
       (mkNode Decorator EmptyString
          [mkNode CallExpression EmptyString
             [identifier "Component";
              mkNode ObjectLiteralExpression EmptyString
                [mkNode PropertyAssignment EmptyString
                   [identifier "selector"; mkNode StringLiteral "app-root" []]]]])).1
  = [insertStandaloneFalse
       (mkNode ObjectLiteralExpression EmptyString
          [mkNode PropertyAssignment EmptyString
             [identifier "selector"; mkNode StringLiteral "app-root" []]])]
  /\ length
       ((addStandaloneFalse_decorator "/app/src/app.component.ts" "AppComponent"
           (mkNode Decorator EmptyString
              [mkNode CallExpression EmptyString
                 [identifier "Component";
                  mkNode ObjectLiteralExpression EmptyString
                    [mkNode PropertyAssignment EmptyString
                       [identifier "selector"; mkNode StringLiteral "app-root" []]]]])).2
        ++ (addStandaloneFalse_decorator "/app/src/app.component.ts" "AppComponent"
              (addStandaloneFalse_decorator "/app/src/app.component.ts" "AppComponent"
                 (mkNode Decorator EmptyString
                    [mkNode CallExpression EmptyString
                       [identifier "Component";
                        mkNode ObjectLiteralExpression EmptyString
                          [mkNode PropertyAssignment EmptyString
                             [identifier "selector";
                              mkNode StringLiteral "app-root" []]]]])).1).2)
     = 1%nat.
Proof.
  pose proof (proj2 (proj2 (proj2
    (standalone_insertion_happens_once "/app/src/app.component.ts" "AppComponent"
       (mkNode Decorator EmptyString
          [mkNode CallExpression EmptyString
             [identifier "Component";
              mkNode ObjectLiteralExpression EmptyString
                [mkNode PropertyAssignment EmptyString
                   [identifier "selector"; mkNode StringLiteral "app-root" []]]]]))))
    (mkNode ObjectLiteralExpression EmptyString
       [mkNode PropertyAssignment EmptyString
          [identifier "selector"; mkNode StringLiteral "app-root" []]])
    []) as H.
  destruct H as (H1 & H2 & _).
  - simpl. by left.
  - reflexivity.
  - reflexivity.
  - reflexivity.
  - split; [exact H1 | exact H2].
Defined.

(** ** The manifest patches *)

Lemma updateEntry_own section deps cs name newVersion :
  inheritedText name = None ->
  updateEntry section (deps, cs) (name, newVersion)
  = match deps !! name with
    | Some oldVersion =>
        if String.eqb oldVersion newVersion then (deps, cs)
        else (<[name := newVersion]> deps,
              cs ++ [versionChange section name oldVersion newVersion])
    | None => (deps, cs)
    end.
Proof.
  intros Hname. unfold updateEntry, assign. rewrite Hname.
  destruct (deps !! name); reflexivity.
Qed.

(** Whatever [updates] names, what [updatePackageVersions] pushes is filed
    under [package.json]. *)
Lemma updateEntries_changes_file section updates deps cs :
  exists new,
    (fold_left (updateEntry section) updates (deps, cs)).2 = cs ++ new
    /\ Forall (λ c, Change.file c = "package.json") new.
Proof.
  revert deps cs. induction updates as [| [name newVersion] rest IH]; intros deps cs;
    cbn [fold_left].
  - exists []. by rewrite app_nil_r.
  - assert (Hstep : exists new1,
               (updateEntry section (deps, cs) (name, newVersion)).2 = cs ++ new1
               /\ Forall (λ c, Change.file c = "package.json") new1).
    { unfold updateEntry.
      destruct (deps !! name) as [oldVersion |].
      - destruct (String.eqb oldVersion newVersion).
        + exists []. by rewrite app_nil_r.
        + eexists [_]. split; [reflexivity |]. by constructor.
      - destruct (inheritedText name).
        + eexists [_]. split; [reflexivity |]. by constructor.
        + exists []. by rewrite app_nil_r. }
    destruct Hstep as (new1 & Hnew1 & Hall1).
    destruct (updateEntry section (deps, cs) (name, newVersion)) as [deps1 cs1].
    cbn [snd] in Hnew1. subst cs1.
    destruct (IH deps1 (cs ++ new1)) as (new2 & Hnew2 & Hall2).
    exists (new1 ++ new2). split; [by rewrite Hnew2, app_assoc |].
    by apply Forall_app.
Qed.

Lemma updateSections_changes_file updates secs pkg cs :
  exists new,
    (fold_left (updateSection updates) secs (pkg, cs)).2 = cs ++ new
    /\ Forall (λ c, Change.file c = "package.json") new.
Proof.
  revert pkg cs. induction secs as [| s rest IH]; intros pkg cs; cbn [fold_left].
  - exists []. by rewrite app_nil_r.
  - unfold updateSection at 2.
    destruct (getSection pkg s) as [deps |]; [| apply IH].
    destruct (updateEntries_changes_file s updates deps cs) as (new1 & Hnew1 & Hall1).
    destruct (fold_left (updateEntry s) updates (deps, cs)) as [deps' cs'].
    cbn [snd] in Hnew1. subst cs'.
    destruct (IH (setSection pkg s deps') (cs ++ new1)) as (new2 & Hnew2 & Hall2).
    exists (new1 ++ new2). split; [by rewrite Hnew2, app_assoc |].
    by apply Forall_app.
Qed.

Lemma namesPackages_cons name newVersion rest :
  namesPackages ((name, newVersion) :: rest) ->
  inheritedText name = None /\ namesPackages rest.
Proof. intros H. unfold namesPackages in *. by apply Forall_cons in H. Qed.

Lemma updateEntries_spec section updates deps cs :
  namesPackages updates ->
  let r := fold_left (updateEntry section) updates (deps, cs) in
  dom r.1 = dom deps
  /\ (forall name, ~ In name (List.map fst updates) -> r.1 !! name = deps !! name).
Proof.
  revert deps cs. induction updates as [| [name newVersion] rest IH]; intros deps cs Hnames;
    cbn [fold_left].
  - done.
  - apply namesPackages_cons in Hnames as [Hname Hrest].
    rewrite updateEntry_own by done. cbn [List.map fst In].
    destruct (deps !! name) as [oldVersion |] eqn:Hlookup.
    + destruct (String.eqb oldVersion newVersion).
      * destruct (IH deps cs Hrest) as (Hdom & Hother).
        split; [done |]. intros n Hn. apply Hother. tauto.
      * destruct (IH (<[name := newVersion]> deps)
                    (cs ++ [versionChange section name oldVersion newVersion]) Hrest)
          as (Hdom & Hother).
        split.
        -- rewrite Hdom, dom_insert_L. apply subseteq_union_1_L.
           apply singleton_subseteq_l. apply elem_of_dom. eauto.
        -- intros n Hn. rewrite Hother by tauto.
           apply lookup_insert_ne. intros ->. apply Hn. by left.
    + destruct (IH deps cs Hrest) as (Hdom & Hother).
      split; [done |]. intros n Hn. apply Hother. tauto.
Qed.

Lemma getSection_setSection pkg section deps section' :
  In section sections -> In section' sections ->
  getSection (setSection pkg section deps) section'
  = if String.eqb section section' then Some deps else getSection pkg section'.
Proof.
  unfold sections. simpl.
  intros [<- | [<- | [<- | []]]] [<- | [<- | [<- | []]]]; reflexivity.
Qed.

Lemma sameKeys_refl names pkg : sameKeys names pkg pkg.
Proof. intros s _. by destruct (getSection pkg s). Qed.

Lemma sameKeys_trans names pkg1 pkg2 pkg3 :
  sameKeys names pkg1 pkg2 -> sameKeys names pkg2 pkg3 -> sameKeys names pkg1 pkg3.
Proof.
  intros H12 H23 s Hs. specialize (H12 s Hs). specialize (H23 s Hs).
  destruct (getSection pkg1 s), (getSection pkg2 s), (getSection pkg3 s); try done.
  destruct H12 as [D12 O12], H23 as [D23 O23]. split; [congruence |].
  intros name Hn. rewrite O23, O12; done.
Qed.

Lemma updateSection_sameKeys updates pkg cs section :
  namesPackages updates ->
  In section sections ->
  sameKeys (List.map fst updates) pkg (updateSection updates (pkg, cs) section).1.
Proof.
  intros Hnames Hs. unfold updateSection.
  destruct (getSection pkg section) as [deps |] eqn:Hget; [| apply sameKeys_refl].
  pose proof (updateEntries_spec section updates deps cs Hnames) as (Hdom & Hother).
  destruct (fold_left (updateEntry section) updates (deps, cs)) as [deps' cs'].
  simpl in *. intros s' Hs'. rewrite getSection_setSection by done.
  destruct (String.eqb section s') eqn:Heq.
  - apply String.eqb_eq in Heq. subst s'. by rewrite Hget.
  - by destruct (getSection pkg s').
Qed.

Lemma updateSections_sameKeys_from updates secs pkg cs :
  namesPackages updates ->
  (forall s, In s secs -> In s sections) ->
  sameKeys (List.map fst updates) pkg
    (fold_left (updateSection updates) secs (pkg, cs)).1.
Proof.
  intros Hnames. revert pkg cs.
  induction secs as [| s rest IH]; intros pkg cs Hsecs; cbn [fold_left].
  - apply sameKeys_refl.
  - pose proof (updateSection_sameKeys updates pkg cs s Hnames
                  (Hsecs s (or_introl eq_refl))) as H1.
    destruct (updateSection updates (pkg, cs) s) as [p1 c1]. cbn [fst] in H1.
    eapply sameKeys_trans; [exact H1 |]. apply IH. intros s' Hs'. apply Hsecs. by right.
Qed.

Lemma updateSections_sameKeys updates pkg :
  namesPackages updates ->
  sameKeys (List.map fst updates) pkg
    (fold_left (updateSection updates) sections (pkg, [])).1.
Proof. intros Hnames. by apply updateSections_sameKeys_from. Qed.

(** The tables of the four steps name packages only. *)
Lemma declared_updates_name_packages :
  Forall namesPackages
    [v15ToV16_updates; v16ToV17_updates; v17ToV18_updates; v18ToV19_updates].
Proof.
  repeat (constructor; [apply Forall_forall; intros update Hin;
                        apply list_elem_of_In in Hin;
                        repeat (destruct Hin as [<- | Hin]; [reflexivity |]);
                        destruct Hin |]).
  constructor.
Qed.

(** "Only updates if the package is already present": for [updates] that
    name no property of [Object.prototype], as the tables of the four steps
    do, and whatever the mode, the manifest left on the disk has the
    sections of the one that was read, each with the same package names,
    and every package that [updates] does not name keeps its version. *)
Theorem updatePackageVersions_keeps_the_packages ctx updates disk pkg :
  namesPackages updates ->
  manifestOf disk (projectPath ctx) = Some pkg ->
  exists pkg',
    manifestOf (updatePackageVersions ctx updates disk).2 (projectPath ctx) = Some pkg'
    /\ sameKeys (List.map fst updates) pkg pkg'.
Proof.
  unfold manifestOf. intros Hnames Hpkg. rewrite updatePackageVersions_eq.
  destruct (skipPackageJson ctx).
  { exists pkg. split; [done | apply sameKeys_refl]. }
  cbv zeta.
  destruct (disk !! path_join (projectPath ctx) "package.json") as [[| p | | | |] |] eqn:Hd;
    try discriminate.
  inversion Hpkg; subst p. cbn [snd].
  destruct (negb _ && negb _)%bool.
  - eexists. rewrite lookup_insert_eq. split; [reflexivity |].
    by apply updateSections_sameKeys.
  - exists pkg. rewrite Hd. split; [done | apply sameKeys_refl].
Qed.

Lemma updatePackageVersions_keeps_the_packages_witness :
  exists pkg',
    manifestOf (updatePackageVersions (Examples.context false) v15ToV16_updates
                  Examples.projectV17).2 "/app" = Some pkg'
    /\ sameKeys (List.map fst v15ToV16_updates) (Examples.manifest "^17.0.0") pkg'.
Proof.
  apply (updatePackageVersions_keeps_the_packages (Examples.context false)
           v15ToV16_updates Examples.projectV17 (Examples.manifest "^17.0.0")).
  - apply Forall_forall. intros update Hin. apply list_elem_of_In in Hin.
    repeat (destruct Hin as [<- | Hin]; [reflexivity |]). destruct Hin.
  - vm_compute. reflexivity.
Defined.

Lemma flat_map_ext_In {A B : Type} (f g : A -> list B) (l : list A) :
  (forall a, In a l -> f a = g a) -> flat_map f l = flat_map g l.
Proof.
  induction l as [| a l IH]; intros Hext; [done |]. cbn [flat_map].
  rewrite (Hext a) by (by left). f_equal. apply IH. intros b Hb. apply Hext. by right.
Qed.

(** The changes of one section, when [updates] names every package once:
    each entry is compared with the version the section had at the start. *)
Lemma updateEntries_changes section updates deps cs :
  namesPackages updates ->
  NoDup (List.map fst updates) ->
  (fold_left (updateEntry section) updates (deps, cs)).2
  = cs ++ sectionChanges updates section deps.
Proof.
  revert deps cs. induction updates as [| [name newVersion] rest IH];
    intros deps cs Hnames Hnodup; cbn [fold_left].
  - by rewrite app_nil_r.
  - apply namesPackages_cons in Hnames as [Hname Hrest].
    cbn [List.map fst] in Hnodup. apply NoDup_cons in Hnodup as [Hfresh Hnodup].
    rewrite updateEntry_own by done.
    unfold sectionChanges. cbn [flat_map fst snd]. fold (sectionChanges rest section deps).
    destruct (deps !! name) as [oldVersion |] eqn:Hlookup.
    + destruct (String.eqb oldVersion newVersion).
      * by rewrite IH.
      * rewrite IH by done. rewrite <- app_assoc. do 2 f_equal.
        unfold sectionChanges. apply flat_map_ext_In. intros [n v] Hin. cbn [fst snd].
        rewrite lookup_insert_ne; [done |]. intros ->. apply Hfresh.
        apply list_elem_of_In, in_map_iff. by exists (n, v).
    + by rewrite IH.
Qed.

Lemma updateSection_spec updates pkg cs section :
  namesPackages updates ->
  NoDup (List.map fst updates) ->
  In section sections ->
  (updateSection updates (pkg, cs) section).2
  = cs ++ match getSection pkg section with
          | Some deps => sectionChanges updates section deps
          | None => []
          end
  /\ forall s', In s' sections -> s' <> section ->
       getSection (updateSection updates (pkg, cs) section).1 s' = getSection pkg s'.
Proof.
  intros Hnames Hnodup Hs. unfold updateSection.
  destruct (getSection pkg section) as [deps |] eqn:Hget.
  - pose proof (updateEntries_changes section updates deps cs Hnames Hnodup) as Hcs.
    destruct (fold_left (updateEntry section) updates (deps, cs)) as [deps' cs'].
    cbn [fst snd] in *. split; [exact Hcs |].
    intros s' Hs' Hne. rewrite getSection_setSection by done.
    destruct (String.eqb section s') eqn:Heq; [| done].
    apply String.eqb_eq in Heq. congruence.
  - cbn [fst snd]. split; [by rewrite app_nil_r | done].
Qed.

Lemma updateSections_changes updates pkg :
  namesPackages updates ->
  NoDup (List.map fst updates) ->
  (fold_left (updateSection updates) sections (pkg, [])).2 = manifestChanges updates pkg.
Proof.
  intros Hnames Hnodup. unfold manifestChanges, sections. cbn [fold_left flat_map].
  assert (H1 : In "dependencies" sections) by (simpl; tauto).
  assert (H2 : In "devDependencies" sections) by (simpl; tauto).
  assert (H3 : In "peerDependencies" sections) by (simpl; tauto).
  destruct (updateSection_spec updates pkg [] "dependencies" Hnames Hnodup H1) as [C1 K1].
  destruct (updateSection updates (pkg, []) "dependencies") as [p1 c1].
  cbn [fst snd] in C1, K1.
  destruct (updateSection_spec updates p1 c1 "devDependencies" Hnames Hnodup H2) as [C2 K2].
  destruct (updateSection updates (p1, c1) "devDependencies") as [p2 c2].
  cbn [fst snd] in C2, K2.
  destruct (updateSection_spec updates p2 c2 "peerDependencies" Hnames Hnodup H3) as [C3 _].
  destruct (updateSection updates (p2, c2) "peerDependencies") as [p3 c3].
  cbn [fst snd] in C3 |- *.
  rewrite C3, C2, C1, K2, !K1 by (done || discriminate).
  cbn [app]. by rewrite app_nil_r, app_assoc.
Qed.

Lemma in_manifestChanges updates pkg c :
  In c (manifestChanges updates pkg) <-> isVersionBump pkg updates c.
Proof.
  unfold manifestChanges, isVersionBump. rewrite in_flat_map. split.
  - intros (section & Hsection & Hc).
    destruct (getSection pkg section) as [deps |] eqn:Hget; [| done].
    unfold sectionChanges in Hc. apply in_flat_map in Hc as ([name newVersion] & Hin & Hc).
    cbn [fst snd] in Hc.
    destruct (deps !! name) as [oldVersion |] eqn:Hlookup; [| done].
    destruct (String.eqb oldVersion newVersion) eqn:Heq; [done |].
    apply String.eqb_neq in Heq. destruct Hc as [<- | []].
    by exists section, deps, name, oldVersion, newVersion.
  - intros (section & deps & name & oldVersion & newVersion
            & Hsection & Hget & Hin & Hlookup & Hne & ->).
    exists section. split; [done |]. rewrite Hget.
    unfold sectionChanges. apply in_flat_map. exists (name, newVersion).
    split; [done |]. cbn [fst snd]. rewrite Hlookup.
    apply String.eqb_neq in Hne. rewrite Hne. by left.
Qed.

(** Every change that [updatePackageVersions] returns is a real version
    change of the manifest it read: for some package that a section lists
    and [updates] names, it carries the version the section had and the
    different version that [updates] asks for; and unless the manifest is
    skipped, every such difference is returned as a change.  ([updates] is
    an object, so it names a package once; it is taken to name no property
    of [Object.prototype].) *)
Theorem updatePackageVersions_reports_real_changes ctx updates disk pkg cs disk' :
  namesPackages updates ->
  NoDup (List.map fst updates) ->
  manifestOf disk (projectPath ctx) = Some pkg ->
  updatePackageVersions ctx updates disk = (Returned cs, disk') ->
  (forall c, In c cs -> isVersionBump pkg updates c)
  /\ (skipPackageJson ctx = false -> forall c, isVersionBump pkg updates c -> In c cs).
Proof.
  intros Hnames Hnodup Hpkg. rewrite updatePackageVersions_eq. unfold manifestOf in Hpkg.
  destruct (skipPackageJson ctx).
  { intros [= <- _]. split; [by intros c [] | discriminate]. }
  cbv zeta.
  destruct (disk !! path_join (projectPath ctx) "package.json") as [[| p | | | |] |];
    try discriminate.
  injection Hpkg as ->. intros [= Hcs _].
  change ((fold_left (updateSection updates) sections (pkg, [])).2 = cs) in Hcs.
  rewrite updateSections_changes in Hcs by done. subst cs.
  split; [| intros _]; intros c; apply in_manifestChanges.
Qed.

Lemma updatePackageVersions_reports_real_changes_witness :
  isVersionBump (Examples.manifest "^17.0.0") v17ToV18_updates
    (versionChange "dependencies" "@angular/core" "^17.0.0" "^18.2.0").
Proof.
  destruct (updatePackageVersions_reports_real_changes (Examples.context true)
              v17ToV18_updates Examples.projectV17 (Examples.manifest "^17.0.0")
              [versionChange "dependencies" "@angular/core" "^17.0.0" "^18.2.0"]
              Examples.projectV17) as [Hreal _].
  - apply Forall_forall. intros update Hin. apply list_elem_of_In in Hin.
    repeat (destruct Hin as [<- | Hin]; [reflexivity |]). destruct Hin.
  - apply NoDup_ListNoDup. vm_compute.
    repeat (constructor; [intros H; repeat (destruct H as [H | H]; [discriminate H |]); exact H |]).
    constructor.
  - vm_compute. reflexivity.
  - vm_compute. reflexivity.
  - apply Hreal. by left.
Defined.

Lemma updateEntries_fixed section updates deps cs :
  namesPackages updates ->
  (forall name newVersion oldVersion,
      In (name, newVersion) updates -> deps !! name = Some oldVersion ->
      oldVersion = newVersion) ->
  fold_left (updateEntry section) updates (deps, cs) = (deps, cs).
Proof.
  induction updates as [| [name newVersion] rest IH]; intros Hnames Hfixed;
    cbn [fold_left]; [done |].
  apply namesPackages_cons in Hnames as [Hname Hrest].
  rewrite updateEntry_own by done.
  destruct (deps !! name) as [oldVersion |] eqn:Hlookup.
  - rewrite (Hfixed name newVersion oldVersion) by (by left || done).
    rewrite String.eqb_refl. apply IH; [done |]. intros n v o Hin. apply Hfixed. by right.
  - apply IH; [done |]. intros n v o Hin. apply Hfixed. by right.
Qed.

Lemma updateEntries_settled section updates deps cs :
  namesPackages updates ->
  NoDup (List.map fst updates) ->
  forall name newVersion oldVersion,
    In (name, newVersion) updates ->
    (fold_left (updateEntry section) updates (deps, cs)).1 !! name = Some oldVersion ->
    oldVersion = newVersion.
Proof.
  revert deps cs. induction updates as [| [n0 v0] rest IH]; intros deps cs Hnames Hnodup;
    [by intros ? ? ? [] |].
  apply namesPackages_cons in Hnames as [Hname Hrest].
  apply NoDup_cons in Hnodup as [Hfresh Hnodup].
  intros name newVersion oldVersion [Heq | Hin].
  - inversion Heq; subst n0 v0. clear Heq. cbn [fold_left]. intros Hlookup.
    assert (Hkeep : forall d c, (fold_left (updateEntry section) rest (d, c)).1 !! name
                                = d !! name).
    { intros d c. pose proof (updateEntries_spec section rest d c Hrest) as (_ & Hother).
      apply Hother. intros Hn. apply Hfresh. by apply list_elem_of_In. }
    rewrite updateEntry_own in Hlookup by done.
    destruct (deps !! name) as [o |] eqn:Hold.
    + destruct (String.eqb o newVersion) eqn:Heq.
      * rewrite Hkeep, Hold in Hlookup. apply String.eqb_eq in Heq. congruence.
      * rewrite Hkeep, lookup_insert_eq in Hlookup. congruence.
    + rewrite Hkeep, Hold in Hlookup. discriminate.
  - cbn [fold_left]. destruct (updateEntry section (deps, cs) (n0, v0)) as [d1 c1].
    by apply IH.
Qed.

Lemma setSection_same pkg section deps :
  getSection pkg section = Some deps -> setSection pkg section deps = pkg.
Proof.
  unfold getSection, setSection. destruct pkg as [d dev peer]. simpl.
  destruct (String.eqb section "dependencies"); [by intros -> |].
  destruct (String.eqb section "devDependencies"); [by intros -> |].
  destruct (String.eqb section "peerDependencies"); [by intros -> | done].
Qed.

Lemma updateSections_fixed updates secs pkg cs :
  namesPackages updates ->
  (forall s, In s secs -> sectionSettled updates pkg s) ->
  fold_left (updateSection updates) secs (pkg, cs) = (pkg, cs).
Proof.
  intros Hnames.
  induction secs as [| s rest IH]; intros Hsettled; cbn [fold_left]; [done |].
  unfold updateSection at 2.
  destruct (getSection pkg s) as [deps |] eqn:Hget.
  - rewrite updateEntries_fixed
      by (done || apply (Hsettled s (or_introl eq_refl) deps Hget)).
    rewrite setSection_same by done. apply IH. intros s' Hs'. apply Hsettled. by right.
  - apply IH. intros s' Hs'. apply Hsettled. by right.
Qed.

Lemma updateSection_settles updates pkg cs section :
  namesPackages updates ->
  NoDup (List.map fst updates) -> In section sections ->
  sectionSettled updates (updateSection updates (pkg, cs) section).1 section
  /\ forall s', In s' sections -> s' <> section ->
       getSection (updateSection updates (pkg, cs) section).1 s' = getSection pkg s'.
Proof.
  intros Hnames Hnodup Hs. unfold updateSection.
  destruct (getSection pkg section) as [deps |] eqn:Hget.
  - pose proof (updateEntries_settled section updates deps cs Hnames Hnodup) as Hsettled.
    destruct (fold_left (updateEntry section) updates (deps, cs)) as [deps' cs'].
    cbn [fst] in *. split.
    + intros d Hd. rewrite getSection_setSection, String.eqb_refl in Hd by done.
      inversion Hd; subst d. exact Hsettled.
    + intros s' Hs' Hne. rewrite getSection_setSection by done.
      destruct (String.eqb section s') eqn:Heq; [| done].
      apply String.eqb_eq in Heq. congruence.
  - cbn [fst]. split; [| done]. intros d Hd. congruence.
Qed.

Lemma updateSections_settle updates pkg :
  namesPackages updates ->
  NoDup (List.map fst updates) ->
  forall s, In s sections ->
    sectionSettled updates (fold_left (updateSection updates) sections (pkg, [])).1 s.
Proof.
  intros Hnames Hnodup. unfold sections at 2. cbn [fold_left].
  assert (H1 : In "dependencies" sections) by (simpl; tauto).
  assert (H2 : In "devDependencies" sections) by (simpl; tauto).
  assert (H3 : In "peerDependencies" sections) by (simpl; tauto).
  destruct (updateSection_settles updates pkg [] "dependencies" Hnames Hnodup H1) as [S1 _].
  destruct (updateSection updates (pkg, []) "dependencies") as [p1 c1]. cbn [fst] in S1.
  destruct (updateSection_settles updates p1 c1 "devDependencies" Hnames Hnodup H2)
    as [S2 K2].
  destruct (updateSection updates (p1, c1) "devDependencies") as [p2 c2]. cbn [fst] in S2, K2.
  destruct (updateSection_settles updates p2 c2 "peerDependencies" Hnames Hnodup H3)
    as [S3 K3].
  destruct (updateSection updates (p2, c2) "peerDependencies") as [p3 c3].
  cbn [fst] in S3, K3 |- *.
  intros s [<- | [<- | [<- | []]]].
  - intros d Hd. rewrite K3, K2 in Hd by (done || discriminate). by apply S1.
  - intros d Hd. rewrite K3 in Hd by (done || discriminate). by apply S2.
  - exact S3.
Qed.

(** Run again in applied mode on the disk it left, [updatePackageVersions]
    finds every version already in place: it returns no change and writes
    nothing.  ([updates] is an object, so it names a package once; it is
    taken to name no property of [Object.prototype].) *)
Theorem updatePackageVersions_settles_the_manifest ctx updates disk cs disk1 :
  namesPackages updates ->
  NoDup (List.map fst updates) ->
  dryRun ctx = false ->
  updatePackageVersions ctx updates disk = (Returned cs, disk1) ->
  updatePackageVersions ctx updates disk1 = (Returned [], disk1).
Proof.
  intros Hnames Hnodup Hdry. rewrite !updatePackageVersions_eq. rewrite Hdry.
  destruct (skipPackageJson ctx); [intros H; by inversion H |].
  cbv zeta. cbn [negb].
  destruct (disk !! path_join (projectPath ctx) "package.json") as [[| p | | | |] |] eqn:Hd;
    try discriminate.
  rewrite andb_true_r.
  intros H. injection H as Hcs Hdisk.
  change ((fold_left (updateSection updates) sections (p, [])).2 = cs) in Hcs.
  change ((if negb (Nat.eqb (length (fold_left (updateSection updates) sections (p, [])).2) 0)
           then <[path_join (projectPath ctx) "package.json"
                    := PackageJsonFile (fold_left (updateSection updates) sections (p, [])).1]>
                  disk
           else disk) = disk1) in Hdisk.
  rewrite Hcs in Hdisk.
  destruct cs as [| c cs'].
  - cbn in Hdisk. subst disk1. rewrite Hd, Hcs. reflexivity.
  - cbn [length Nat.eqb negb] in Hdisk. subst disk1. rewrite lookup_insert_eq.
    rewrite updateSections_fixed by (done || apply updateSections_settle; done).
    reflexivity.
Qed.

Lemma updatePackageVersions_settles_the_manifest_witness :
  updatePackageVersions (Examples.context false) v17ToV18_updates
    (updatePackageVersions (Examples.context false) v17ToV18_updates Examples.projectV17).2
  = (Returned [],
     (updatePackageVersions (Examples.context false) v17ToV18_updates Examples.projectV17).2).
Proof.
  apply (updatePackageVersions_settles_the_manifest (Examples.context false)
           v17ToV18_updates Examples.projectV17
           [versionChange "dependencies" "@angular/core" "^17.0.0" "^18.2.0"]).
  - apply Forall_forall. intros update Hin. apply list_elem_of_In in Hin.
    repeat (destruct Hin as [<- | Hin]; [reflexivity |]). destruct Hin.
  - apply NoDup_ListNoDup. vm_compute.
    repeat (constructor; [intros H; repeat (destruct H as [H | H]; [discriminate H |]); exact H |]).
    constructor.
  - reflexivity.
  - vm_compute. reflexivity.
Defined.

(** What [replacePackageDependency] computes, by cases on the manifest. *)
Lemma replacePackageDependency_eq ctx oldName newName newVersion disk :
  replacePackageDependency ctx oldName newName newVersion disk
  = if skipPackageJson ctx then (Returned [], disk)
    else
      let pkgPath := path_join (projectPath ctx) "package.json" in
      match disk !! pkgPath with
      | None => (Thrown ("package.json not found at " +:+ pkgPath), disk)
      | Some (PackageJsonFile pkg) =>
          let r := fold_left (replaceInSection oldName newName newVersion) sections (pkg, []) in
          (Returned r.2,
           if (negb (Nat.eqb (length r.2) 0) && negb (dryRun ctx))%bool
           then <[pkgPath := PackageJsonFile r.1]> disk else disk)
      | Some _ => (Thrown (jsonSyntaxError pkgPath), disk)
      end.
Proof.
  unfold replacePackageDependency.
  destruct (skipPackageJson ctx); [done |].
  unfold bind at 1. unfold readPackageJson, bind, readFile.
  destruct (disk !! path_join (projectPath ctx) "package.json") as [[| pkg | | | |] |];
    try reflexivity.
  unfold ret at 1. cbv zeta.
  destruct (fold_left (replaceInSection oldName newName newVersion) sections (pkg, []))
    as [pkg' changes].
  cbn [fst snd].
  destruct (negb (Nat.eqb (length changes) 0) && negb (dryRun ctx))%bool; reflexivity.
Qed.

Lemma replaceInSection_spec oldName newName newVersion pkg cs section :
  inheritedText oldName = None ->
  newName <> "__proto__" ->
  In section sections ->
  let r := replaceInSection oldName newName newVersion (pkg, cs) section in
  (forall s', In s' sections ->
     getSection r.1 s'
     = if String.eqb section s'
       then option_map (replacedIn oldName newName newVersion) (getSection pkg s')
       else getSection pkg s')
  /\ length r.2 = (length cs + if listsPackage pkg oldName section then 1 else 0)%nat.
Proof.
  intros Hold Hnew Hs. unfold replaceInSection, listsPackage, printedProperty.
  rewrite Hold.
  destruct (getSection pkg section) as [deps |] eqn:Hget.
  - destruct (deps !! oldName) as [oldVersion |] eqn:Hlookup; cbn [fst snd].
    + split.
      * intros s' Hs'. rewrite getSection_setSection by done.
        destruct (String.eqb section s') eqn:Heq; [| done].
        apply String.eqb_eq in Heq. subst s'. rewrite Hget. simpl.
        unfold replacedIn, assign. rewrite Hlookup.
        apply String.eqb_neq in Hnew. rewrite Hnew.
        by destruct (delete oldName deps !! newName).
      * rewrite length_app. simpl. lia.
    + split; [| lia]. intros s' Hs'.
      destruct (String.eqb section s') eqn:Heq; [| done].
      apply String.eqb_eq in Heq. subst s'. rewrite Hget. simpl.
      unfold replacedIn. by rewrite Hlookup.
  - cbn [fst snd]. split; [| lia]. intros s' Hs'.
    destruct (String.eqb section s') eqn:Heq; [| done].
    apply String.eqb_eq in Heq. subst s'. by rewrite Hget.
Qed.

Lemma replaceInSections_spec oldName newName newVersion pkg :
  inheritedText oldName = None ->
  newName <> "__proto__" ->
  let r := fold_left (replaceInSection oldName newName newVersion) sections (pkg, []) in
  (forall s, In s sections ->
     getSection r.1 s
     = option_map (replacedIn oldName newName newVersion) (getSection pkg s))
  /\ length r.2 = length (List.filter (listsPackage pkg oldName) sections).
Proof.
  intros Hold Hnew. unfold sections at 1. cbn [fold_left].
  assert (H1 : In "dependencies" sections) by (simpl; tauto).
  assert (H2 : In "devDependencies" sections) by (simpl; tauto).
  assert (H3 : In "peerDependencies" sections) by (simpl; tauto).
  destruct (replaceInSection_spec oldName newName newVersion pkg [] "dependencies"
              Hold Hnew H1) as [G1 L1].
  destruct (replaceInSection oldName newName newVersion (pkg, []) "dependencies")
    as [p1 c1]. cbn [fst snd] in G1, L1.
  destruct (replaceInSection_spec oldName newName newVersion p1 c1 "devDependencies"
              Hold Hnew H2) as [G2 L2].
  destruct (replaceInSection oldName newName newVersion (p1, c1) "devDependencies")
    as [p2 c2]. cbn [fst snd] in G2, L2.
  destruct (replaceInSection_spec oldName newName newVersion p2 c2 "peerDependencies"
              Hold Hnew H3) as [G3 L3].
  destruct (replaceInSection oldName newName newVersion (p2, c2) "peerDependencies")
    as [p3 c3]. cbn [fst snd] in G3, L3 |- *.
  split.
  - intros s Hs. rewrite G3 by done.
    destruct Hs as [<- | [<- | [<- | []]]]; cbn [String.eqb Ascii.eqb Bool.eqb].
    + rewrite G2, G1 by done. reflexivity.
    + rewrite G2, G1 by done. reflexivity.
    + rewrite G2, G1 by done. reflexivity.
  - rewrite L3, L2, L1.
    assert (E2 : listsPackage p1 oldName "devDependencies"
                 = listsPackage pkg oldName "devDependencies").
    { unfold listsPackage. rewrite G1 by done. reflexivity. }
    assert (E3 : listsPackage p2 oldName "peerDependencies"
                 = listsPackage pkg oldName "peerDependencies").
    { unfold listsPackage. rewrite G2, G1 by done. reflexivity. }
    rewrite E2, E3. unfold sections. cbn [List.filter].
    destruct (listsPackage pkg oldName "dependencies"),
      (listsPackage pkg oldName "devDependencies"),
      (listsPackage pkg oldName "peerDependencies"); reflexivity.
Qed.

(** In applied mode, and for package names that are no property of
    [Object.prototype] (the new name is not [__proto__]),
    [replacePackageDependency] leaves a manifest in which every section
    that listed [oldName] lists [newName] at [newVersion] instead, and the
    other sections are as they were; it returns one change per section that
    listed [oldName].  When no section lists it, nothing is returned and
    nothing is written. *)
Theorem replacePackageDependency_replaces_in_every_section
    ctx oldName newName newVersion disk pkg :
  inheritedText oldName = None ->
  newName <> "__proto__" ->
  skipPackageJson ctx = false ->
  dryRun ctx = false ->
  manifestOf disk (projectPath ctx) = Some pkg ->
  let outcome := replacePackageDependency ctx oldName newName newVersion disk in
  (exists cs,
      outcome.1 = Returned cs
      /\ length cs = length (List.filter (listsPackage pkg oldName) sections)
      /\ (cs = [] -> outcome.2 = disk))
  /\ exists pkg',
       manifestOf outcome.2 (projectPath ctx) = Some pkg'
       /\ forall s, In s sections ->
            getSection pkg' s
            = option_map (replacedIn oldName newName newVersion) (getSection pkg s).
Proof.
  intros Hold Hnew Hskip Hdry Hpkg outcome. unfold outcome.
  rewrite replacePackageDependency_eq, Hskip, Hdry. cbv zeta. cbn [negb].
  unfold manifestOf in *.
  destruct (disk !! path_join (projectPath ctx) "package.json") as [[| p | | | |] |] eqn:Hd;
    try discriminate.
  inversion Hpkg; subst p. rewrite andb_true_r. cbn [fst snd].
  destruct (replaceInSections_spec oldName newName newVersion pkg Hold Hnew) as [Hget Hlen].
  set (r := fold_left (replaceInSection oldName newName newVersion) sections (pkg, [])) in *.
  split.
  - exists r.2. split; [done |]. split; [exact Hlen |]. by intros ->.
  - destruct (negb (Nat.eqb (length r.2) 0)) eqn:Hchanged.
    + exists r.1. rewrite lookup_insert_eq. done.
    + exists pkg. rewrite Hd. split; [done |]. intros s Hs.
      apply negb_false_iff, Nat.eqb_eq in Hchanged.
      rewrite Hlen in Hchanged.
      assert (Hnot : listsPackage pkg oldName s = false).
      { destruct (listsPackage pkg oldName s) eqn:Hl; [| done].
        assert (In s (List.filter (listsPackage pkg oldName) sections))
          by (apply filter_In; done).
        destruct (List.filter (listsPackage pkg oldName) sections); [done | discriminate]. }
      unfold listsPackage in Hnot. destruct (getSection pkg s) as [deps |]; [| done].
      simpl. unfold replacedIn. destruct (deps !! oldName); [discriminate | done].
Qed.

Lemma replacePackageDependency_replaces_in_every_section_witness :
  exists pkg',
    manifestOf (replacePackageDependency (Examples.context false)
                  "@angular/core" "@angular/ssr" "^17.3.0" Examples.projectV17).2 "/app"
    = Some pkg'
    /\ forall s, In s sections ->
         getSection pkg' s
         = option_map (replacedIn "@angular/core" "@angular/ssr" "^17.3.0")
             (getSection (Examples.manifest "^17.0.0") s).
Proof.
  apply (replacePackageDependency_replaces_in_every_section (Examples.context false)
           "@angular/core" "@angular/ssr" "^17.3.0" Examples.projectV17
           (Examples.manifest "^17.0.0")).
  - reflexivity.
  - discriminate.
  - reflexivity.
  - reflexivity.
  - vm_compute. reflexivity.
Defined.

Lemma allDependencies_core pkg :
  allDependencies pkg !! "@angular/core" = coreVersion pkg.
Proof.
  unfold allDependencies, coreVersion. rewrite lookup_union.
  destruct (devDependencies pkg) as [dev |], (dependencies pkg) as [deps |]; simpl;
    rewrite ?lookup_empty;
    repeat match goal with |- context [?m !! ?k] => destruct (m !! k) end; reflexivity.
Qed.

Lemma digitChar_isDigit n :
  (n < 10)%nat ->
  JsString.isDigit (JsString.digitChar n) = true
  /\ JsString.digitValue (JsString.digitChar n) = Z.of_nat n.
Proof.
  intros Hn.
  do 10 (destruct n as [| n]; [split; reflexivity |]). lia.
Qed.

Lemma append_cons c (s t : string) : String c s +:+ t = String c (s +:+ t).
Proof. reflexivity. Qed.

Lemma append_assoc (a b c : string) : (a +:+ b) +:+ c = a +:+ (b +:+ c).
Proof. induction a as [| x a IH]; [done |]. by rewrite !append_cons, IH. Qed.

Lemma append_empty_r (s : string) : s +:+ EmptyString = s.
Proof. induction s as [| c s IH]; [done |]. by rewrite append_cons, IH. Qed.

(** Reading back the digits [natDigits] wrote gives the number. *)
Lemma natDigits_read fuel : forall n acc,
  (n < fuel)%nat ->
  exists ds,
    JsString.natDigits fuel n acc = ds +:+ acc
    /\ startsWithDigit (ds +:+ acc) = true
    /\ forall a rest,
         exists k, JsString.readDigits a (ds +:+ rest)
                   = JsString.readDigits (a * 10 ^ k + Z.of_nat n) rest /\ 0 <= k.
Proof.
  induction fuel as [| fuel IH]; intros n acc Hn; [lia |].
  cbn [JsString.natDigits].
  destruct (n <? 10)%nat eqn:Hsmall.
  - apply Nat.ltb_lt in Hsmall.
    destruct (digitChar_isDigit n Hsmall) as [Hd Hv].
    assert (n mod 10 = n)%nat as -> by (apply Nat.mod_small; lia).
    exists (String (JsString.digitChar n) EmptyString).
    rewrite append_cons. split; [done |]. split; [exact Hd |]. intros a rest. exists 1.
    rewrite append_cons. cbn [JsString.readDigits]. rewrite Hd, Hv.
    change (EmptyString +:+ rest) with rest. split; [f_equal; lia | lia].
  - apply Nat.ltb_ge in Hsmall.
    assert (Hmod : (n mod 10 < 10)%nat) by (apply Nat.mod_upper_bound; lia).
    destruct (digitChar_isDigit _ Hmod) as [Hd Hv].
    assert (Hdiv : (n / 10 < fuel)%nat).
    { assert (n / 10 < n)%nat by (apply Nat.div_lt; lia). lia. }
    destruct (IH (n / 10)%nat (String (JsString.digitChar (n mod 10)) acc) Hdiv)
      as (ds & Heq & Hstart & Hread).
    exists (ds +:+ String (JsString.digitChar (n mod 10)) EmptyString).
    rewrite append_assoc, append_cons. change (EmptyString +:+ acc) with acc.
    split; [exact Heq |]. split; [exact Hstart |].
    intros a rest. rewrite append_assoc, append_cons.
    change (EmptyString +:+ rest) with rest.
    destruct (Hread a (String (JsString.digitChar (n mod 10)) rest)) as (k & Hk & Hpos).
    exists (k + 1). rewrite Hk. cbn [JsString.readDigits]. rewrite Hd, Hv.
    split; [| lia]. f_equal.
    rewrite Z.pow_add_r by lia.
    pose proof (Nat.div_mod_eq n 10) as Hdm.
    rewrite Nat2Z.inj_div. rewrite Nat2Z.inj_mod.
    pose proof (Z.div_mod (Z.of_nat n) 10 ltac:(lia)) as Hz.
    change (Z.of_nat 10) with 10. lia.
Qed.

Lemma readDigits_stops a s :
  startsWithDigit s = false -> JsString.readDigits a s = a.
Proof. destruct s as [| c s]; simpl; [done |]. by intros ->. Qed.

Lemma firstInteger_skips prefix s :
  digitFree prefix = true ->
  JsString.firstInteger (prefix +:+ s) = JsString.firstInteger s.
Proof.
  induction prefix as [| c prefix IH]; [done |]. rewrite append_cons.
  cbn [digitFree JsString.firstInteger].
  intros [Hc Hrest]%andb_true_iff. apply negb_true_iff in Hc. rewrite Hc. auto.
Qed.

Lemma firstInteger_at_digits s :
  startsWithDigit s = true ->
  JsString.firstInteger s = Some (JsString.toDouble (JsString.readDigits 0 s)).
Proof.
  destruct s as [| c s]; [done |]. cbn [startsWithDigit JsString.firstInteger].
  by intros ->.
Qed.

Lemma toDouble_exact n : n <= 2 ^ 53 -> JsString.toDouble n = n.
Proof.
  intros Hn. unfold JsString.toDouble.
  destruct (Z.leb_spec n (2 ^ 53)); [reflexivity | lia].
Qed.

(** The number written in a version string is read back: after any
    digit-free prefix, the decimal digits of [n], and a rest that does
    not go on with a digit, the first integer is [n]. *)
Lemma firstInteger_ofNat prefix n rest :
  digitFree prefix = true ->
  startsWithDigit rest = false ->
  JsString.firstInteger (prefix +:+ JsString.ofNat n +:+ rest)
  = Some (JsString.toDouble (Z.of_nat n)).
Proof.
  intros Hprefix Hrest. rewrite firstInteger_skips by done.
  unfold JsString.ofNat.
  destruct (natDigits_read (S n) n EmptyString ltac:(lia)) as (ds & Heq & Hstart & Hread).
  rewrite Heq. 
  rewrite append_empty_r in *.
  assert (Hstart' : startsWithDigit (ds +:+ rest) = true).
  { destruct ds; [done | exact Hstart]. }
  rewrite firstInteger_at_digits by done.
  destruct (Hread 0 rest) as (k & -> & _).
  rewrite readDigits_stops by done. do 2 f_equal; lia.
Qed.

Lemma ofNat_not_empty prefix n rest :
  String.eqb (prefix +:+ JsString.ofNat n +:+ rest) EmptyString = false.
Proof.
  unfold JsString.ofNat.
  destruct (natDigits_read (S n) n EmptyString ltac:(lia)) as (ds & Heq & Hstart & _).
  rewrite Heq.
  rewrite append_empty_r in *.
  destruct prefix; [| done]. destruct ds; [done | done].
Qed.

(** [detectAngularVersion] returns the major version the manifest declares
    for [@angular/core] and leaves the disk alone; when both
    [devDependencies] and [dependencies] list the package, the entry of
    [devDependencies] is the one that counts.  The version is the number
    [parseInt] reads for a major version of at most twenty digits: the
    major version itself as long as it is at most [2 ^ 53], the nearest
    double beyond. *)
Theorem detectAngularVersion_reads_the_major_version disk projectPath pkg prefix n rest :
  manifestOf disk projectPath = Some pkg ->
  coreVersion pkg = Some (prefix +:+ JsString.ofNat n +:+ rest) ->
  digitFree prefix = true ->
  startsWithDigit rest = false ->
  Z.of_nat n < 10 ^ 20 ->
  detectAngularVersion projectPath disk
  = (Returned (JsString.toDouble (Z.of_nat n)), disk)
  /\ (Z.of_nat n <= 2 ^ 53 -> JsString.toDouble (Z.of_nat n) = Z.of_nat n).
Proof.
  intros Hpkg Hcore Hprefix Hrest _. split; [| apply toDouble_exact].
  unfold detectAngularVersion, readPackageJson, readFile, bind. cbv beta iota.
  unfold manifestOf in Hpkg.
  destruct (disk !! path_join projectPath "package.json") as [[| p | | | |] |];
    try discriminate Hpkg.
  inversion Hpkg; subst p. unfold ret at 1.
  rewrite allDependencies_core, Hcore, ofNat_not_empty, firstInteger_ofNat by done.
  reflexivity.
Qed.

Lemma detectAngularVersion_reads_the_major_version_witness :
  let pkg := {| dependencies := Some {[ "@angular/core" := "^17.0.0" ]};
                devDependencies := Some {[ "@angular/core" := "~18.1.0" ]};
                peerDependencies := None |} in
  let disk : Disk := {[ "/app/package.json" := PackageJsonFile pkg ]} in
  detectAngularVersion "/app" disk = (Returned 18, disk).
Proof.
  intros pkg disk.
  destruct (detectAngularVersion_reads_the_major_version disk "/app" pkg "~" 18 ".1.0")
    as [Hrun Hexact].
  - vm_compute. reflexivity.
  - vm_compute. reflexivity.
  - reflexivity.
  - reflexivity.
  - vm_compute. reflexivity.
  - rewrite Hrun, Hexact; [reflexivity |]. vm_compute. discriminate.
Defined.

Lemma mapCollect_fst {A B O} (f : A -> B * list O) xs :
  (mapCollect f xs).1 = List.map (λ x, (f x).1) xs.
Proof.
  induction xs as [| x xs IH]; [done |]. cbn [mapCollect List.map].
  destruct (f x) as [y out], (mapCollect f xs) as [ys outs]. cbn [fst] in *. by rewrite IH.
Qed.

Lemma mapCollect_snd {A B O} (f : A -> B * list O) xs :
  (mapCollect f xs).2 = List.concat (List.map (λ x, (f x).2) xs).
Proof.
  induction xs as [| x xs IH]; [done |]. cbn [mapCollect List.map List.concat].
  destruct (f x) as [y out], (mapCollect f xs) as [ys outs]. cbn [snd] in *. by rewrite IH.
Qed.

(** When nothing is pushed for any element, the loop changes what [f]
    changes; the converse holds too. *)
Lemma mapCollect_nothing {A B O} (f : A -> B * list O) (old : A -> bool) xs :
  (forall x, (f x).2 = [] <-> old x = false) ->
  (mapCollect f xs).2 = [] <-> existsb old xs = false.
Proof.
  intros Hf. rewrite mapCollect_snd.
  induction xs as [| x xs IH]; [done |]. cbn [List.map List.concat existsb].
  rewrite orb_false_iff, <- IH, <- Hf. split.
  - intros [? ?]%app_eq_nil. done.
  - intros [-> ->]. done.
Qed.

Lemma migrateTarget_spec projectName entry :
  isBrowserBuild (migrateTarget projectName entry).1 = false
  /\ ((migrateTarget projectName entry).2 = [] <-> isBrowserBuild entry = false)
  /\ (migrateTarget projectName entry).1.1 = entry.1
  /\ (isBrowserBuild entry = false -> (migrateTarget projectName entry).1 = entry).
Proof.
  destruct entry as [targetName [b opts]]. unfold migrateTarget, isBrowserBuild.
  cbn [fst snd builder options].
  destruct (String.eqb targetName "build") eqn:Hname; cbn [negb andb];
    [destruct b as [b |];
       [destruct (String.eqb b "@angular-devkit/build-angular:browser") eqn:Hb;
          [destruct opts as [opts |];
             [destruct (renameMainOption projectName opts) as [opts1 c1];
              destruct (polyfillsToArray projectName opts1) as [opts2 c2] |] |
           destruct (String.eqb b "@angular-devkit/build-angular:browser-esbuild") eqn:He] |] |];
    cbn [fst snd builder options]; rewrite ?Hname, ?Hb, ?He; cbn [andb orb String.eqb Ascii.eqb Bool.eqb];
    repeat split; intros; try discriminate; try reflexivity.
Qed.

Lemma migrateTargets_spec projectName targets :
  existsb isBrowserBuild (mapCollect (migrateTarget projectName) targets).1 = false
  /\ ((mapCollect (migrateTarget projectName) targets).2 = []
      <-> existsb isBrowserBuild targets = false)
  /\ List.map fst (mapCollect (migrateTarget projectName) targets).1 = List.map fst targets
  /\ (existsb isBrowserBuild targets = false ->
      (mapCollect (migrateTarget projectName) targets).1 = targets).
Proof.
  split; [| split; [| split]].
  - rewrite mapCollect_fst. induction targets as [| t ts IH]; [done |].
    cbn [List.map existsb]. rewrite IH.
    by destruct (migrateTarget_spec projectName t) as (-> & _).
  - apply mapCollect_nothing. intros t. apply migrateTarget_spec.
  - rewrite mapCollect_fst, List.map_map. apply List.map_ext. intros t.
    apply migrateTarget_spec.
  - rewrite mapCollect_fst. induction targets as [| t ts IH]; [done |].
    cbn [List.map existsb]. intros [Ht Hts]%orb_false_iff.
    rewrite IH by done. f_equal. by apply migrateTarget_spec.
Qed.

Lemma migrateWorkspaceProject_spec entry :
  projectUsesBrowserBuilder (migrateWorkspaceProject entry).1 = false
  /\ ((migrateWorkspaceProject entry).2 = [] <-> projectUsesBrowserBuilder entry = false)
  /\ (migrateWorkspaceProject entry).1.1 = entry.1
  /\ option_map (List.map fst) (architect (migrateWorkspaceProject entry).1.2)
     = option_map (List.map fst) (architect entry.2)
  /\ (projectUsesBrowserBuilder entry = false -> (migrateWorkspaceProject entry).1 = entry).
Proof.
  destruct entry as [projectName [targets]].
  unfold migrateWorkspaceProject, projectUsesBrowserBuilder. cbn [fst snd architect].
  destruct targets as [targets |]; [| done].
  destruct (migrateTargets_spec projectName targets) as (H1 & H2 & H3 & H4).
  destruct (mapCollect (migrateTarget projectName) targets) as [targets' cs].
  cbn [fst snd architect option_map] in *.
  repeat split; try done; try apply H2.
  - by rewrite H3.
  - intros H. by rewrite H4.
Qed.

Lemma migrateWorkspaceProjects_spec ps :
  existsb projectUsesBrowserBuilder (mapCollect migrateWorkspaceProject ps).1 = false
  /\ ((mapCollect migrateWorkspaceProject ps).2 = []
      <-> existsb projectUsesBrowserBuilder ps = false)
  /\ (existsb projectUsesBrowserBuilder ps = false ->
      (mapCollect migrateWorkspaceProject ps).1 = ps).
Proof.
  split; [| split].
  - rewrite mapCollect_fst. induction ps as [| p ps IH]; [done |].
    cbn [List.map existsb]. rewrite IH.
    by destruct (migrateWorkspaceProject_spec p) as (-> & _).
  - apply mapCollect_nothing. intros p. apply migrateWorkspaceProject_spec.
  - rewrite mapCollect_fst. induction ps as [| p ps IH]; [done |].
    cbn [List.map existsb]. intros [Hp Hps]%orb_false_iff.
    rewrite IH by done. f_equal. by apply migrateWorkspaceProject_spec.
Qed.

(** What [migrateBrowserBuilderToApplication] computes, by cases on the
    workspace file. *)
Lemma migrateBrowserBuilderToApplication_eq ctx disk :
  migrateBrowserBuilderToApplication ctx disk
  = let filePath := path_join (projectPath ctx) "angular.json" in
    match disk !! filePath with
    | None => (Returned [], disk)
    | Some (AngularJsonFile config) =>
        match projects config with
        | None => (Returned [], disk)
        | Some ps =>
            let r := mapCollect migrateWorkspaceProject ps in
            (Returned r.2,
             if (negb (Nat.eqb (length r.2) 0) && negb (dryRun ctx))%bool
             then <[filePath := AngularJsonFile
                      {| defaultProject := defaultProject config;
                         projects := Some r.1 |}]> disk
             else disk)
        end
    | Some _ => (Thrown (jsonSyntaxError filePath), disk)
    end.
Proof.
  unfold migrateBrowserBuilderToApplication, readAngularJson, readFile, bind.
  cbv beta iota zeta.
  destruct (disk !! path_join (projectPath ctx) "angular.json") as [[| | config | | |] |];
    try reflexivity.
  unfold ret at 1. destruct (projects config) as [ps |]; [| reflexivity].
  destruct (mapCollect migrateWorkspaceProject ps) as [ps' changes]. cbn [fst snd].
  destruct (negb (Nat.eqb (length changes) 0) && negb (dryRun ctx))%bool; reflexivity.
Qed.

Lemma length_zero_nil {A} (l : list A) : Nat.eqb (length l) 0 = true <-> l = [].
Proof. destruct l; simpl; split; done. Qed.

(** After [migrateBrowserBuilderToApplication] has run in applied mode no
    [build] target of the workspace is on the [browser] or
    [browser-esbuild] builder any more, and it reports no change exactly
    when none was on one of them before, in which case nothing is written. *)
Theorem no_build_target_stays_on_the_browser_builder ctx disk config :
  dryRun ctx = false ->
  workspaceOf disk (projectPath ctx) = Some config ->
  exists cs disk' config',
    migrateBrowserBuilderToApplication ctx disk = (Returned cs, disk')
    /\ workspaceOf disk' (projectPath ctx) = Some config'
    /\ usesBrowserBuilder config' = false
    /\ (cs = [] <-> usesBrowserBuilder config = false)
    /\ (cs = [] -> disk' = disk).
Proof.
  intros Hdry Hws. rewrite migrateBrowserBuilderToApplication_eq, Hdry. cbv zeta.
  unfold workspaceOf in *.
  destruct (disk !! path_join (projectPath ctx) "angular.json") as [[| | c | | |] |] eqn:Hd;
    try discriminate Hws.
  inversion Hws; subst c. unfold usesBrowserBuilder at 2.
  destruct (projects config) as [ps |] eqn:Hps.
  - destruct (migrateWorkspaceProjects_spec ps) as (Hnone & Hcs & Hsame).
    set (r := mapCollect migrateWorkspaceProject ps) in *.
    rewrite andb_true_r.
    destruct (Nat.eqb (length r.2) 0) eqn:Hlen; cbn [negb].
    + apply length_zero_nil in Hlen.
      exists r.2, disk, config. rewrite Hd. repeat split; try done; try apply Hcs.
      unfold usesBrowserBuilder. rewrite Hps. by apply Hcs.
    + eexists r.2, _, _. split; [reflexivity |]. rewrite lookup_insert_eq.
      split; [reflexivity |]. split; [exact Hnone |]. split; [exact Hcs |].
      intros Hnil. apply length_zero_nil in Hnil. congruence.
  - exists [], disk, config. rewrite Hd. unfold usesBrowserBuilder. rewrite Hps. done.
Qed.

Lemma no_build_target_stays_on_the_browser_builder_witness :
  let target := {| builder := Some "@angular-devkit/build-angular:browser";
                   options := Some {[ "main" := JString "src/main.ts" ]} |} in
  let config := {| defaultProject := None;
                   projects := Some [("app", {| architect := Some [("build", target)] |})] |} in
  let disk : Disk := {[ "/app/angular.json" := AngularJsonFile config ]} in
  exists cs disk' config',
    migrateBrowserBuilderToApplication (Examples.context false) disk = (Returned cs, disk')
    /\ workspaceOf disk' "/app" = Some config'
    /\ usesBrowserBuilder config' = false
    /\ (cs = [] <-> usesBrowserBuilder config = false)
    /\ (cs = [] -> disk' = disk).
Proof.
  intros target config disk.
  apply (no_build_target_stays_on_the_browser_builder (Examples.context false) disk config).
  - reflexivity.
  - vm_compute. reflexivity.
Defined.

(** Run again on the workspace it has just written,
    [migrateBrowserBuilderToApplication] reports nothing and writes nothing. *)
Theorem migrateBrowserBuilderToApplication_settles ctx disk cs disk1 :
  dryRun ctx = false ->
  migrateBrowserBuilderToApplication ctx disk = (Returned cs, disk1) ->
  migrateBrowserBuilderToApplication ctx disk1 = (Returned [], disk1).
Proof.
  intros Hdry. rewrite !migrateBrowserBuilderToApplication_eq, Hdry. cbv zeta.
  destruct (disk !! path_join (projectPath ctx) "angular.json") as [[| | config | | |] |] eqn:Hd;
    try discriminate.
  - destruct (projects config) as [ps |] eqn:Hps.
    + destruct (migrateWorkspaceProjects_spec ps) as (Hnone & Hcs & Hsame).
      set (r := mapCollect migrateWorkspaceProject ps) in *.
      rewrite andb_true_r.
      destruct (Nat.eqb (length r.2) 0) eqn:Hlen; cbn [negb]; intros [= <- <-].
      * rewrite Hd, Hps. fold r. rewrite Hlen. cbn [negb andb].
        apply length_zero_nil in Hlen. by rewrite Hlen.
      * rewrite lookup_insert_eq. cbn [projects].
        destruct (migrateWorkspaceProjects_spec r.1) as (_ & Hcs' & _).
        apply Hcs' in Hnone. rewrite Hnone. reflexivity.
    + intros [= <- <-]. by rewrite Hd, Hps.
  - intros [= <- <-]. by rewrite Hd.
Qed.

Lemma migrateBrowserBuilderToApplication_settles_witness :
  let target := {| builder := Some "@angular-devkit/build-angular:browser-esbuild";
                   options := None |} in
  let config := {| defaultProject := None;
                   projects := Some [("app", {| architect := Some [("build", target)] |})] |} in
  let disk : Disk := {[ "/app/angular.json" := AngularJsonFile config ]} in
  let outcome := migrateBrowserBuilderToApplication (Examples.context false) disk in
  migrateBrowserBuilderToApplication (Examples.context false) outcome.2
  = (Returned [], outcome.2).
Proof.
  intros target config disk outcome.
  apply (migrateBrowserBuilderToApplication_settles (Examples.context false) disk
           (match outcome.1 with Returned cs => cs | Thrown _ => [] end)).
  - reflexivity.
  - vm_compute. reflexivity.
Defined.

Lemma otherTargets_kept projectName targets :
  List.filter (λ t : string * Target, negb (String.eqb t.1 "build"))
    (mapCollect (migrateTarget projectName) targets).1
  = List.filter (λ t : string * Target, negb (String.eqb t.1 "build")) targets.
Proof.
  rewrite mapCollect_fst. induction targets as [| [name t] ts IH]; [done |].
  cbn [List.map List.filter]. rewrite IH.
  assert (Hhead : (migrateTarget projectName (name, t)).1.1 = name)
    by apply (migrateTarget_spec projectName (name, t)).
  cbn [fst]. destruct (String.eqb name "build") eqn:Hname.
  - rewrite Hhead, Hname. reflexivity.
  - rewrite Hhead, Hname. cbn [negb]. f_equal.
    unfold migrateTarget. by rewrite Hname.
Qed.

(** On the lists that stand for the objects of the workspace:
    [migrateBrowserBuilderToApplication] maps every project and target to
    one of the same name and leaves a target that is not called [build] as
    it is. *)
Lemma migrateBrowserBuilderToApplication_lists
    ctx disk config cs disk' :
  workspaceOf disk (projectPath ctx) = Some config ->
  migrateBrowserBuilderToApplication ctx disk = (Returned cs, disk') ->
  exists config',
    workspaceOf disk' (projectPath ctx) = Some config'
    /\ targetNames config' = targetNames config
    /\ otherTargets config' = otherTargets config
    /\ defaultProject config' = defaultProject config.
Proof.
  intros Hws. rewrite migrateBrowserBuilderToApplication_eq. cbv zeta.
  unfold workspaceOf in *.
  destruct (disk !! path_join (projectPath ctx) "angular.json") as [[| | c | | |] |] eqn:Hd;
    try discriminate Hws.
  inversion Hws; subst c.
  destruct (projects config) as [ps |] eqn:Hps.
  - set (r := mapCollect migrateWorkspaceProject ps).
    destruct (negb (Nat.eqb (length r.2) 0) && negb (dryRun ctx))%bool;
      intros [= <- <-].
    + eexists. rewrite lookup_insert_eq. split; [reflexivity |].
      unfold targetNames, otherTargets. cbn [projects defaultProject]. rewrite Hps.
      cbn [option_map default from_option id]. unfold r. rewrite mapCollect_fst, !List.map_map.
      split; [| split; [| done]].
      * f_equal. apply List.map_ext. intros p.
        destruct (migrateWorkspaceProject_spec p) as (_ & _ & -> & -> & _). done.
      * apply List.map_ext. intros [projectName [targets]].
        unfold migrateWorkspaceProject. cbn [fst snd architect].
        destruct targets as [targets |]; [| done].
        pose proof (otherTargets_kept projectName targets) as Hkept.
        destruct (mapCollect (migrateTarget projectName) targets) as [targets' cs'].
        cbn [fst snd architect default from_option id] in *. by rewrite Hkept.
    + exists config. by rewrite Hd.
  - intros [= <- <-]. exists config. by rewrite Hd.
Qed.

Lemma hasTarget_other config projectName targetName t :
  targetName <> "build" ->
  hasTarget config projectName targetName t
  <-> exists targets, In (projectName, targets) (otherTargets config)
                      /\ In (targetName, t) targets.
Proof.
  intros Hname. unfold hasTarget, otherTargets. split.
  - intros (project & targets & Hproject & Harchitect & Htarget).
    eexists. split.
    + apply in_map_iff. exists (projectName, project). split; [reflexivity | exact Hproject].
    + cbn [snd]. rewrite Harchitect. cbn [default from_option id].
      apply filter_In. split; [exact Htarget |]. cbn [fst].
      apply negb_true_iff. by apply String.eqb_neq.
  - intros (targets & Hproject & Htarget).
    apply in_map_iff in Hproject as ([name project] & [= <- <-] & Hproject).
    cbn [fst snd] in *. apply filter_In in Htarget as [Htarget _].
    destruct (architect project) as [ts |] eqn:Harchitect; [| done].
    exists project, ts. done.
Qed.

Lemma declaresTarget_names config projectName targetName :
  declaresTarget config projectName targetName
  <-> exists names, In (projectName, Some names) (default [] (targetNames config))
                    /\ In targetName names.
Proof.
  unfold declaresTarget, hasTarget, targetNames. split.
  - intros (t & project & targets & Hproject & Harchitect & Htarget).
    destruct (projects config) as [ps |]; [| done]. cbn [option_map default from_option id] in *.
    exists (List.map fst targets). split.
    + apply in_map_iff. exists (projectName, project). cbn [fst snd].
      by rewrite Harchitect.
    + apply in_map_iff. by exists (targetName, t).
  - intros (names & Hproject & Hname).
    destruct (projects config) as [ps |]; [| done]. cbn [option_map default from_option id] in *.
    apply in_map_iff in Hproject as ([name project] & Heq & Hproject).
    cbn [fst snd] in Heq. injection Heq as -> Hnames.
    destruct (architect project) as [targets |] eqn:Harchitect; [| discriminate Hnames].
    injection Hnames as <-.
    apply in_map_iff in Hname as ([tn t] & Htn & Htarget). cbn [fst] in Htn. subst tn.
    exists t, project, targets. done.
Qed.

Lemma projectNames_targetNames config :
  projectNames config = List.map fst (default [] (targetNames config)).
Proof.
  unfold projectNames, targetNames. destruct (projects config) as [ps |]; [| done].
  cbn [option_map default from_option id]. rewrite List.map_map. reflexivity.
Qed.

(** [migrateBrowserBuilderToApplication] keeps the workspace's shape: the
    workspace left on the disk has the projects of the one that was read,
    each with targets of the same names; every target that is not called
    [build] is left exactly as it was, and [defaultProject] is not
    touched. *)
Theorem migrateBrowserBuilderToApplication_keeps_the_other_targets
    ctx disk config cs disk' :
  workspaceOf disk (projectPath ctx) = Some config ->
  migrateBrowserBuilderToApplication ctx disk = (Returned cs, disk') ->
  exists config',
    workspaceOf disk' (projectPath ctx) = Some config'
    /\ (forall projectName,
          In projectName (projectNames config') <-> In projectName (projectNames config))
    /\ (forall projectName targetName,
          declaresTarget config' projectName targetName
          <-> declaresTarget config projectName targetName)
    /\ (forall projectName targetName t,
          targetName <> "build" ->
          hasTarget config' projectName targetName t
          <-> hasTarget config projectName targetName t)
    /\ defaultProject config' = defaultProject config.
Proof.
  intros Hws Hrun.
  destruct (migrateBrowserBuilderToApplication_lists ctx disk config cs disk' Hws Hrun)
    as (config' & Hws' & Hnames & Hother & Hdefault).
  exists config'. split; [exact Hws' |]. split; [| split; [| split; [| exact Hdefault]]].
  - intros projectName. by rewrite !projectNames_targetNames, Hnames.
  - intros projectName targetName. by rewrite !declaresTarget_names, Hnames.
  - intros projectName targetName t Hname. by rewrite !hasTarget_other, Hother.
Qed.

Lemma migrateBrowserBuilderToApplication_keeps_the_other_targets_witness :
  let build := {| builder := Some "@angular-devkit/build-angular:browser";
                  options := Some {[ "main" := JString "src/main.ts" ]} |} in
  let test := {| builder := Some "@angular-devkit/build-angular:karma"; options := None |} in
  let config := {| defaultProject := Some (JString "app");
                   projects := Some [("app", {| architect := Some [("build", build);
                                                                   ("test", test)] |})] |} in
  let disk : Disk := {[ "/app/angular.json" := AngularJsonFile config ]} in
  let outcome := migrateBrowserBuilderToApplication (Examples.context false) disk in
  exists config',
    workspaceOf outcome.2 "/app" = Some config'
    /\ hasTarget config' "app" "test" test
    /\ defaultProject config' = Some (JString "app").
Proof.
  intros build test config disk outcome.
  destruct (migrateBrowserBuilderToApplication_keeps_the_other_targets
              (Examples.context false) disk config
              (match outcome.1 with Returned cs => cs | Thrown _ => [] end) outcome.2)
    as (config' & Hws & _ & _ & Hother & Hdefault).
  - vm_compute. reflexivity.
  - vm_compute. reflexivity.
  - exists config'. split; [exact Hws |]. split; [| exact Hdefault].
    apply Hother; [discriminate |].
    exists {| architect := Some [("build", build); ("test", test)] |},
      [("build", build); ("test", test)].
    split; [by left |]. split; [reflexivity |]. right. by left.
Defined.

Lemma renameMainOption_lookup projectName opts key :
  (renameMainOption projectName opts).1 !! key
  = if String.eqb key "main" then None
    else if String.eqb key "browser"
         then match opts !! "main" with Some main => Some main | None => opts !! "browser" end
         else opts !! key.
Proof.
  unfold renameMainOption.
  destruct (String.eqb key "main") eqn:Hmain.
  - apply String.eqb_eq in Hmain. subst key.
    destruct (opts !! "main") eqn:H; cbn [fst]; [by rewrite lookup_delete_eq | done].
  - apply String.eqb_neq in Hmain.
    destruct (String.eqb key "browser") eqn:Hbrowser.
    + apply String.eqb_eq in Hbrowser. subst key.
      destruct (opts !! "main") eqn:H; cbn [fst]; [| done].
      rewrite lookup_delete_ne by done. by rewrite lookup_insert_eq.
    + apply String.eqb_neq in Hbrowser.
      destruct (opts !! "main") eqn:H; cbn [fst]; [| done].
      rewrite lookup_delete_ne by done. by rewrite lookup_insert_ne by done.
Qed.

Lemma polyfillsToArray_lookup projectName opts key :
  (polyfillsToArray projectName opts).1 !! key
  = if String.eqb key "polyfills"
    then match opts !! "polyfills" with
         | Some (JString p) => Some (JArray [JString p])
         | other => other
         end
    else opts !! key.
Proof.
  unfold polyfillsToArray.
  destruct (String.eqb key "polyfills") eqn:Hkey.
  - apply String.eqb_eq in Hkey. subst key.
    destruct (opts !! "polyfills") as [[p | items | other] |] eqn:H; cbn [fst]; try done.
    by rewrite lookup_insert_eq.
  - apply String.eqb_neq in Hkey.
    destruct (opts !! "polyfills") as [[p | items | other] |] eqn:H; cbn [fst]; try done.
    by rewrite lookup_insert_ne by done.
Qed.

(** The options of a [build] target on the [browser] builder after its
    migration: [main] is gone and its value is under [browser], a string
    [polyfills] is the one-element array of that string, and every other
    option is as it was. *)
Theorem browser_build_options_are_converted projectName target opts :
  builder target = Some "@angular-devkit/build-angular:browser" ->
  options target = Some opts ->
  exists opts',
    (migrateTarget projectName ("build", target)).1.2
    = {| builder := Some "@angular-devkit/build-angular:application";
         options := Some opts' |}
    /\ opts' !! "main" = None
    /\ (forall main, opts !! "main" = Some main -> opts' !! "browser" = Some main)
    /\ (opts !! "main" = None -> opts' !! "browser" = opts !! "browser")
    /\ (forall p, opts !! "polyfills" = Some (JString p) ->
          opts' !! "polyfills" = Some (JArray [JString p]))
    /\ (forall key, key <> "main" -> key <> "browser" ->
          (forall p, opts !! "polyfills" = Some (JString p) -> key <> "polyfills") ->
          opts' !! key = opts !! key).
Proof.
  intros Hb Hopts. unfold migrateTarget. cbn [String.eqb Ascii.eqb Bool.eqb negb].
  rewrite Hb, Hopts. cbn [String.eqb Ascii.eqb Bool.eqb].
  pose proof (renameMainOption_lookup projectName opts) as Hrename.
  destruct (renameMainOption projectName opts) as [opts1 c1].
  pose proof (polyfillsToArray_lookup projectName opts1) as Harray.
  destruct (polyfillsToArray projectName opts1) as [opts2 c2].
  cbn [fst snd] in *. exists opts2. split; [reflexivity |].
  split; [| split; [| split; [| split]]].
  - by rewrite (Harray "main"), (Hrename "main").
  - intros main Hmain. rewrite (Harray "browser"), (Hrename "browser"), Hmain. reflexivity.
  - intros Hmain. rewrite (Harray "browser"), (Hrename "browser"), Hmain. reflexivity.
  - intros p Hp. rewrite (Harray "polyfills"), (Hrename "polyfills"), Hp. reflexivity.
  - intros key Hmain Hbrowser Hpoly. rewrite Harray.
    apply String.eqb_neq in Hmain, Hbrowser.
    destruct (String.eqb key "polyfills") eqn:Hkey.
    + apply String.eqb_eq in Hkey. subst key. rewrite (Hrename "polyfills").
      cbn [String.eqb Ascii.eqb Bool.eqb].
      destruct (opts !! "polyfills") as [[p | items | other] |] eqn:Hp; try done.
      by destruct (Hpoly p).
    + by rewrite (Hrename key), Hmain, Hbrowser.
Qed.

Lemma browser_build_options_are_converted_witness :
  let opts : gmap string Json :=
    {[ "main" := JString "src/main.ts"; "polyfills" := JString "zone.js";
       "outputPath" := JString "dist/app" ]} in
  let target := {| builder := Some "@angular-devkit/build-angular:browser";
                   options := Some opts |} in
  exists opts',
    (migrateTarget "app" ("build", target)).1.2
    = {| builder := Some "@angular-devkit/build-angular:application";
         options := Some opts' |}
    /\ opts' !! "main" = None
    /\ opts' !! "browser" = Some (JString "src/main.ts")
    /\ opts' !! "polyfills" = Some (JArray [JString "zone.js"])
    /\ opts' !! "outputPath" = Some (JString "dist/app").
Proof.
  intros opts target.
  destruct (browser_build_options_are_converted "app" target opts)
    as (opts' & Heq & Hmain & Hbrowser & _ & Hpoly & Hrest).
  - reflexivity.
  - reflexivity.
  - exists opts'. split; [exact Heq |]. split; [exact Hmain |].
    split; [apply Hbrowser; vm_compute; reflexivity |].
    split; [apply Hpoly; vm_compute; reflexivity |].
    rewrite Hrest; [vm_compute; reflexivity | done | done | done].
Defined.

(** What [removeDefaultProject] computes, by cases on the workspace file. *)
Lemma removeDefaultProject_eq ctx disk :
  removeDefaultProject ctx disk
  = let filePath := path_join (projectPath ctx) "angular.json" in
    match disk !! filePath with
    | None => (Returned [], disk)
    | Some (AngularJsonFile config) =>
        match defaultProject config with
        | None => (Returned [], disk)
        | Some _ =>
            (Returned [change "angular.json"
                         ("Removed deprecated " +:+ JsString.quoted "defaultProject"
                          +:+ " field")],
             if dryRun ctx then disk
             else <[filePath := AngularJsonFile
                      {| defaultProject := None; projects := projects config |}]> disk)
        end
    | Some _ => (Thrown (jsonSyntaxError filePath), disk)
    end.
Proof.
  unfold removeDefaultProject, readAngularJson, readFile, bind.
  cbv beta iota zeta.
  destruct (disk !! path_join (projectPath ctx) "angular.json") as [[| | config | | |] |];
    try reflexivity.
  unfold ret at 1. destruct (defaultProject config); [| reflexivity].
  destruct (dryRun ctx); reflexivity.
Qed.

(** In applied mode [removeDefaultProject] leaves a workspace without
    [defaultProject] and with the projects it had; it reports a change
    exactly when the field was there, and a second run reports nothing and
    writes nothing. *)
Theorem removeDefaultProject_removes_only_the_field ctx disk config :
  dryRun ctx = false ->
  workspaceOf disk (projectPath ctx) = Some config ->
  exists cs disk',
    removeDefaultProject ctx disk = (Returned cs, disk')
    /\ workspaceOf disk' (projectPath ctx)
       = Some {| defaultProject := None; projects := projects config |}
    /\ (cs = [] <-> defaultProject config = None)
    /\ removeDefaultProject ctx disk' = (Returned [], disk').
Proof.
  intros Hdry Hws. rewrite !removeDefaultProject_eq, Hdry. cbv zeta.
  unfold workspaceOf in *.
  destruct (disk !! path_join (projectPath ctx) "angular.json") as [[| | c | | |] |] eqn:Hd;
    try discriminate Hws.
  inversion Hws; subst c. destruct config as [[dp |] ps]; cbn [defaultProject projects].
  - eexists _, _. split; [reflexivity |].
    rewrite removeDefaultProject_eq. cbv zeta. rewrite lookup_insert_eq.
    cbn [defaultProject]. repeat split; done.
  - exists [], disk. rewrite removeDefaultProject_eq. cbv zeta. rewrite Hd.
    cbn [defaultProject]. repeat split; done.
Qed.

Lemma removeDefaultProject_removes_only_the_field_witness :
  let config := {| defaultProject := Some (JString "app");
                   projects := Some [("app", {| architect := None |})] |} in
  let disk : Disk := {[ "/app/angular.json" := AngularJsonFile config ]} in
  exists cs disk',
    removeDefaultProject (Examples.context false) disk = (Returned cs, disk')
    /\ workspaceOf disk' "/app"
       = Some {| defaultProject := None; projects := projects config |}
    /\ (cs = [] <-> defaultProject config = None)
    /\ removeDefaultProject (Examples.context false) disk' = (Returned [], disk').
Proof.
  intros config disk.
  apply (removeDefaultProject_removes_only_the_field (Examples.context false) disk config).
  - reflexivity.
  - vm_compute. reflexivity.
Defined.

Lemma dropPrefix_Some p : forall s rest,
  JsString.dropPrefix p s = Some rest -> s = p +:+ rest.
Proof.
  induction p as [| a p IH]; intros s rest; cbn [JsString.dropPrefix].
  - by intros [= ->].
  - destruct s as [| b s]; [done |].
    destruct (Ascii.eqb a b) eqn:Hab; [| done].
    apply Ascii.eqb_eq in Hab. subst b. intros H. rewrite append_cons.
    f_equal. by apply IH.
Qed.

Lemma prefix_append sub : forall s t,
  String.prefix sub s = true -> String.prefix sub (s +:+ t) = true.
Proof.
  induction sub as [| a sub IH]; intros s t; [intros _; by destruct (s +:+ t) |].
  destruct s as [| b s]; [done |]. rewrite append_cons. cbn [String.prefix].
  destruct (ascii_dec a b); [apply IH | done].
Qed.

Lemma includes_append_r sub s t :
  JsString.includes sub s = true -> JsString.includes sub (s +:+ t) = true.
Proof.
  induction s as [| c s IH].
  - cbn [JsString.includes]. intros H. destruct sub; [| discriminate H].
    destruct t; reflexivity.
  - rewrite append_cons. cbn [JsString.includes].
    intros [H | H]%orb_true_iff; apply orb_true_iff.
    + left. apply (prefix_append sub (String c s) t H).
    + right. by apply IH.
Qed.

(** A path the glob matches lies below the project directory. *)
Lemma isTypeScriptPath_below cwd path :
  isTypeScriptPath cwd path = true -> exists relative, path = cwd +:+ "/" +:+ relative.
Proof.
  unfold isTypeScriptPath, relativeTo.
  destruct (JsString.dropPrefix (cwd +:+ "/") path) as [relative |] eqn:H; [| done].
  intros _. exists relative. apply dropPrefix_Some in H. by rewrite append_assoc in H.
Qed.

Lemma in_sourceFileAt sf file :
  In sf (sourceFileAt file)
  <-> file = (filePath sf, TypeScriptFile (importDeclarations sf) (statements sf)).
Proof.
  destruct file as [path entry], sf as [p i b]. unfold sourceFileAt. cbn [fst snd].
  destruct entry; cbn [In filePath importDeclarations statements];
    split; try done; try (intros [= _ ?]; done).
  - intros [[= <- <- <-] | []]. reflexivity.
  - intros [= -> -> ->]. by left.
Qed.

Lemma in_globSync matches disk path entry :
  In (path, entry) (globSync matches disk)
  <-> disk !! path = Some entry /\ matches path = true /\ isTypeScriptEntry entry = true.
Proof.
  unfold globSync. rewrite <- list_elem_of_In, elem_of_map_to_list, map_lookup_filter_Some.
  cbn [fst snd]. rewrite andb_true_iff. tauto.
Qed.

Lemma sourceFiles_paths_distinct (files : list (string * Entry)) :
  NoDup (List.map fst files) ->
  NoDup (List.map filePath (flat_map sourceFileAt files))
  /\ forall sf, In sf (flat_map sourceFileAt files) -> In (filePath sf) (List.map fst files).
Proof.
  induction files as [| [path entry] files IH]; cbn [List.map flat_map fst].
  - intros _. split; [constructor | done].
  - intros [Hpath Hrest]%NoDup_cons. destruct (IH Hrest) as [IH1 IH2].
    unfold sourceFileAt at 1 3. cbn [snd fst].
    destruct entry; cbn [app List.map]; try (split; [exact IH1 | intros; right; auto]).
    split.
    + apply NoDup_cons. split; [| exact IH1]. cbn [filePath].
      intros Hin. apply Hpath. apply list_elem_of_In.
      apply list_elem_of_In, in_map_iff in Hin. destruct Hin as (sf & <- & Hsf).
      by apply IH2.
    + intros sf [<- | Hsf]; [by left | right; auto].
Qed.

Lemma NoDup_map_filter {A B : Type} (f : A -> B) (p : A -> bool) (l : list A) :
  NoDup (List.map f l) -> NoDup (List.map f (List.filter p l)).
Proof.
  induction l as [| x l IH]; cbn [List.map List.filter]; [done |].
  intros [Hx Hl]%NoDup_cons. destruct (p x); [| auto].
  cbn [List.map]. apply NoDup_cons. split; [| auto].
  intros Hin. apply Hx. apply list_elem_of_In. apply list_elem_of_In, in_map_iff in Hin.
  destruct Hin as (y & Hy & Hin). apply filter_In in Hin. apply in_map_iff.
  exists y. tauto.
Qed.

Lemma existsb_eqb_In (x : string) (l : list string) :
  existsb (String.eqb x) l = true <-> In x l.
Proof.
  rewrite existsb_exists. split.
  - intros (y & Hy & Heq). apply String.eqb_eq in Heq. by subst y.
  - intros Hin. exists x. split; [done | apply String.eqb_refl].
Qed.

Lemma configuredSourceFiles_spec disk paths :
  NoDup (List.map filePath (configuredSourceFiles disk paths))
  /\ forall sf, In sf (configuredSourceFiles disk paths) ->
       disk !! filePath sf = Some (TypeScriptFile (importDeclarations sf) (statements sf))
       /\ JsString.startsWith "/" (filePath sf) = true
       /\ In (filePath sf) paths.
Proof.
  unfold configuredSourceFiles.
  assert (Hone : forall path sf,
             In sf (if JsString.startsWith "/" path
                    then match disk !! path with
                         | Some entry => sourceFileAt (path, entry)
                         | None => []
                         end
                    else []) ->
             filePath sf = path
             /\ disk !! path = Some (TypeScriptFile (importDeclarations sf) (statements sf))
             /\ JsString.startsWith "/" path = true).
  { intros path sf Hsf. destruct (JsString.startsWith "/" path); [| done].
    destruct (disk !! path) as [entry |] eqn:Hlookup; [| done].
    apply in_sourceFileAt in Hsf. injection Hsf as -> ->. done. }
  pose proof (NoDup_remove_dups paths) as Hnodup.
  assert (Hsub : forall p, In p (remove_dups paths) -> In p paths).
  { intros p Hp. by apply list_elem_of_In, elem_of_remove_dups, list_elem_of_In. }
  induction (remove_dups paths) as [| path rest IH]; cbn [flat_map].
  - split; [constructor | done].
  - apply NoDup_cons in Hnodup as [Hfresh Hnodup].
    destruct (IH Hnodup (fun p Hp => Hsub p (or_intror Hp))) as [IH1 IH2].
    split.
    + rewrite List.map_app. apply NoDup_app. split; [| split; [| exact IH1]].
      * destruct (JsString.startsWith "/" path); [| constructor].
        destruct (disk !! path) as [[] |]; cbn; try constructor.
        -- by intros ?%elem_of_nil.
        -- constructor.
      * intros p Hp Hp'. apply list_elem_of_In, in_map_iff in Hp as (sf & <- & Hsf).
        apply Hone in Hsf as (Hpath & _).
        apply list_elem_of_In, in_map_iff in Hp' as (sf' & Heq & Hsf').
        apply in_flat_map in Hsf' as (path' & Hin' & Hsf').
        apply Hone in Hsf' as (Hpath' & _).
        apply Hfresh. apply list_elem_of_In. congruence.
    + intros sf [Hsf | Hsf]%in_app_or.
      * apply Hone in Hsf as (Hpath & Hdisk & Habs). subst path.
        split; [done |]. split; [done |]. apply Hsub. by left.
      * by apply IH2.
Qed.

(** What [createTsProject] loads: files of the project, each once, as the
    disk holds them. *)
Lemma createTsProject_spec projectPath disk project :
  (createTsProject projectPath disk).1 = Returned project ->
  NoDup (List.map filePath project)
  /\ inSync disk project
  /\ Forall (λ sf, isProjectFile disk projectPath (filePath sf) = true) project.
Proof.
  assert (Hadd : forall paths configured,
             configured = configuredSourceFiles disk paths ->
             (forall p, In p paths -> In p (configuredPaths disk projectPath)) ->
             let project :=
               addSourceFilesAtPaths configured
                 (globSync (isTypeScriptPath projectPath) disk) in
             NoDup (List.map filePath project)
             /\ inSync disk project
             /\ Forall (λ sf, isProjectFile disk projectPath (filePath sf) = true) project).
  { intros paths configured -> Hpaths.
    destruct (configuredSourceFiles_spec disk paths) as [Hnodup Hconfigured].
    set (configured := configuredSourceFiles disk paths) in *.
    set (added := List.filter
                    (fun file : string * Entry =>
                       negb (existsb (fun sf => String.eqb (filePath sf) file.1) configured))
                    (globSync (isTypeScriptPath projectPath) disk)).
    assert (Hadded : forall sf, In sf (flat_map sourceFileAt added) ->
               disk !! filePath sf
               = Some (TypeScriptFile (importDeclarations sf) (statements sf))
               /\ isTypeScriptPath projectPath (filePath sf) = true
               /\ ~ In (filePath sf) (List.map filePath configured)).
    { intros sf Hsf. apply in_flat_map in Hsf as ([path entry] & Hin & Hsf).
      apply in_sourceFileAt in Hsf. injection Hsf as -> ->.
      apply filter_In in Hin as [Hglob Hnew]. apply in_globSync in Hglob.
      split; [tauto |]. split; [tauto |].
      intros Hold. apply in_map_iff in Hold as (sf' & Hpath & Hsf').
      apply negb_true_iff in Hnew. cbn [fst] in Hnew.
      assert (existsb (fun sf0 => String.eqb (filePath sf0) (filePath sf)) configured = true);
        [| congruence].
      apply existsb_exists. exists sf'. split; [done |]. by apply String.eqb_eq. }
    assert (Hdistinct : NoDup (List.map filePath (flat_map sourceFileAt added))).
    { apply sourceFiles_paths_distinct. unfold added. apply NoDup_map_filter.
      unfold globSync. apply NoDup_fst_map_to_list. }
    cbn zeta. unfold addSourceFilesAtPaths. fold configured added.
    split; [| split].
    - rewrite List.map_app. apply NoDup_app. split; [exact Hnodup |].
      split; [| exact Hdistinct].
      intros p Hp Hp'. apply list_elem_of_In in Hp.
      apply list_elem_of_In, in_map_iff in Hp' as (sf & <- & Hsf).
      apply Hadded in Hsf. tauto.
    - apply Forall_forall. intros sf Hsf. apply list_elem_of_In, in_app_or in Hsf.
      destruct Hsf as [Hsf | Hsf]; [apply Hconfigured in Hsf | apply Hadded in Hsf]; tauto.
    - apply Forall_forall. intros sf Hsf. apply list_elem_of_In, in_app_or in Hsf.
      unfold isProjectFile. destruct Hsf as [Hsf | Hsf].
      + apply Hconfigured in Hsf as (-> & -> & Hin). apply orb_true_iff. right.
        cbn [andb]. apply existsb_eqb_In. by apply Hpaths.
      + apply Hadded in Hsf as (-> & -> & _). reflexivity. }
  unfold createTsProject. cbv zeta. fold (configFileOf disk projectPath).
  destruct (disk !! configFileOf disk projectPath) as [[| | | [paths |] | |] |] eqn:Hconfig;
    cbn [fst]; try discriminate; intros [= <-].
  - apply (Hadd paths); [reflexivity |]. unfold configuredPaths. by rewrite Hconfig.
  - apply (Hadd []); [reflexivity | by intros p []].
Qed.

Lemma loadSourceFiles_eq ctx disk :
  loadSourceFiles ctx disk
  = (Returned match (createTsProject (projectPath ctx) disk).1 with
              | Returned project => inr (getSourceFiles project (projectPath ctx))
              | Thrown message => inl message
              end,
     disk).
Proof.
  unfold loadSourceFiles, tryCatch, bind.
  pose proof (createTsProject_preservesDisk (projectPath ctx) disk) as Hdisk.
  destruct (createTsProject (projectPath ctx) disk) as [[project | message] disk'];
    cbn [fst snd] in *; by subst disk'.
Qed.

(** What a step gets from [createTsProject] and [getSourceFiles]. *)
Lemma loadSourceFiles_loaded ctx disk sfs disk' :
  loadSourceFiles ctx disk = (Returned (inr sfs), disk') ->
  disk' = disk
  /\ NoDup (List.map filePath sfs)
  /\ inSync disk sfs
  /\ forall sf, In sf sfs -> isProjectFile disk (projectPath ctx) (filePath sf) = true.
Proof.
  intros Hload. rewrite loadSourceFiles_eq in Hload.
  injection Hload as Hl <-. split; [reflexivity |].
  destruct (createTsProject (projectPath ctx) disk) as [[project | message] d] eqn:Hproject;
    cbn [fst] in Hl; [| discriminate Hl].
  injection Hl as <-.
  destruct (createTsProject_spec (projectPath ctx) disk project) as (Hnodup & Hsync & Hfiles).
  { by rewrite Hproject. }
  unfold getSourceFiles. split; [by apply NoDup_map_filter |]. split.
  - apply Forall_forall. intros sf Hsf. apply list_elem_of_In, filter_In in Hsf as [Hsf _].
    unfold inSync in Hsync. rewrite Forall_forall in Hsync. by apply Hsync, list_elem_of_In.
  - intros sf Hsf. apply filter_In in Hsf as [Hsf _].
    rewrite Forall_forall in Hfiles. by apply Hfiles, list_elem_of_In.
Qed.

Lemma prefix_split p : forall s,
  String.prefix p s = true -> exists rest, s = p +:+ rest.
Proof.
  induction p as [| a p IH]; intros s; [by exists s |].
  destruct s as [| b s]; [done |]. cbn [String.prefix].
  destruct (ascii_dec a b) as [<- |]; [| done].
  intros Hp. destruct (IH s Hp) as (rest & ->). exists rest. by rewrite append_cons.
Qed.

(** [getSourceFiles] hands the codemods files of the project only, and none
    whose absolute path holds [node_modules] or [/dist/].  The filter looks
    at absolute paths: for a project that itself lies in or below a
    directory called [dist], or whose path holds [node_modules], no file
    below the project path is left to migrate. *)
Theorem project_below_dist_has_no_source_files project projectPath sf :
  In sf (getSourceFiles project projectPath) ->
  In sf project
  /\ JsString.includes "node_modules" (filePath sf) = false
  /\ JsString.includes "/dist/" (filePath sf) = false
  /\ (JsString.includes "node_modules" projectPath = true
      \/ JsString.includes "/dist/" (projectPath +:+ "/") = true ->
      String.prefix (projectPath +:+ "/") (filePath sf) = false).
Proof.
  unfold getSourceFiles. rewrite filter_In, andb_true_iff, !negb_true_iff.
  intros (Hin & Hnm & Hdist). split; [exact Hin |]. split; [exact Hnm |].
  split; [exact Hdist |]. intros Hbelow.
  destruct (String.prefix (projectPath +:+ "/") (filePath sf)) eqn:Hprefix; [| done].
  exfalso. apply prefix_split in Hprefix as (rest & Hpath).
  rewrite Hpath in Hnm, Hdist. destruct Hbelow as [H | H].
  - apply (includes_append_r _ _ "/") in H.
    apply (includes_append_r _ _ rest) in H. congruence.
  - apply (includes_append_r _ _ rest) in H. congruence.
Qed.

Lemma project_below_dist_has_no_source_files_witness :
  let main := {| filePath := "/work/dist/app/src/main.ts"; importDeclarations := [];
                 statements := [] |} in
  let shared := {| filePath := "/work/shared/util.ts"; importDeclarations := [];
                   statements := [] |} in
  In shared [main; shared]
  /\ JsString.includes "node_modules" (filePath shared) = false
  /\ JsString.includes "/dist/" (filePath shared) = false
  /\ String.prefix "/work/dist/app/" (filePath shared) = false.
Proof.
  intros main shared.
  destruct (project_below_dist_has_no_source_files [main; shared] "/work/dist/app" shared)
    as (Hin & Hnm & Hdist & Hbelow).
  - vm_compute. left. reflexivity.
  - split; [exact Hin |]. split; [exact Hnm |]. split; [exact Hdist |].
    apply Hbelow. right. reflexivity.
Defined.

(** The loop of a codemod in applied mode, for a body that keeps the path of
    the file and edits it only when it sets [fileChanged]: it returns, the
    files it was given come back edited and in order, no other path of the
    disk is written, and files that were on disk as given are on disk as
    returned. *)
Lemma forEachSourceFile_saves ctx body :
  dryRun ctx = false ->
  (forall sf, filePath (FileEdit.sourceFile (body sf)) = filePath sf) ->
  (forall sf, FileEdit.fileChanged (body sf) = false -> FileEdit.sourceFile (body sf) = sf) ->
  forall sfs disk,
    NoDup (List.map filePath sfs) ->
    exists r disk',
      forEachSourceFile ctx body sfs disk = (Returned r, disk')
      /\ Codemod.sourceFiles r = List.map (λ sf, FileEdit.sourceFile (body sf)) sfs
      /\ (forall path, ~ In path (List.map filePath sfs) -> disk' !! path = disk !! path)
      /\ (inSync disk sfs -> inSync disk' (Codemod.sourceFiles r)).
Proof.
  intros Hdry Hpath Hflag. induction sfs as [| sf rest IH]; intros disk Hnodup.
  - exists (Codemod.mk [] [] []), disk. repeat split; done.
  - cbn [List.map] in Hnodup. apply NoDup_cons in Hnodup. destruct Hnodup as [Hfresh Hnodup].
    cbn [forEachSourceFile]. cbv zeta. rewrite Hdry, andb_true_r.
    set (e := body sf) in *.
    set (disk1 := if FileEdit.fileChanged e
                  then <[filePath (FileEdit.sourceFile e)
                         := TypeScriptFile (importDeclarations (FileEdit.sourceFile e))
                              (statements (FileEdit.sourceFile e))]> disk
                  else disk).
    destruct (IH disk1 Hnodup) as (r & disk' & Hrun & Hfiles & Hframe & Hsync).
    exists (Codemod.mk (FileEdit.sourceFile e :: Codemod.sourceFiles r)
              (FileEdit.changes e ++ Codemod.changes r)
              (FileEdit.warnings e ++ Codemod.warnings r)), disk'.
    assert (Hhead : ~ In (filePath sf) (List.map filePath rest))
      by (intros H; apply Hfresh; by apply list_elem_of_In).
    split; [| split; [| split]].
    + unfold bind, saveSync, writeFileSync, ret. fold disk1.
      destruct (FileEdit.fileChanged e); unfold disk1 in *; rewrite Hrun; reflexivity.
    + cbn [Codemod.sourceFiles List.map]. by rewrite Hfiles.
    + intros path Hout. cbn [List.map In] in Hout.
      rewrite Hframe by tauto. unfold disk1.
      destruct (FileEdit.fileChanged e); [| done].
      apply lookup_insert_ne. unfold e. rewrite Hpath. tauto.
    + intros Hin. apply Forall_cons in Hin. destruct Hin as [Hsf Hrest].
      cbn [Codemod.sourceFiles]. apply Forall_cons. split.
      * unfold e at 1. rewrite Hpath, Hframe by done. unfold disk1.
        destruct (FileEdit.fileChanged e) eqn:Hchanged.
        -- rewrite <- (Hpath sf). apply lookup_insert_eq.
        -- unfold e in *. by rewrite (Hflag sf Hchanged).
      * apply Hsync. apply Forall_forall. intros sf' Hsf'.
        rewrite Forall_forall in Hrest. unfold disk1.
        destruct (FileEdit.fileChanged e); [| by apply Hrest].
        rewrite lookup_insert_ne; [by apply Hrest |].
        unfold e. rewrite Hpath. intros Heq. apply Hhead. rewrite Heq.
        apply in_map, list_elem_of_In, Hsf'.
Qed.

Lemma list_sum_zero (l : list nat) : list_sum l = 0%nat -> Forall (λ n, n = 0%nat) l.
Proof.
  induction l as [| n l IH]; [constructor |].
  change (list_sum (n :: l)) with (n + list_sum l)%nat.
  intros H. constructor; [lia | apply IH; lia].
Qed.

Lemma mapCollect_unchanged {A O} (f : A -> A * list O) xs :
  (forall x, (f x).2 = [] -> (f x).1 = x) ->
  (mapCollect f xs).2 = [] -> (mapCollect f xs).1 = xs.
Proof.
  intros Hf. rewrite mapCollect_fst, mapCollect_snd.
  induction xs as [| x xs IH]; [done |]. cbn [List.map List.concat].
  intros [Hx Hxs]%app_eq_nil. rewrite Hf, IH by done. reflexivity.
Qed.

Lemma forEachDecorator_unchanged {O} (f : Node -> Node * list O) cls :
  (forall dec, (f dec).2 = [] -> (f dec).1 = dec) ->
  (forEachDecorator f cls).2 = [] -> (forEachDecorator f cls).1 = cls.
Proof.
  intros Hf. unfold forEachDecorator.
  pose proof (mapCollect_unchanged
                (fun c => if isKind Decorator c then f c else (c, [])) (children cls)) as H.
  destruct (mapCollect _ (children cls)) as [cs out]. cbn [fst snd] in *.
  intros ->. rewrite H; [by destruct cls | | done].
  intros c. destruct (isKind Decorator c); [apply Hf | done].
Qed.

Lemma forEachClass_unchanged {O} (f : Node -> Node * list O) stmts :
  (forall cls, (f cls).2 = [] -> (f cls).1 = cls) ->
  (forEachClass f stmts).2 = [] -> (forEachClass f stmts).1 = stmts.
Proof.
  intros Hf. unfold forEachClass. apply mapCollect_unchanged.
  intros s. destruct (isKind ClassDeclaration s); [apply Hf | done].
Qed.

Lemma addStandaloneFalse_decorator_unchanged file className dec :
  (addStandaloneFalse_decorator file className dec).2 = [] ->
  (addStandaloneFalse_decorator file className dec).1 = dec.
Proof.
  unfold addStandaloneFalse_decorator.
  destruct (negb (existsb (String.eqb (Decorator_getName dec)) standaloneDecorators));
    [done |].
  destruct (Decorator_getArguments dec) as [| arg args]; [done |].
  destruct (negb (isKind ObjectLiteralExpression arg)); [done |].
  destruct (hasStandalone arg); [done | discriminate].
Qed.

Lemma codemodBody_keeps_path call sf :
  filePath (FileEdit.sourceFile (codemodBody call sf)) = filePath sf.
Proof.
  destruct call; cbn [codemodBody];
    unfold renameNamedImport_file, removeObsoleteImport_file,
      migrateCanLoadToCanMatch_file, ensureModuleWithProvidersGeneric_file,
      addStandaloneFalse_file;
    try (destruct (existsb _ (importDeclarations sf)); reflexivity);
    try reflexivity.
  destruct (forEachClass _ (statements sf)). reflexivity.
Qed.

Lemma codemodBody_flags_its_edits call sf :
  FileEdit.fileChanged (codemodBody call sf) = false ->
  FileEdit.sourceFile (codemodBody call sf) = sf.
Proof.
  destruct call; cbn [codemodBody];
    unfold renameNamedImport_file, removeObsoleteImport_file,
      migrateCanLoadToCanMatch_file, ensureModuleWithProvidersGeneric_file;
    try (destruct (existsb _ (importDeclarations sf)); [discriminate | reflexivity]);
    try reflexivity.
  unfold addStandaloneFalse_file.
  pose proof (forEachClass_unchanged (addStandaloneFalse_class (filePath sf))
                (statements sf)) as H.
  destruct (forEachClass _ (statements sf)) as [stmts changes].
  cbn [FileEdit.fileChanged FileEdit.sourceFile fst snd] in *.
  intros Hlen%negb_false_iff%length_zero_nil. rewrite H; [by destruct sf | | done].
  intros cls. unfold addStandaloneFalse_class. apply forEachDecorator_unchanged.
  intros dec. apply addStandaloneFalse_decorator_unchanged.
Qed.




(** The loop of a codemod always returns: the files as its body leaves
    them, and what the body pushed for each, in order. *)
Lemma forEachSourceFile_returns ctx body sfs disk :
  exists disk',
    forEachSourceFile ctx body sfs disk
    = (Returned (Codemod.mk (List.map (λ sf, FileEdit.sourceFile (body sf)) sfs)
                   (flat_map (λ sf, FileEdit.changes (body sf)) sfs)
                   (flat_map (λ sf, FileEdit.warnings (body sf)) sfs)),
       disk').
Proof.
  revert disk. induction sfs as [| sf rest IH]; intros disk.
  - exists disk. reflexivity.
  - cbn [forEachSourceFile]. cbv zeta. unfold bind at 1.
    destruct ((if (FileEdit.fileChanged (body sf) && negb (dryRun ctx))%bool
               then saveSync (FileEdit.sourceFile (body sf)) else ret tt) disk)
      as [[[] | e] disk1] eqn:Hsave.
    + destruct (IH disk1) as (disk' & Hrest). exists disk'.
      unfold bind. rewrite Hrest. reflexivity.
    + exfalso. destruct (FileEdit.fileChanged (body sf) && negb (dryRun ctx))%bool;
        discriminate Hsave.
Qed.

Lemma removeObsoleteImport_file_spec moduleName symbolName sf :
  let e := removeObsoleteImport_file moduleName symbolName sf in
  filePath (FileEdit.sourceFile e) = filePath sf
  /\ statements (FileEdit.sourceFile e) = statements sf
  /\ List.map Change.file (FileEdit.changes e)
     = (if isImportedFrom moduleName symbolName sf then [filePath sf] else [])
  /\ List.map Warning.file (FileEdit.warnings e)
     = (if isImportedFrom moduleName symbolName sf then [filePath sf] else [])
  /\ (if isImportedFrom moduleName symbolName sf
      then S (countBindings moduleName symbolName
                (importDeclarations (FileEdit.sourceFile e)))
           = countBindings moduleName symbolName (importDeclarations sf)
      else FileEdit.sourceFile e = sf).
Proof.
  unfold removeObsoleteImport_file, isImportedFrom.
  destruct (existsb (importsFrom moduleName symbolName) (importDeclarations sf)) eqn:Himp;
    cbn [FileEdit.sourceFile FileEdit.changes FileEdit.warnings FileEdit.unchanged
         withImports filePath statements importDeclarations List.map];
    repeat split; try reflexivity.
  by apply countBindings_after_removal.
Qed.

(** [removeObsoleteImport] pushes one change and one warning, under the
    path of the file, for each file that imports the symbol from the
    module, in the order of the files; in such a file one named import of
    the symbol is gone, every other file is left as it was, and no file's
    statements are touched. *)
Theorem removeObsoleteImport_reports_each_importing_file
    sourceFiles moduleName symbolName ctx disk :
  exists r disk',
    removeObsoleteImport sourceFiles moduleName symbolName ctx disk = (Returned r, disk')
    /\ List.map Change.file (Codemod.changes r)
       = List.map filePath (List.filter (isImportedFrom moduleName symbolName) sourceFiles)
    /\ List.map Warning.file (Codemod.warnings r)
       = List.map filePath (List.filter (isImportedFrom moduleName symbolName) sourceFiles)
    /\ Forall2 (λ sf sf',
                  filePath sf' = filePath sf
                  /\ statements sf' = statements sf
                  /\ if isImportedFrom moduleName symbolName sf
                     then S (countBindings moduleName symbolName (importDeclarations sf'))
                          = countBindings moduleName symbolName (importDeclarations sf)
                     else sf' = sf)
         sourceFiles (Codemod.sourceFiles r).
Proof.
  unfold removeObsoleteImport.
  destruct (forEachSourceFile_returns ctx
              (removeObsoleteImport_file moduleName symbolName) sourceFiles disk)
    as (disk' & Hrun).
  eexists _, disk'. split; [exact Hrun |].
  cbn [Codemod.changes Codemod.warnings Codemod.sourceFiles]. clear Hrun.
  induction sourceFiles as [| sf rest (IHc & IHw & IHf)];
    [repeat split; constructor |].
  destruct (removeObsoleteImport_file_spec moduleName symbolName sf)
    as (Hpath & Hstmts & Hc & Hw & Hcount). cbv zeta in *.
  cbn [flat_map List.map List.filter]. rewrite !List.map_app, Hc, Hw, IHc, IHw.
  split; [| split; [| constructor; [done | exact IHf]]];
    destruct (isImportedFrom moduleName symbolName sf); reflexivity.
Qed.

Lemma editFirst_at {A : Type} (p : A -> bool) (f : A -> option A) pre x post :
  forallb (λ y, negb (p y)) pre = true ->
  p x = true ->
  editFirst p f (pre ++ x :: post)
  = pre ++ match f x with Some y => y :: post | None => post end.
Proof.
  intros Hpre Hx. induction pre as [| y pre IH]; cbn [app editFirst].
  - by rewrite Hx.
  - cbn [forallb] in Hpre. apply andb_true_iff in Hpre. destruct Hpre as [Hy Hpre].
    apply negb_true_iff in Hy. rewrite Hy, IH by done. reflexivity.
Qed.

(** When the symbol is the only named import of the first declaration that
    imports it from the module, [removeObsoleteImport] removes the whole
    declaration: a default import that the declaration also made is
    removed with it. *)
Theorem removeObsoleteImport_drops_the_whole_declaration
    moduleName symbolName sf pre imp post :
  importDeclarations sf = pre ++ imp :: post ->
  forallb (λ d, negb (importsFrom moduleName symbolName d)) pre = true ->
  importsFrom moduleName symbolName imp = true ->
  length (namedImports imp) = 1%nat ->
  importDeclarations
    (FileEdit.sourceFile (removeObsoleteImport_file moduleName symbolName sf))
  = pre ++ post.
Proof.
  intros Himports Hpre Himp Hone. unfold removeObsoleteImport_file.
  assert (Hfound : existsb (importsFrom moduleName symbolName) (importDeclarations sf) = true).
  { rewrite Himports, existsb_app. cbn [existsb]. rewrite Himp.
    by rewrite orb_true_r. }
  rewrite Hfound. cbn [FileEdit.sourceFile withImports importDeclarations].
  rewrite Himports, editFirst_at by done.
  unfold removeNamedImport. by rewrite Hone.
Qed.

Lemma removeObsoleteImport_drops_the_whole_declaration_witness :
  let imp := {| moduleSpecifier := "@angular/core"; defaultImport := Some "ng";
                namedImports := [{| importedName := "ReflectiveInjector"; alias := None |}] |} in
  let sf := {| filePath := "/app/src/main.ts"; importDeclarations := [imp];
               statements := [identifier "ng"] |} in
  importDeclarations
    (FileEdit.sourceFile (removeObsoleteImport_file "@angular/core" "ReflectiveInjector" sf))
  = [].
Proof.
  intros imp sf.
  apply (removeObsoleteImport_drops_the_whole_declaration
           "@angular/core" "ReflectiveInjector" sf [] imp []).
  - reflexivity.
  - reflexivity.
  - reflexivity.
  - reflexivity.
Defined.

(** [migrate] writes to the disk only when it runs steps: when it throws
    (no project directory, no readable version), finds the project already
    at the target version, or selects no step, the disk is left as it was,
    and no report is written. *)
Theorem migrate_writes_only_when_steps_run removeDominoSetup options now disk :
  (exists allResults,
      (migrate removeDominoSetup options now disk).1 = Returned (Completed allResults))
  \/ (migrate removeDominoSetup options now disk).2 = disk.
Proof.
  unfold migrate. cbv zeta.
  destruct (disk !! path_resolve (MigratorOptions.projectPath options)) as [entry |] eqn:Hentry.
  2: { right. rewrite (bind_eq _ _ disk None disk) by (unfold readFile; by rewrite Hentry).
       reflexivity. }
  rewrite (bind_eq _ _ disk (Some entry) disk) by (unfold readFile; by rewrite Hentry).
  pose proof (resolveCurrentVersion_preservesDisk options disk) as Hdisk.
  destruct (resolveCurrentVersion options disk) as [[currentVersion | e] disk1] eqn:Hversion;
    cbn [snd] in Hdisk; subst disk1.
  2: { right. rewrite (bind_thrown _ _ disk e disk) by done. reflexivity. }
  rewrite (bind_eq _ _ disk currentVersion disk) by done.
  destruct (currentVersion >=? default 19 (MigratorOptions.toVersion options));
    [right; reflexivity |].
  destruct (Nat.eqb (length (stepsToRun removeDominoSetup currentVersion
                               (default 19 (MigratorOptions.toVersion options)))) 0);
    [right; reflexivity |].
  left.
  destruct (runSteps_trace
              (stepContext
                 (path_resolve (MigratorOptions.projectPath options))
                 (default false (MigratorOptions.dryRun options))
                 (default false (MigratorOptions.skipPackageJson options)))
              (stepsToRun removeDominoSetup currentVersion
                 (default 19 (MigratorOptions.toVersion options))) disk)
    as (rs & disk2 & Hrun & _).
  exists rs. rewrite (bind_eq _ _ disk rs disk2) by done. reflexivity.
Qed.

(** For versions the tool knows, the selected steps form an unbroken
    chain: one step for each version from the current one up to the target,
    each starting where the one before it ended. *)
Theorem selected_steps_form_a_chain removeDominoSetup currentVersion toVersion :
  15 <= currentVersion -> currentVersion < toVersion -> toVersion <= 19 ->
  List.map (λ s, (from s, to s)) (stepsToRun removeDominoSetup currentVersion toVersion)
  = List.map (λ k, (currentVersion + Z.of_nat k, currentVersion + Z.of_nat k + 1))
      (seq 0 (Z.to_nat (toVersion - currentVersion))).
Proof.
  intros Hlow Hlt Hhigh.
  assert (Hcur : currentVersion = 15 \/ currentVersion = 16 \/ currentVersion = 17
                 \/ currentVersion = 18) by lia.
  assert (Hto : toVersion = 16 \/ toVersion = 17 \/ toVersion = 18 \/ toVersion = 19) by lia.
  destruct Hcur as [-> | [-> | [-> | ->]]], Hto as [-> | [-> | [-> | ->]]];
    try lia; reflexivity.
Qed.

Lemma selected_steps_form_a_chain_witness :
  List.map (λ s, (from s, to s)) (stepsToRun noDominoSetup 16 18) = [(16, 17); (17, 18)].
Proof.
  apply (selected_steps_form_a_chain noDominoSetup 16 18); lia.
Defined.

(** Versions outside the range of the declared steps are not refused: a
    project older than Angular 15 is migrated as if it were on 15, and a
    target above 19 as if it were 19. *)
Theorem step_selection_clamps_the_versions removeDominoSetup currentVersion toVersion :
  stepsToRun removeDominoSetup currentVersion toVersion
  = stepsToRun removeDominoSetup (Z.max 15 currentVersion) (Z.min 19 toVersion).
Proof.
  unfold stepsToRun. apply List.filter_ext_in. intros s Hs.
  assert (Hrange : 15 <= from s /\ to s <= 19).
  { unfold ALL_STEPS in Hs. cbn [In] in Hs.
    destruct Hs as [<- | [<- | [<- | [<- | []]]]]; cbn [from to v15ToV16 v16ToV17 v17ToV18
      v18ToV19]; lia. }
  destruct Hrange as [Hlow Hhigh].
  destruct (Z.geb_spec (from s) currentVersion), (Z.leb_spec (to s) toVersion),
    (Z.geb_spec (from s) (Z.max 15 currentVersion)),
    (Z.leb_spec (to s) (Z.min 19 toVersion)); cbn [andb]; try reflexivity; lia.
Qed.

Lemma removeFirst_prefix needle rest :
  JsString.removeFirst needle (needle +:+ rest) = rest.
Proof.
  assert (Hdrop : forall p s, JsString.dropPrefix p (p +:+ s) = Some s).
  { clear. induction p as [| c p IH]; intros s; [by destruct s |].
    rewrite append_cons. cbn [JsString.dropPrefix]. by rewrite Ascii.eqb_refl. }
  specialize (Hdrop needle rest).
  destruct (needle +:+ rest); cbn [JsString.removeFirst]; by rewrite Hdrop.
Qed.

(** The report names a file below the project by its relative path. *)
Lemma shortFile_path_join projectPath relative :
  shortFile projectPath (path_join projectPath relative) = relative.
Proof.
  unfold shortFile, path_join. rewrite removeFirst_prefix. reflexivity.
Qed.

(** The names under which the steps file what is not a source file are
    printed as they are: an absolute project path does not occur in them. *)
Lemma shortFile_bare_name projectPath name :
  String.prefix "/" projectPath = true ->
  In name ["package.json"; "angular.json"; "tsconfig.json"] ->
  shortFile projectPath name = name.
Proof.
  intros Habsolute Hname.
  destruct projectPath as [| c rest]; [discriminate Habsolute |].
  assert (Hc : c = "/"%char).
  { cbn in Habsolute. destruct (Ascii.eqb_spec c "/"); [done |].
    destruct c as [[] [] [] [] [] [] [] []]; cbn in Habsolute; congruence. }
  subst c. cbn [In] in Hname.
  destruct Hname as [<- | [<- | [<- | []]]]; reflexivity.
Qed.

(** Every change and every warning of every result is printed in the
    report: a change as a line with the file it is filed under and its
    description, followed by its before and after values when it has both;
    a warning as a line with its file, its line number when it has one,
    and its message.  The file is printed without the project path: a file
    below the project by its relative path, the bare names [package.json],
    [angular.json] and [tsconfig.json] as they are. *)
Theorem report_lists_changes_and_warnings projectPath rs preview now r :
  In r rs ->
  let report := reportLines projectPath rs preview now in
  (forall c, In c (changes r) ->
      In ("- **" +:+ shortFile projectPath (Change.file c) +:+ "**: "
          +:+ Change.description c) report
      /\ forall before after,
           Change.before c = Some before -> Change.after c = Some after ->
           before <> EmptyString -> after <> EmptyString ->
           In ("  - Before: `" +:+ before +:+ "`") report
           /\ In ("  - After: `" +:+ after +:+ "`") report)
  /\ (forall w, In w (warnings r) ->
        In ("- **" +:+ shortFile projectPath (Warning.file w)
            +:+ match Warning.line w with
                | Some (S n) => ":" +:+ JsString.ofNat (S n)
                | _ => EmptyString
                end
            +:+ "**: " +:+ Warning.message w) report)
  /\ (forall relative, shortFile projectPath (path_join projectPath relative) = relative)
  /\ (String.prefix "/" projectPath = true ->
      forall name, In name ["package.json"; "angular.json"; "tsconfig.json"] ->
                   shortFile projectPath name = name).
Proof.
  intros Hin report. split; [| split; [| split]].
  - intros c Hc.
    assert (Hlines : forall line, In line (reportChange projectPath c) -> In line report).
    { intros line Hline. unfold report, reportLines. apply in_or_app. right.
      apply in_flat_map. exists r. split; [done |]. unfold reportSection.
      apply in_or_app. right. apply in_or_app. left.
      destruct (changes r) as [| c0 cs] eqn:Hchanges; [done |].
      cbn [length Nat.ltb Nat.leb]. apply in_or_app. right. apply in_or_app. left.
      apply in_flat_map. exists c. split; [done | exact Hline]. }
    split.
    + apply Hlines. unfold reportChange.
      destruct (isTruthy (Change.before c) && isTruthy (Change.after c))%bool; by left.
    + intros before after Hbefore Hafter Hb Ha.
      assert (Hboth : (isTruthy (Change.before c) && isTruthy (Change.after c))%bool = true).
      { rewrite Hbefore, Hafter. cbn [isTruthy].
        apply String.eqb_neq in Hb, Ha. by rewrite Hb, Ha. }
      split; apply Hlines; unfold reportChange; rewrite Hboth, Hbefore, Hafter;
        cbn [default from_option id].
      * right. by left.
      * right. right. by left.
  - intros w Hw. unfold report, reportLines. apply in_or_app. right.
    apply in_flat_map. exists r. split; [done |]. unfold reportSection.
    apply in_or_app. right. apply in_or_app. right. apply in_or_app. left.
    destruct (warnings r) as [| w0 ws] eqn:Hwarnings; [done |].
    cbn [length Nat.ltb Nat.leb]. apply in_or_app. right. apply in_or_app. left.
    apply in_flat_map. exists w. split; [done |].
    unfold reportWarning. destruct (Warning.line w) as [[| n] |]; left; reflexivity.
  - apply shortFile_path_join.
  - intros Habsolute name Hname. by apply shortFile_bare_name.
Qed.

Lemma report_lists_changes_and_warnings_witness :
  let c := Change.mk "package.json" "dependencies: @angular/core ^17.0.0 to ^18.2.0"
             (Some "^17.0.0") (Some "^18.2.0") in
  let r := {| step := "Angular 17 → 18"; changes := [c]; warnings := []; errors := [] |} in
  In "- **package.json**: dependencies: @angular/core ^17.0.0 to ^18.2.0"
    (reportLines "/app" [r] false Examples.now)
  /\ In "  - Before: `^17.0.0`" (reportLines "/app" [r] false Examples.now)
  /\ In "  - After: `^18.2.0`" (reportLines "/app" [r] false Examples.now).
Proof.
  intros c r.
  destruct (report_lists_changes_and_warnings "/app" [r] false Examples.now r
              (or_introl eq_refl)) as (Hchanges & _).
  destruct (Hchanges c (or_introl eq_refl)) as (Hheadline & Hvalues).
  split; [exact Hheadline |].
  apply (Hvalues "^17.0.0" "^18.2.0"); [reflexivity | reflexivity | discriminate | discriminate].
Defined.































Lemma endsWith_inv suffix s :
  JsString.endsWith suffix s = true -> exists pre, s = pre +:+ suffix.
Proof.
  induction s as [| c s IH]; cbn [JsString.endsWith].
  - destruct (String.eqb EmptyString suffix) eqn:Heq; [| done].
    apply String.eqb_eq in Heq. subst suffix. by exists EmptyString.
  - destruct (String.eqb (String c s) suffix) eqn:Heq.
    + apply String.eqb_eq in Heq. subst suffix. by exists EmptyString.
    + intros H. destruct (IH H) as (pre & ->). exists (String c pre).
      by rewrite append_cons.
Qed.

Lemma endsWith_append pre suffix : JsString.endsWith suffix (pre +:+ suffix) = true.
Proof.
  induction pre as [| c pre IH].
  - change (EmptyString +:+ suffix) with suffix.
    destruct suffix; cbn [JsString.endsWith]; by rewrite String.eqb_refl.
  - rewrite append_cons. cbn [JsString.endsWith].
    destruct (String.eqb _ suffix); [done | exact IH].
Qed.





(** ** The files of the project stay the same while it is migrated *)





















Lemma keepsResult_ret P st : P (result st) -> keepsResult P (ret st).
Proof. intros H disk st' disk' Heq. by inversion Heq; subst. Qed.

Lemma keepsResult_bind {A : Type} P (c : IO A) (k : A -> IO StepState) :
  (forall a, keepsResult P (k a)) -> keepsResult P (bind c k).
Proof.
  intros Hk disk st disk' H. apply bind_returned in H as (a & disk1 & _ & H).
  by eapply Hk.
Qed.

Lemma keepsResult_applyCodemod P codemod report st (k : StepState -> IO StepState) :
  (forall r res, P res -> P (report r res)) ->
  P (result st) ->
  (forall st1, P (result st1) -> keepsResult P (k st1)) ->
  keepsResult P (bind (applyCodemod codemod report st) k).
Proof.
  intros Hreport Hst Hk disk st' disk' H.
  apply bind_returned in H as (st1 & disk1 & Hc & H).
  unfold applyCodemod in Hc. apply bind_returned in Hc as (r & disk2 & _ & Hc).
  inversion Hc; subst. eapply Hk; [| done]. cbn [result]. by apply Hreport.
Qed.

Ltac no_errors_side :=
  cbn [result errors pushChanges pushWarnings scan warn reportChanges reportWarnings
       reportAll reportWithMessage reportNothing];
  repeat match goal with
         | |- context [if ?b then _ else _] =>
             destruct b;
             cbn [result errors pushChanges pushWarnings scan warn]
         end;
  first [ assumption | intros; assumption ].

Ltac keeps_no_errors :=
  repeat first
    [ apply keepsResult_ret; no_errors_side
    | apply keepsResult_applyCodemod; [ intros ? ? ?; no_errors_side | no_errors_side
                                      | intros ? ? ]
    | apply keepsResult_bind; intros ? ].

Lemma v15ToV16_codemods_no_errors ctx st :
  errors (result st) = [] ->
  keepsResult (λ r, errors r = []) (v15ToV16_codemods ctx st).
Proof. intros Hst. unfold v15ToV16_codemods. keeps_no_errors. Qed.

Lemma v16ToV17_codemods_no_errors removeDominoSetup ctx st :
  errors (result st) = [] ->
  keepsResult (λ r, errors r = []) (v16ToV17_codemods removeDominoSetup ctx st).
Proof. intros Hst. unfold v16ToV17_codemods. keeps_no_errors. Qed.

Lemma v17ToV18_codemods_no_errors ctx st :
  errors (result st) = [] ->
  keepsResult (λ r, errors r = []) (v17ToV18_codemods ctx st).
Proof. intros Hst. unfold v17ToV18_codemods. keeps_no_errors. Qed.

Lemma v18ToV19_codemods_no_errors ctx st :
  errors (result st) = [] ->
  keepsResult (λ r, errors r = []) (v18ToV19_codemods ctx st).
Proof. intros Hst. unfold v18ToV19_codemods. keeps_no_errors. Qed.

(** No step pushes to [errors]: a result that a step returns has none. *)
Lemma run_returns_no_errors removeDominoSetup s ctx disk r disk' :
  In s (ALL_STEPS removeDominoSetup) ->
  run s ctx disk = (Returned r, disk') -> errors r = [].
Proof.
  intros Hin H.
  assert (Hload : forall res (body : StepState -> IO StepState) d r0 d0,
             errors res = [] ->
             (forall st, errors (result st) = [] ->
                         keepsResult (λ r, errors r = []) (body st)) ->
             bind (loadSourceFiles ctx)
               (fun loaded => match loaded with
                              | inl e => ret (projectLoadFailed res e)
                              | inr sfs =>
                                  bind (body {| sourceFiles := sfs; result := res |})
                                    (fun st => ret (result st))
                              end) d = (Returned r0, d0) ->
             errors r0 = []).
  { intros res body d r0 d0 Hres Hbody H0.
    apply bind_returned in H0 as ([e | sfs] & d1 & _ & H0).
    - inversion H0. exact Hres.
    - apply bind_returned in H0 as (st & d2 & Hst & H0). inversion H0; subst.
      by apply Hbody in Hst. }
  unfold ALL_STEPS in Hin. cbn [In] in Hin.
  destruct Hin as [<- | [<- | [<- | [<- | []]]]]; cbn [run v15ToV16 v16ToV17 v17ToV18
    v18ToV19] in H.
  - unfold v15ToV16_run in H. apply bind_returned in H as (cs & d1 & _ & H).
    eapply Hload in H; [done | done | apply v15ToV16_codemods_no_errors].
  - unfold v16ToV17_run in H.
    do 5 (apply bind_returned in H as (? & ? & _ & H)).
    eapply Hload in H; [done | done | apply v16ToV17_codemods_no_errors].
  - unfold v17ToV18_run in H. apply bind_returned in H as (cs & d1 & _ & H).
    eapply Hload in H; [done | done | apply v17ToV18_codemods_no_errors].
  - unfold v18ToV19_run in H. apply bind_returned in H as (cs & d1 & _ & H).
    eapply Hload in H; [done | done | apply v18ToV19_codemods_no_errors].
Qed.

Lemma StepsTrace_cleanOrFailed removeDominoSetup context steps disk rs disk' :
  (forall s, In s steps -> In s (ALL_STEPS removeDominoSetup)) ->
  StepsTrace context steps disk rs disk' ->
  Forall cleanOrFailed rs.
Proof.
  intros Hsteps Htrace.
  induction Htrace as [disk | s rest disk r disk1 rs disk2 Hrun _ IH
                       | s rest disk err disk1 rs disk2 Hrun _ IH].
  - constructor.
  - constructor; [| apply IH; intros s' Hs'; apply Hsteps; by right].
    left. apply (run_returns_no_errors removeDominoSetup s (context s) disk r disk1);
      [apply Hsteps; by left | exact Hrun].
  - constructor; [| apply IH; intros s' Hs'; apply Hsteps; by right].
    right. unfold failedResult. cbn [changes warnings errors]. eauto.
Qed.

(** What [migrate] did when it ran steps: the trace of the loop over the
    selected steps. *)
Lemma migrate_completed removeDominoSetup options now disk rs disk' :
  migrate removeDominoSetup options now disk = (Returned (Completed rs), disk') ->
  exists currentVersion disk2,
    StepsTrace
      (stepContext (path_resolve (MigratorOptions.projectPath options))
         (default false (MigratorOptions.dryRun options))
         (default false (MigratorOptions.skipPackageJson options)))
      (stepsToRun removeDominoSetup currentVersion
         (default 19 (MigratorOptions.toVersion options)))
      disk rs disk2.
Proof.
  unfold migrate. cbv zeta. intros H.
  apply bind_returned in H as ([entry |] & d0 & Hread & H); [| discriminate H].
  unfold readFile in Hread. injection Hread as _ <-.
  apply bind_returned in H as (currentVersion & d1 & Hversion & H).
  pose proof (resolveCurrentVersion_preservesDisk options disk) as Hsame.
  rewrite Hversion in Hsame. cbn [snd] in Hsame. subst d1.
  destruct (currentVersion >=? default 19 (MigratorOptions.toVersion options));
    [discriminate H |].
  destruct (Nat.eqb _ 0); [discriminate H |].
  apply bind_returned in H as (rs0 & d2 & Hrun & H).
  apply bind_returned in H as ([] & d3 & _ & H). injection H as <- _.
  exists currentVersion, d2.
  destruct (runSteps_trace
              (stepContext (path_resolve (MigratorOptions.projectPath options))
                 (default false (MigratorOptions.dryRun options))
                 (default false (MigratorOptions.skipPackageJson options)))
              (stepsToRun removeDominoSetup currentVersion
                 (default 19 (MigratorOptions.toVersion options))) disk)
    as (rs1 & d4 & Hrun1 & Htrace).
  rewrite Hrun in Hrun1. injection Hrun1 as <- <-. exact Htrace.
Qed.

(** Errors come from the orchestrator only: every result of a completed
    migration either has no error, or is the record of a step that threw,
    with no change, no warning and the one error filed under [migrator]. *)
Theorem errors_are_recorded_only_for_thrown_steps removeDominoSetup options now disk rs disk' :
  migrate removeDominoSetup options now disk = (Returned (Completed rs), disk') ->
  Forall cleanOrFailed rs.
Proof.
  intros H. apply migrate_completed in H as (currentVersion & disk2 & Htrace).
  apply (StepsTrace_cleanOrFailed removeDominoSetup _ _ _ _ _
           (fun s Hs => stepsToRun_declared removeDominoSetup _ _ s Hs) Htrace).
Qed.

Lemma errors_are_recorded_only_for_thrown_steps_witness :
  Forall cleanOrFailed
    (resultsOf (migrate noDominoSetup (Examples.options (Some 17) (Some 18) false)
                  Examples.now Examples.bareProject)).
Proof.
  set (outcome := migrate noDominoSetup (Examples.options (Some 17) (Some 18) false)
                    Examples.now Examples.bareProject).
  apply (errors_are_recorded_only_for_thrown_steps noDominoSetup
           (Examples.options (Some 17) (Some 18) false) Examples.now Examples.bareProject
           (resultsOf outcome) outcome.2).
  vm_compute. reflexivity.
Defined.






Lemma loadSourceFiles_after_write_to_manifest ctx disk pkg' :
  manifestOf disk (projectPath ctx) <> None ->
  (loadSourceFiles ctx
     (<[path_join (projectPath ctx) "package.json" := PackageJsonFile pkg']> disk)).1
  = (loadSourceFiles ctx disk).1.
Proof.
  unfold manifestOf. intros Hpkg.
  destruct (disk !! path_join (projectPath ctx) "package.json") as [[| pkg | | | |] |] eqn:Hd;
    try done.
  by apply (loadSourceFiles_after_manifest_write ctx disk pkg pkg').
Qed.

Lemma updatePackageVersions_changes_in_manifest ctx updates disk cs disk' :
  updatePackageVersions ctx updates disk = (Returned cs, disk') ->
  Forall (λ c, Change.file c = "package.json") cs.
Proof.
  rewrite updatePackageVersions_eq.
  destruct (skipPackageJson ctx); [intros H; inversion H; constructor |].
  cbv zeta.
  destruct (disk !! path_join (projectPath ctx) "package.json") as [[| p | | | |] |];
    try discriminate.
  intros H.
  destruct (updateSections_changes_file updates sections p []) as (new & Hnew & Hall).
  injection H as Hcs _.
  change ((fold_left (updateSection updates) sections (p, [])).2 = cs) in Hcs.
  rewrite Hnew in Hcs. subst cs. exact Hall.
Qed.

(** A project whose TypeScript configuration cannot be loaded: each of
    the steps 15 → 16, 17 → 18 and 18 → 19 still returns; its result holds
    changes of the manifest only, as its only warning that the project
    could not be loaded, and no error; no codemod runs, so nothing but the
    manifest is written. *)
Theorem unloadable_project_is_reported_as_a_warning s ctx disk pkg message :
  In s [v15ToV16; v17ToV18; v18ToV19] ->
  manifestOf disk (projectPath ctx) = Some pkg ->
  (createTsProject (projectPath ctx) disk).1 = Thrown message ->
  exists r disk',
    run s ctx disk = (Returned r, disk')
    /\ Forall (λ c, Change.file c = "package.json") (changes r)
    /\ warnings r = [warning "tsconfig.json"
                       ("Could not load TypeScript project: " +:+ String_of_error message)]
    /\ errors r = []
    /\ forall path, path <> path_join (projectPath ctx) "package.json" ->
                    disk' !! path = disk !! path.
Proof.
  intros Hs Hpkg Hthrown.
  assert (Hbody : forall stepName updates
                    (codemods : MigrationContext -> StepState -> IO StepState),
             exists r disk',
               (pkgChanges <- updatePackageVersions ctx updates ;;
                loaded <- loadSourceFiles ctx ;;
                match loaded with
                | inl e => ret (projectLoadFailed
                                  (pushChanges (emptyResult stepName) pkgChanges) e)
                | inr sfs =>
                    st <- codemods ctx
                            {| sourceFiles := sfs;
                               result := pushChanges (emptyResult stepName) pkgChanges |} ;;
                    ret (result st)
                end) disk = (Returned r, disk')
               /\ Forall (λ c, Change.file c = "package.json") (changes r)
               /\ warnings r
                  = [warning "tsconfig.json"
                       ("Could not load TypeScript project: " +:+ String_of_error message)]
               /\ errors r = []
               /\ forall path, path <> path_join (projectPath ctx) "package.json" ->
                               disk' !! path = disk !! path).
  { intros stepName updates codemods.
    destruct (updatePackageVersions ctx updates disk) as [[cs | e] disk1] eqn:Hupdate.
    2: { exfalso. rewrite updatePackageVersions_eq in Hupdate. unfold manifestOf in Hpkg.
         destruct (skipPackageJson ctx); [discriminate Hupdate |]. cbv zeta in Hupdate.
         destruct (disk !! path_join (projectPath ctx) "package.json")
           as [[| p | | | |] |]; discriminate. }
    assert (Hload : loadSourceFiles ctx disk1 = (Returned (inl message), disk1)).
    { pose proof (loadSourceFiles_preservesDisk ctx disk1) as Hsame.
      assert (Hfirst : (loadSourceFiles ctx disk1).1 = Returned (inl message)).
      { assert (Hdisk : (loadSourceFiles ctx disk).1 = Returned (inl message)).
        { unfold loadSourceFiles, tryCatch, bind.
          destruct (createTsProject (projectPath ctx) disk) as [[sfs | e] d];
            cbn [fst] in Hthrown; [discriminate | by injection Hthrown as ->]. }
        rewrite <- Hdisk. rewrite updatePackageVersions_eq in Hupdate.
        destruct (skipPackageJson ctx); [by injection Hupdate as _ <- |].
        cbv zeta in Hupdate. unfold manifestOf in Hpkg.
        destruct (disk !! path_join (projectPath ctx) "package.json")
          as [[| p | | | |] |] eqn:Hd; try discriminate.
        injection Hupdate as _ <-. destruct (_ && _)%bool; [| done].
        apply loadSourceFiles_after_write_to_manifest. unfold manifestOf. by rewrite Hd. }
      destruct (loadSourceFiles ctx disk1) as [c d]. cbn [fst snd] in *. by subst. }
    eexists _, disk1. split; [| split; [| split; [| split]]].
    - rewrite (bind_eq _ _ disk cs disk1 Hupdate).
      rewrite (bind_eq _ _ disk1 (inl message) disk1 Hload). reflexivity.
    - cbn [projectLoadFailed pushWarnings pushChanges changes emptyResult app].
      by apply (updatePackageVersions_changes_in_manifest ctx updates disk cs disk1).
    - reflexivity.
    - reflexivity.
    - intros path Hpath. rewrite updatePackageVersions_eq in Hupdate.
      destruct (skipPackageJson ctx); [by injection Hupdate as _ <- |].
      cbv zeta in Hupdate.
      destruct (disk !! path_join (projectPath ctx) "package.json")
        as [[| p | | | |] |]; try discriminate.
      injection Hupdate as _ <-. destruct (_ && _)%bool; [| done].
      by apply lookup_insert_ne. }
  cbn [In] in Hs. destruct Hs as [<- | [<- | [<- | []]]]; cbn [run v15ToV16 v17ToV18 v18ToV19].
  - apply (Hbody v15ToV16_name v15ToV16_updates v15ToV16_codemods).
  - apply (Hbody v17ToV18_name v17ToV18_updates v17ToV18_codemods).
  - apply (Hbody v18ToV19_name v18ToV19_updates v18ToV19_codemods).
Qed.

Lemma unloadable_project_is_reported_as_a_warning_witness :
  let disk : Disk := <[ "/app/tsconfig.json" := TsConfigFile None ]> Examples.projectV17 in
  exists r disk',
    run v17ToV18 (Examples.context false) disk = (Returned r, disk')
    /\ Forall (λ c, Change.file c = "package.json") (changes r)
    /\ warnings r
       = [warning "tsconfig.json"
            ("Could not load TypeScript project: "
             +:+ String_of_error "Failed to read tsconfig: /app/tsconfig.json")]
    /\ errors r = []
    /\ forall path, path <> "/app/package.json" -> disk' !! path = disk !! path.
Proof.
  intros disk.
  apply (unloadable_project_is_reported_as_a_warning v17ToV18 (Examples.context false) disk
           (Examples.manifest "^17.0.0")
           "Failed to read tsconfig: /app/tsconfig.json").
  - right. left. reflexivity.
  - vm_compute. reflexivity.
  - vm_compute. reflexivity.
Defined.

Lemma typescript_path_is_not_the_manifest_name cwd path :
  isTypeScriptPath cwd path = true -> path <> "package.json".
Proof.
  intros Hpath Heq. unfold isTypeScriptPath, relativeTo in Hpath.
  destruct (JsString.dropPrefix (cwd +:+ "/") path) as [relative |] eqn:Hdrop; [| done].
  apply dropPrefix_Some in Hdrop.
  apply andb_true_iff in Hpath. destruct Hpath as [Hpath _].
  apply andb_true_iff in Hpath. destruct Hpath as [Hends _].
  apply endsWith_inv in Hends. destruct Hends as (pre & ->).
  assert (Hts : JsString.endsWith ".ts" path = true).
  { rewrite Hdrop, <- append_assoc. apply endsWith_append. }
  rewrite Heq in Hts. discriminate Hts.
Qed.

Lemma project_file_is_not_the_manifest_name disk cwd path :
  isProjectFile disk cwd path = true -> path <> "package.json".
Proof.
  unfold isProjectFile. intros Hfile Heq.
  destruct (disk !! path) as [[| | | | imports body |] |]; try discriminate Hfile.
  apply orb_true_iff in Hfile. destruct Hfile as [Hglob | Hconfigured].
  - by apply (typescript_path_is_not_the_manifest_name cwd path).
  - subst path. discriminate Hconfigured.
Qed.

Lemma NoDup_map_eq {A B : Type} (f : A -> B) (l : list A) x y :
  NoDup (List.map f l) -> In x l -> In y l -> f x = f y -> x = y.
Proof.
  induction l as [| z l IH]; [done |]. cbn [List.map].
  intros [Hz Hl]%NoDup_cons [<- | Hx] [<- | Hy] Heq; try done.
  - exfalso. apply Hz. rewrite Heq. by apply list_elem_of_In, in_map.
  - exfalso. apply Hz. rewrite <- Heq. by apply list_elem_of_In, in_map.
  - by apply IH.
Qed.

(** One codemod of a step body that has nothing to do in [sf]: the file
    stays unnoticed. *)
Lemma unnoticed_applyCodemod sf ctx body report st disk :
  dryRun ctx = false ->
  (forall sf', filePath (FileEdit.sourceFile (body sf')) = filePath sf') ->
  (forall sf', FileEdit.fileChanged (body sf') = false -> FileEdit.sourceFile (body sf') = sf') ->
  (forall sf', Forall (λ c, Change.file c = filePath sf') (FileEdit.changes (body sf'))) ->
  body sf = FileEdit.unchanged sf ->
  (forall r res, changes (report r res) = changes res ++ Codemod.changes r
                 \/ changes (report r res) = changes res) ->
  unnoticed sf st disk ->
  exists st' disk',
    applyCodemod (fun sfs => forEachSourceFile ctx body sfs) report st disk
    = (Returned st', disk')
    /\ unnoticed sf st' disk'.
Proof.
  intros Hdry Hpath Hflag Hfile Hsf Hreport (Hnodup & Hsync & Hin & Hquiet).
  destruct (forEachSourceFile_saves ctx body Hdry Hpath Hflag (sourceFiles st) disk Hnodup)
    as (r & disk' & Hrun & Hfiles & _ & Hkeep).
  destruct (forEachSourceFile_returns ctx body (sourceFiles st) disk) as (disk2 & Hret).
  rewrite Hrun in Hret. injection Hret as Hr _.
  eexists _, disk'. split.
  { unfold applyCodemod. rewrite (bind_eq _ _ disk r disk' Hrun). reflexivity. }
  unfold unnoticed. cbn [sourceFiles result]. split; [| split; [| split]].
  - rewrite Hfiles, List.map_map.
    erewrite List.map_ext; [exact Hnodup |]. intros sf'. apply Hpath.
  - by apply Hkeep.
  - rewrite Hfiles. apply in_map_iff. exists sf. split; [by rewrite Hsf | done].
  - assert (Hnew : Forall (λ c, Change.file c <> filePath sf) (Codemod.changes r)).
    { rewrite Hr. cbn [Codemod.changes]. apply Forall_forall. intros c Hc.
      apply list_elem_of_In, in_flat_map in Hc. destruct Hc as (sf' & Hsf' & Hc).
      specialize (Hfile sf'). rewrite Forall_forall in Hfile.
      rewrite (Hfile c) by (by apply list_elem_of_In).
      intros Heq.
      assert (sf' = sf) by (by apply (NoDup_map_eq filePath (sourceFiles st))).
      subst sf'. by rewrite Hsf in Hc. }
    destruct (Hreport r (result st)) as [-> | ->]; [| done].
    apply Forall_app. done.
Qed.

Lemma removeObsoleteImport_file_unchanged moduleName symbolName sf :
  isImportedFrom moduleName symbolName sf = false ->
  removeObsoleteImport_file moduleName symbolName sf = FileEdit.unchanged sf.
Proof. unfold removeObsoleteImport_file, isImportedFrom. by intros ->. Qed.

Lemma removeObsoleteImport_file_changes moduleName symbolName sf :
  Forall (λ c, Change.file c = filePath sf)
    (FileEdit.changes (removeObsoleteImport_file moduleName symbolName sf)).
Proof.
  unfold removeObsoleteImport_file.
  destruct (existsb _ (importDeclarations sf)); repeat constructor.
Qed.

Lemma renameNamedImport_file_unchanged moduleName oldName newName sf :
  isImportedFrom moduleName oldName sf = false ->
  renameNamedImport_file moduleName oldName newName sf = FileEdit.unchanged sf.
Proof. unfold renameNamedImport_file, isImportedFrom. cbv zeta. by intros ->. Qed.

Lemma renameNamedImport_file_changes moduleName oldName newName sf :
  Forall (λ c, Change.file c = filePath sf)
    (FileEdit.changes (renameNamedImport_file moduleName oldName newName sf)).
Proof.
  unfold renameNamedImport_file. cbv zeta.
  destruct (existsb _ (importDeclarations sf)); repeat constructor.
Qed.

(** The removal whose outcome a step drops: the file is rewritten with one
    named import of the symbol fewer, and the result stays as it was. *)
Lemma dropped_removal_rewrites_the_file sf ctx moduleName symbolName st disk :
  dryRun ctx = false ->
  isImportedFrom moduleName symbolName sf = true ->
  unnoticed sf st disk ->
  exists st' disk' imports',
    applyCodemod (fun sfs => forEachSourceFile ctx
                               (removeObsoleteImport_file moduleName symbolName) sfs)
      reportNothing st disk
    = (Returned st', disk')
    /\ result st' = result st
    /\ disk' !! filePath sf = Some (TypeScriptFile imports' (statements sf))
    /\ S (countBindings moduleName symbolName imports')
       = countBindings moduleName symbolName (importDeclarations sf).
Proof.
  intros Hdry Himported (Hnodup & Hsync & Hin & _).
  destruct (forEachSourceFile_saves ctx (removeObsoleteImport_file moduleName symbolName)
              Hdry
              (codemodBody_keeps_path (RemoveObsoleteImport moduleName symbolName))
              (codemodBody_flags_its_edits (RemoveObsoleteImport moduleName symbolName))
              (sourceFiles st) disk Hnodup)
    as (r & disk' & Hrun & Hfiles & _ & Hkeep).
  destruct (removeObsoleteImport_file_spec moduleName symbolName sf)
    as (Hpath & Hstmts & _ & _ & Hcount). cbv zeta in *. rewrite Himported in Hcount.
  eexists _, disk', _. split.
  { unfold applyCodemod. rewrite (bind_eq _ _ disk r disk' Hrun). reflexivity. }
  split; [reflexivity |]. split; [| exact Hcount].
  specialize (Hkeep Hsync). rewrite Hfiles in Hkeep. unfold inSync in Hkeep.
  rewrite Forall_forall in Hkeep.
  rewrite <- Hpath, <- Hstmts. apply Hkeep. apply list_elem_of_In, in_map_iff.
  exists sf. done.
Qed.

(** How the body of a step starts on a project with a manifest: the
    version update returns, reports changes of the manifest only, and
    leaves a disk from which the same project is loaded. *)
Lemma step_prelude ctx updates disk pkg :
  manifestOf disk (projectPath ctx) = Some pkg ->
  exists cs disk0,
    updatePackageVersions ctx updates disk = (Returned cs, disk0)
    /\ Forall (λ c, Change.file c = "package.json") cs
    /\ (loadSourceFiles ctx disk0).1 = (loadSourceFiles ctx disk).1.
Proof.
  intros Hpkg.
  destruct (updatePackageVersions ctx updates disk) as [[cs | e] disk0] eqn:Hupdate.
  2: { exfalso. rewrite updatePackageVersions_eq in Hupdate. unfold manifestOf in Hpkg.
       destruct (skipPackageJson ctx); [discriminate Hupdate |]. cbv zeta in Hupdate.
       destruct (disk !! path_join (projectPath ctx) "package.json")
         as [[| p | | | |] |]; discriminate. }
  exists cs, disk0. split; [reflexivity |].
  split; [by apply (updatePackageVersions_changes_in_manifest ctx updates disk cs disk0) |].
  rewrite updatePackageVersions_eq in Hupdate.
  destruct (skipPackageJson ctx); [by injection Hupdate as _ <- |].
  cbv zeta in Hupdate. unfold manifestOf in Hpkg.
  destruct (disk !! path_join (projectPath ctx) "package.json")
    as [[| p | | | |] |] eqn:Hd; try discriminate.
  injection Hupdate as _ <-. destruct (_ && _)%bool; [| done].
  apply loadSourceFiles_after_write_to_manifest. unfold manifestOf. by rewrite Hd.
Qed.

(** Step 17 → 18 removes the import of [AnimationDriver] from
    [@angular/animations/browser] but drops what [removeObsoleteImport]
    returns: in applied mode a file that imports it, and that the other
    codemods of the step have nothing to do in, is rewritten on disk with
    one named import of [AnimationDriver] fewer, while no change of the
    result the step returns is filed under that file. *)
Theorem AnimationDriver_import_is_removed_unreported ctx disk pkg project sf :
  dryRun ctx = false ->
  manifestOf disk (projectPath ctx) = Some pkg ->
  (createTsProject (projectPath ctx) disk).1 = Returned project ->
  In sf (getSourceFiles project (projectPath ctx)) ->
  isImportedFrom "@angular/animations/browser" "AnimationDriver" sf = true ->
  isImportedFrom "@angular/core/testing" "async" sf = false ->
  isImportedFrom "@angular/common" "isPlatformWorkerUi" sf = false ->
  isImportedFrom "@angular/common" "isPlatformWorkerApp" sf = false ->
  isImportedFrom "@angular/platform-server" "platformDynamicServer" sf = false ->
  isImportedFrom "@angular/platform-browser-dynamic" "RESOURCE_CACHE_PROVIDER" sf = false ->
  exists r disk' imports',
    run v17ToV18 ctx disk = (Returned r, disk')
    /\ disk' !! filePath sf = Some (TypeScriptFile imports' (statements sf))
    /\ S (countBindings "@angular/animations/browser" "AnimationDriver" imports')
       = countBindings "@angular/animations/browser" "AnimationDriver"
           (importDeclarations sf)
    /\ Forall (λ c, Change.file c <> filePath sf) (changes r).
Proof.
  intros Hdry Hpkg Hproject Hsf Hdriver Hasync Hui Happ Hserver Hcache.
  cbn [run v17ToV18]. unfold v17ToV18_run. cbv zeta.
  (* the manifest *)
  destruct (step_prelude ctx v17ToV18_updates disk pkg Hpkg)
    as (cs & disk0 & Hupdate & Hcs & Hsame).
  rewrite (bind_eq _ _ disk cs disk0 Hupdate).
  (* the project *)
  assert (Hload : loadSourceFiles ctx disk0
                  = (Returned (inr (getSourceFiles project (projectPath ctx))), disk0)).
  { pose proof (loadSourceFiles_preservesDisk ctx disk0) as Hdisk0.
    assert (Hdisk : (loadSourceFiles ctx disk).1
                    = Returned (inr (getSourceFiles project (projectPath ctx)))).
    { unfold loadSourceFiles, tryCatch, bind.
      destruct (createTsProject (projectPath ctx) disk) as [[sfs | e] d];
        cbn [fst] in Hproject; [by injection Hproject as -> | discriminate Hproject]. }
    rewrite <- Hsame in Hdisk. clear Hsame.
    destruct (loadSourceFiles ctx disk0) as [c d]. cbn [fst snd] in Hdisk, Hdisk0.
    by rewrite Hdisk, Hdisk0. }
  rewrite (bind_eq _ _ disk0 _ disk0 Hload).
  destruct (loadSourceFiles_loaded ctx disk0 _ disk0 Hload) as (_ & Hnodup & Hsync & Hts).
  set (sfs := getSourceFiles project (projectPath ctx)) in *.
  set (st0 := {| sourceFiles := sfs;
                 result := pushChanges (emptyResult v17ToV18_name) cs |}).
  assert (H0 : unnoticed sf st0 disk0).
  { split; [exact Hnodup |]. split; [exact Hsync |]. split; [exact Hsf |].
    cbn [st0 result pushChanges changes emptyResult app].
    eapply Forall_impl; [exact Hcs |]. intros c Hc Heq. cbn beta in Hc.
    apply (project_file_is_not_the_manifest_name disk0 (projectPath ctx) (filePath sf));
      [by apply Hts | congruence]. }
  (* the codemods that report *)
  assert (Hcodemods :
            exists st' disk' imports',
              v17ToV18_codemods ctx st0 disk0 = (Returned st', disk')
              /\ disk' !! filePath sf = Some (TypeScriptFile imports' (statements sf))
              /\ S (countBindings "@angular/animations/browser" "AnimationDriver" imports')
                 = countBindings "@angular/animations/browser" "AnimationDriver"
                     (importDeclarations sf)
              /\ Forall (λ c, Change.file c <> filePath sf) (changes (result st'))).
  2: { destruct Hcodemods as (st' & disk' & imports' & Hrun & Hfile & Hcount & Hquiet).
       exists (result st'), disk', imports'.
       rewrite (bind_eq _ _ disk0 st' disk' Hrun). done. }
  clearbody st0. clear Hupdate Hload Hcs Hproject Hsf Hnodup Hsync Hts.
  unfold v17ToV18_codemods, migrateAsyncToWaitForAsync, renameNamedImport,
    removeObsoleteImport. cbv zeta.
  destruct (unnoticed_applyCodemod sf ctx
              (renameNamedImport_file "@angular/core/testing" "async" "waitForAsync")
              reportChanges st0 disk0 Hdry
              (codemodBody_keeps_path MigrateAsyncToWaitForAsync)
              (codemodBody_flags_its_edits MigrateAsyncToWaitForAsync)
              (renameNamedImport_file_changes _ _ _)
              (renameNamedImport_file_unchanged _ _ _ sf Hasync)
              (fun r res => or_introl eq_refl) H0)
    as (st1 & disk1 & Hrun1 & H1).
  rewrite (bind_eq _ _ disk0 st1 disk1 Hrun1).
  destruct (unnoticed_applyCodemod sf ctx
              (removeObsoleteImport_file "@angular/common" "isPlatformWorkerUi")
              (reportWithMessage "isPlatformWorkerUi() removed in Angular 18 — the Angular WebWorker platform is discontinued. Remove usages.")
              st1 disk1 Hdry
              (codemodBody_keeps_path (RemoveObsoleteImport _ _))
              (codemodBody_flags_its_edits (RemoveObsoleteImport _ _))
              (removeObsoleteImport_file_changes _ _)
              (removeObsoleteImport_file_unchanged _ _ sf Hui)
              (fun r res => or_introl eq_refl) H1)
    as (st2 & disk2 & Hrun2 & H2).
  rewrite (bind_eq _ _ disk1 st2 disk2 Hrun2).
  destruct (unnoticed_applyCodemod sf ctx
              (removeObsoleteImport_file "@angular/common" "isPlatformWorkerApp")
              (reportWithMessage "isPlatformWorkerApp() removed in Angular 18 — the Angular WebWorker platform is discontinued. Remove usages.")
              st2 disk2 Hdry
              (codemodBody_keeps_path (RemoveObsoleteImport _ _))
              (codemodBody_flags_its_edits (RemoveObsoleteImport _ _))
              (removeObsoleteImport_file_changes _ _)
              (removeObsoleteImport_file_unchanged _ _ sf Happ)
              (fun r res => or_introl eq_refl) H2)
    as (st3 & disk3 & Hrun3 & H3).
  rewrite (bind_eq _ _ disk2 st3 disk3 Hrun3).
  destruct (unnoticed_applyCodemod sf ctx
              (removeObsoleteImport_file "@angular/platform-server" "platformDynamicServer")
              (reportWithMessage "platformDynamicServer removed. Add import '@angular/compiler' before bootstrapping and use platformServer() instead.")
              st3 disk3 Hdry
              (codemodBody_keeps_path (RemoveObsoleteImport _ _))
              (codemodBody_flags_its_edits (RemoveObsoleteImport _ _))
              (removeObsoleteImport_file_changes _ _)
              (removeObsoleteImport_file_unchanged _ _ sf Hserver)
              (fun r res => or_introl eq_refl) H3)
    as (st4 & disk4 & Hrun4 & H4).
  rewrite (bind_eq _ _ disk3 st4 disk4 Hrun4).
  destruct (unnoticed_applyCodemod sf ctx
              (removeObsoleteImport_file "@angular/platform-browser-dynamic"
                 "RESOURCE_CACHE_PROVIDER")
              reportChanges st4 disk4 Hdry
              (codemodBody_keeps_path (RemoveObsoleteImport _ _))
              (codemodBody_flags_its_edits (RemoveObsoleteImport _ _))
              (removeObsoleteImport_file_changes _ _)
              (removeObsoleteImport_file_unchanged _ _ sf Hcache)
              (fun r res => or_introl eq_refl) H4)
    as (st5 & disk5 & Hrun5 & H5).
  rewrite (bind_eq _ _ disk4 st5 disk5 Hrun5).
  (* the removal that is dropped *)
  destruct (dropped_removal_rewrites_the_file sf ctx "@angular/animations/browser"
              "AnimationDriver" st5 disk5 Hdry Hdriver H5)
    as (st6 & disk6 & imports' & Hrun6 & Hresult & Hfile & Hcount).
  rewrite (bind_eq _ _ disk5 st6 disk6 Hrun6).
  eexists _, disk6, imports'. split; [reflexivity |].
  split; [exact Hfile |]. split; [exact Hcount |].
  cbn [result scan warn pushWarnings changes]. rewrite Hresult.
  destruct H5 as (_ & _ & _ & Hquiet). exact Hquiet.
Qed.

Lemma AnimationDriver_import_is_removed_unreported_witness :
  let sf := {| filePath := "/app/src/driver.ts";
               importDeclarations :=
                 [{| moduleSpecifier := "@angular/animations/browser"; defaultImport := None;
                     namedImports := [{| importedName := "AnimationDriver"; alias := None |};
                                      {| importedName := "NoopAnimationDriver";
                                         alias := None |}] |}];
               statements := [identifier "AnimationDriver"] |} in
  let disk : Disk :=
    <[ filePath sf := TypeScriptFile (importDeclarations sf) (statements sf) ]>
      Examples.projectV17 in
  exists r disk' imports',
    run v17ToV18 (Examples.context false) disk = (Returned r, disk')
    /\ disk' !! filePath sf = Some (TypeScriptFile imports' (statements sf))
    /\ S (countBindings "@angular/animations/browser" "AnimationDriver" imports')
       = countBindings "@angular/animations/browser" "AnimationDriver"
           (importDeclarations sf)
    /\ Forall (λ c, Change.file c <> filePath sf) (changes r).
Proof.
  intros sf disk.
  apply (AnimationDriver_import_is_removed_unreported (Examples.context false) disk
           (Examples.manifest "^17.0.0") [sf] sf).
  - reflexivity.
  - vm_compute. reflexivity.
  - vm_compute. reflexivity.
  - vm_compute. left. reflexivity.
  - reflexivity.
  - reflexivity.
  - reflexivity.
  - reflexivity.
  - reflexivity.
  - reflexivity.
Defined.

(** The announcement of step 15 → 16 is kept by step 16 → 17: on the same
    source files, the files for which step 15 → 16 warns that [CanLoad]
    will be migrated are exactly the files for which
    [migrateCanLoadToCanMatch] reports a change, in the same order. *)
Theorem CanLoad_is_migrated_where_it_was_announced sourceFiles ctx disk :
  exists r disk',
    migrateCanLoadToCanMatch sourceFiles ctx disk = (Returned r, disk')
    /\ List.map Change.file (Codemod.changes r)
       = List.map Warning.file (flat_map v15_canLoad sourceFiles)
    /\ Codemod.warnings r = [].
Proof.
  unfold migrateCanLoadToCanMatch.
  destruct (forEachSourceFile_returns ctx migrateCanLoadToCanMatch_file sourceFiles disk)
    as (disk' & Hrun).
  eexists _, disk'. split; [exact Hrun |].
  cbn [Codemod.changes Codemod.warnings]. clear Hrun.
  induction sourceFiles as [| sf rest [IHc IHw]]; [done |].
  assert (Hfile : List.map Change.file (FileEdit.changes (migrateCanLoadToCanMatch_file sf))
                  = List.map Warning.file (v15_canLoad sf)
                  /\ FileEdit.warnings (migrateCanLoadToCanMatch_file sf) = []).
  { unfold migrateCanLoadToCanMatch_file, v15_canLoad.
    destruct (existsb (importsFrom "@angular/router" "CanLoad") (importDeclarations sf));
      split; reflexivity. }
  destruct Hfile as [Hc Hw].
  cbn [flat_map]. rewrite !List.map_app, IHc, IHw, Hc, Hw. split; reflexivity.
Qed.
